(** * Cycle-Time-Calculator: a shallow embedding of [lambda_function.py]

    The development follows the request pipeline of the service:
    [lambda_handler] -> [get_tool_detail] -> [parse_description] ->
    [get_family] -> [calc_prep_time] -> [calc_fluting_time].

    Python values are modelled as follows.
    - [str] is [string]; the helpers of [PyStr] are the [str] methods the
      source calls ([in], [split], [upper], [startswith], ...).
    - [float] (and the [int]s that flow into float arithmetic) is the carrier
      of the class [PyFloat]: the arithmetic is an interface, so every theorem
      holds for any implementation of it; [QFloat] is an instance on exact
      rationals on which the definitions compute.
    - a [ContentDict] whose [status_code] is 900 is [Ok], any other status is
      [Failure code]; an exception that the source does not catch is
      [Raise]. *)

From Stdlib Require Import String Ascii List ZArith Bool Lia.
From Stdlib Require Import QArith Qround Qabs.
Import ListNotations.

#[local] Open Scope string_scope.
#[local] Open Scope Z_scope.
#[local] Open Scope list_scope.

(** ** Outcomes: [ContentDict] status codes and uncaught exceptions *)

Inductive PyExn : Type :=
| ZeroDivisionError
| IndexError
| KeyError
| ValueError
| SyntaxError
| TypeError
| UnboundLocalError.

Inductive Outcome (A : Type) : Type :=
| Ok (a : A)
| Failure (code : Z)
| Raise (e : PyExn).

Arguments Ok {A} a.
Arguments Failure {A} code.
Arguments Raise {A} e.

Definition bind {A B : Type} (m : Outcome A) (k : A -> Outcome B) : Outcome B :=
  match m with
  | Ok a => k a
  | Failure c => Failure c
  | Raise e => Raise e
  end.

Notation "x <- m ;; k" := (bind m (fun x => k))
  (at level 61, m at next level, right associativity).
Notation "' pat <- m ;; k" := (bind m (fun x => match x with pat => k end))
  (at level 61, pat pattern, m at next level, right associativity).

(** Whether a stage returned with status 900. *)
Definition is_ok {A : Type} (m : Outcome A) : bool :=
  match m with
  | Ok _ => true
  | _ => false
  end.

(** [status_code] of the [ContentDict] a stage returns (900 is success);
    an uncaught exception has none. *)
Definition status_code {A : Type} (m : Outcome A) : option Z :=
  match m with
  | Ok _ => Some 900
  | Failure c => Some c
  | Raise _ => None
  end.

(** ** The [str] methods used by the source *)

Module PyStr.

(** [sub in s] *)
Fixpoint contains (sub s : string) : bool :=
  String.prefix sub s ||
  match s with
  | EmptyString => false
  | String _ s' => contains sub s'
  end.

(** [s.startswith(p)] *)
Definition startswith (s p : string) : bool := String.prefix p s.

(** [s.endswith(p)] *)
Fixpoint endswith (s p : string) : bool :=
  String.eqb s p ||
  match s with
  | EmptyString => false
  | String _ s' => endswith s' p
  end.

(** [w in l] for a list (or set) of strings *)
Definition mem (w : string) (l : list string) : bool :=
  existsb (String.eqb w) l.

(** [any(x in s for x in l)] *)
Definition any_in (l : list string) (s : string) : bool :=
  existsb (fun x => contains x s) l.

(** [s.split(c)] for a one-character separator: every occurrence splits,
    so the result is never empty. *)
Fixpoint split_char (c : ascii) (s : string) : list string :=
  match s with
  | EmptyString => [EmptyString]
  | String a s' =>
      if Ascii.eqb a c then EmptyString :: split_char c s'
      else match split_char c s' with
           | [] => [String a EmptyString]
           | w :: ws => String a w :: ws
           end
  end.

Definition upper_ascii (a : ascii) : ascii :=
  let n := nat_of_ascii a in
  if (97 <=? n)%nat && (n <=? 122)%nat then ascii_of_nat (n - 32) else a.

(** [s.upper()] on ASCII text *)
Fixpoint upper (s : string) : string :=
  match s with
  | EmptyString => EmptyString
  | String a s' => String (upper_ascii a) (upper s')
  end.

Definition lower_ascii (a : ascii) : ascii :=
  let n := nat_of_ascii a in
  if (65 <=? n)%nat && (n <=? 90)%nat then ascii_of_nat (n + 32) else a.

(** [s.lower()] on ASCII text *)
Fixpoint lower (s : string) : string :=
  match s with
  | EmptyString => EmptyString
  | String a s' => String (lower_ascii a) (lower s')
  end.

(** [s[n:]] *)
Fixpoint drop (n : nat) (s : string) : string :=
  match n, s with
  | O, _ => s
  | S _, EmptyString => EmptyString
  | S n', String _ s' => drop n' s'
  end.

(** The characters the regular-expression class [\w] accepts (ASCII). *)
Definition is_word_char (a : ascii) : bool :=
  let n := nat_of_ascii a in
  ((48 <=? n)%nat && (n <=? 57)%nat) || ((65 <=? n)%nat && (n <=? 90)%nat)
  || ((97 <=? n)%nat && (n <=? 122)%nat) || (n =? 95)%nat.

(** [re.search(r'\b' + w + r'\b', s)] for a word [w] of word characters;
    [prev_is_word] tells whether the character before [s] is one. *)
Fixpoint word_search_from (w : string) (prev_is_word : bool) (s : string) : bool :=
  (negb prev_is_word && String.prefix w s &&
   match drop (String.length w) s with
   | EmptyString => true
   | String c _ => negb (is_word_char c)
   end)
  || match s with
     | EmptyString => false
     | String a s' => word_search_from w (is_word_char a) s'
     end.

(** [re.search(r'\b(?:w1|w2|...)\b', s)] *)
Definition word_search (ws : list string) (s : string) : bool :=
  existsb (fun w => word_search_from w false s) ws.

(** [s.replace(old, new)] for a non-empty [old]: occurrences are replaced
    from the left and do not overlap; [skip] counts the characters of an
    occurrence still to be dropped. *)
Fixpoint replace_from (old new : string) (skip : nat) (s : string) : string :=
  match s with
  | EmptyString => EmptyString
  | String a s' =>
      match skip with
      | S k => replace_from old new k s'
      | O =>
          if String.prefix old s
          then new ++ replace_from old new (String.length old - 1) s'
          else String a (replace_from old new 0 s')
      end
  end.

(** [s.replace("", new)] puts [new] around every character. *)
Fixpoint intersperse (new s : string) : string :=
  match s with
  | EmptyString => new
  | String a s' => new ++ String a (intersperse new s')
  end.

Definition replace (old new s : string) : string :=
  if String.eqb old "" then intersperse new s else replace_from old new 0 s.

(** [sep.join(l)] *)
Fixpoint join (sep : string) (l : list string) : string :=
  match l with
  | [] => ""
  | [w] => w
  | w :: ws => w ++ sep ++ join sep ws
  end.

(** [s.count(c)] for a one-character [c] *)
Fixpoint count_char (c : ascii) (s : string) : nat :=
  match s with
  | EmptyString => O
  | String a s' => (if Ascii.eqb a c then 1 else 0) + count_char c s'
  end.

(** [l.index(w)]: [None] stands for [ValueError]. *)
Fixpoint index (w : string) (l : list string) : option nat :=
  match l with
  | [] => None
  | x :: l' => if String.eqb x w then Some O else option_map S (index w l')
  end.

(** Words in the order of their first occurrence. *)
Fixpoint dedup (seen words : list string) : list string :=
  match words with
  | [] => []
  | w :: ws =>
      if existsb (String.eqb w) seen then dedup seen ws
      else w :: dedup (w :: seen) ws
  end.

(** The characters [str.strip()] and [int()] treat as white space. *)
Definition is_space (a : ascii) : bool :=
  let n := nat_of_ascii a in
  ((9 <=? n)%nat && (n <=? 13)%nat) || ((28 <=? n)%nat && (n <=? 32)%nat).

Definition digit_of (a : ascii) : option Z :=
  let n := nat_of_ascii a in
  if (48 <=? n)%nat && (n <=? 57)%nat then Some (Z.of_nat (n - 48)) else None.

Fixpoint lstrip (s : string) : string :=
  match s with
  | EmptyString => EmptyString
  | String a s' => if is_space a then lstrip s' else s
  end.

Fixpoint rstrip (s : string) : string :=
  match s with
  | EmptyString => EmptyString
  | String a s' =>
      match rstrip s' with
      | EmptyString => if is_space a then EmptyString else String a EmptyString
      | r => String a r
      end
  end.

Definition strip (s : string) : string := lstrip (rstrip s).

(** Splitting at every character that satisfies [p]. *)
Fixpoint split_pred (p : ascii -> bool) (s : string) : list string :=
  match s with
  | EmptyString => [EmptyString]
  | String a s' =>
      if p a then EmptyString :: split_pred p s'
      else match split_pred p s' with
           | [] => [String a EmptyString]
           | w :: ws => String a w :: ws
           end
  end.

(** [s.split()]: runs of white space separate, no empty word remains. *)
Definition split_ws (s : string) : list string :=
  filter (fun w => negb (String.eqb w "")) (split_pred is_space s).

(** [s.isnumeric()] on ASCII text: not empty and digits only. *)
Fixpoint all_digits (s : string) : bool :=
  match s with
  | EmptyString => true
  | String a s' =>
      match digit_of a with
      | Some _ => all_digits s'
      | None => false
      end
  end.

Definition isnumeric (s : string) : bool :=
  negb (String.eqb s "") && all_digits s.

(** Digits of a decimal [int] literal as [int()] reads them: one or more
    digits, single underscores allowed between digits.  [acc] is the value
    read so far, [after_digit] tells whether the previous character was a
    digit. *)
Fixpoint int_digits (s : string) (acc : Z) (after_digit : bool) : option Z :=
  match s with
  | EmptyString => if after_digit then Some acc else None
  | String a s' =>
      match digit_of a with
      | Some d => int_digits s' (10 * acc + d) true
      | None =>
          if Ascii.eqb a "_"%char && after_digit then
            match s' with
            | EmptyString => None
            | String b _ =>
                match digit_of b with
                | Some _ => int_digits s' acc false
                | None => None
                end
            end
          else None
      end
  end.

(** [int(s)] for a string [s]: [None] stands for [ValueError]. *)
Definition py_int (s : string) : option Z :=
  match strip s with
  | String "+" r => int_digits r 0 false
  | String "-" r => option_map Z.opp (int_digits r 0 false)
  | r => int_digits r 0 false
  end.

End PyStr.

(** ** Reference data: the taxonomy ([json_content]) *)

(** The entries of the taxonomy document that the engine reads: the groups
    of [json_content["tool_types"]] ([get_json_from_layer] has already
    extended ["EM"], ["O-FLUTE"], ["WR"] and ["WR_COMP"] with the combined
    type names), the abbreviation table, the performance series, and the
    two lists [get_json_from_layer] builds. *)
Record Taxonomy : Type := {
  EM_LIST : list string;
  BUR_LIST : list string;
  DRILL_LIST : list string;
  FBGR_LIST : list string;
  WR_LIST : list string;
  O_FLUTE_LIST : list string;
  WR_COMP_LIST : list string;
  BUR_CUT_LIST : list string;
  HAS_END_TIME : list string;
  extras : list string;
  wr_cut : list string;
  abbreviations : list (string * string);
  perf_series : list string;
  tool_types_list : list string;
  split_tool_type_list : list string
}.

(** ** Family classification: [get_family] *)

(** The [fam_info] dictionary, with its keys. *)
Module Fam.
Record Info : Type := {
  family : string;
  ref_family : string;
  end_type : string;
  bur_cut : string;
  spiral : bool
}.
End Fam.

(** The [for cut in BUR_CUT_LIST] loop with its [else] branch: [Some] when
    the loop leaves through [break], [None] when it runs to the end. *)
Fixpoint scan_bur_cuts (cuts split_description : list string) (spiral : bool)
  : option (string * bool) :=
  match cuts with
  | [] => None
  | cut :: rest =>
      let spiral := if PyStr.mem "SPIRAL" split_description then true else spiral in
      if PyStr.mem cut split_description then Some (cut, spiral)
      else scan_bur_cuts rest split_description spiral
  end.

Definition get_family (json_content : Taxonomy) (base_description : string)
    (split_description : list string) : Outcome Fam.Info :=
  let fam f r e c s :=
    Ok {| Fam.family := f; Fam.ref_family := r; Fam.end_type := e;
          Fam.bur_cut := c; Fam.spiral := s |} in
  if PyStr.mem base_description (EM_LIST json_content) then
    fam "EM" "SQ EM" "" "" false
  else if PyStr.mem base_description (WR_LIST json_content) then
    fam "WR" "SQ EM" "" "" false
  else if PyStr.mem base_description (DRILL_LIST json_content) then
    fam "DRILL" "SQ EM" "" "" false
  else if PyStr.mem base_description (FBGR_LIST json_content) then
    match split_description with
    | [] => Raise IndexError
    | first :: _ => fam "FBGR" "BUR" first "" false
    end
  else if PyStr.mem base_description (O_FLUTE_LIST json_content) then
    fam "O-FLUTE" "SQ EM" "" "" false
  else if PyStr.mem base_description (WR_COMP_LIST json_content) then
    fam "WR COMP" "SQ EM" "" "" false
  else if PyStr.any_in (BUR_LIST json_content) base_description
          && negb (PyStr.contains "DRILL" base_description) then
    match scan_bur_cuts (BUR_CUT_LIST json_content) split_description false with
    | Some (cut, spiral) => fam "BUR" "BUR" "" cut spiral
    | None => Failure 302
    end
  else Failure 301.

(** ** Flute-count parsing: the head of [calc_fluting_time] *)

(** Lines 1561-1575: the [try] block that reads [tool.flute_count].  The
    unpacking [fl_cnt1, fl_cnt2 = map(int, ...)] succeeds exactly when the
    split has two parts and [int] accepts both; every other case raises
    inside the [try] and is reported as 202. *)
Definition parse_flute_count (fl_cnt : string) : Outcome (Z * Z) :=
  if PyStr.contains "/" fl_cnt then
    match map PyStr.py_int (PyStr.split_char "/" fl_cnt) with
    | [Some fl_cnt1; Some fl_cnt2] => Ok (fl_cnt1, fl_cnt2)
    | _ => Failure 202
    end
  else if negb (String.eqb fl_cnt "") then
    match PyStr.py_int fl_cnt with
    | Some fl_cnt1 => Ok (fl_cnt1, 1)
    | None => Failure 203
    end
  else Failure 307.

(** ** Python numbers *)

(** The interface of [float] arithmetic.  [dec m e] is the decimal literal
    [m * 10^-e] ([dec 254 1] is [25.4]); [fround x n] is [round(x, n)];
    [feqb], [fltb] and [fleb] are [==], [<] and [<=].  The one law the
    development uses is that [0.0 == 0.0] holds. *)
Class PyFloat : Type := {
  num : Type;
  fzero : num;
  of_Z : Z -> num;
  dec : Z -> nat -> num;
  fadd : num -> num -> num;
  fsub : num -> num -> num;
  fmul : num -> num -> num;
  fdiv : num -> num -> num;
  fround : num -> Z -> num;
  feqb : num -> num -> bool;
  fltb : num -> num -> bool;
  fleb : num -> num -> bool;
  fabs : num -> num;
  fpow : num -> Z -> num;
  ftrunc : num -> Z;
  fpi : num;
  ftan : num -> num;
  fradians : num -> num;
  feqb_zero : feqb fzero fzero = true
}.

Declare Scope pyfloat_scope.
Delimit Scope pyfloat_scope with F.
Infix "+" := fadd : pyfloat_scope.
Infix "-" := fsub : pyfloat_scope.
Infix "*" := fmul : pyfloat_scope.
Infix "/" := fdiv : pyfloat_scope.
Infix "==" := feqb (at level 70, no associativity) : pyfloat_scope.
Infix "<?" := fltb : pyfloat_scope.
Infix "<=?" := fleb : pyfloat_scope.

Section Numbers.
Context {F : PyFloat}.

(** [x > y] and [x >= y] *)
Definition fgtb (x y : num) : bool := fltb y x.
Definition fgeb (x y : num) : bool := fleb y x.

(** Truth value of a number: [if x:] *)
Definition truthy (x : num) : bool := negb (feqb x fzero).

(** [x / y] on Python floats: a zero divisor raises. *)
Definition pydiv (x y : num) : Outcome num :=
  if feqb y fzero then Raise ZeroDivisionError else Ok (fdiv x y).

End Numbers.

Notation "x >? y" := (fgtb x y) (at level 70, no associativity) : pyfloat_scope.
Notation "x >=? y" := (fgeb x y) (at level 70, no associativity) : pyfloat_scope.

(** An exact instance: rationals in lowest terms, [round] to [n] decimals
    with ties to even. *)
Module QFloat.

Definition pow10 (n : Z) : Q := inject_Z (10 ^ n).

(** Nearest integer, ties to even. *)
Definition round_half_even (x : Q) : Z :=
  let fl := Qfloor x in
  let r := Qminus x (inject_Z fl) in
  match Qcompare r (1 # 2) with
  | Lt => fl
  | Gt => fl + 1
  | Eq => if Z.even fl then fl else fl + 1
  end.

Definition round (x : Q) (n : Z) : Q :=
  if n <? 0 then
    Qred (Qmult (inject_Z (round_half_even (Qdiv x (pow10 (- n))))) (pow10 (- n)))
  else
    Qred (Qdiv (inject_Z (round_half_even (Qmult x (pow10 n)))) (pow10 n)).

Definition of_decimal (m : Z) (e : nat) : Q := Qred (Qdiv (inject_Z m) (pow10 (Z.of_nat e))).

Definition ltb (x y : Q) : bool :=
  match Qcompare x y with Lt => true | _ => false end.

Definition leb (x y : Q) : bool :=
  match Qcompare x y with Gt => false | _ => true end.

(** The tangent is not rational: this instance takes its Taylor polynomial
    of degree 5.  No statement below depends on it. *)
Definition tan (x : Q) : Q :=
  Qred (x + (x * x * x) * (1 # 3) + (x * x * x * x * x) * (2 # 15))%Q.

Definition pi : Q := (355 # 113)%Q.

(** [int(x)]: towards zero. *)
Definition trunc (x : Q) : Z :=
  match Qcompare x 0 with
  | Lt => Qceiling x
  | _ => Qfloor x
  end.

Definition ops : PyFloat :=
  {| num := Q;
     fzero := 0%Q;
     of_Z := inject_Z;
     dec := of_decimal;
     fadd := fun x y => Qred (Qplus x y);
     fsub := fun x y => Qred (Qminus x y);
     fmul := fun x y => Qred (Qmult x y);
     fdiv := fun x y => Qred (Qdiv x y);
     fround := round;
     feqb := Qeq_bool;
     fltb := ltb;
     fleb := leb;
     fabs := fun x => Qred (Qabs x);
     fpow := fun x n => Qred (Qpower x n);
     ftrunc := trunc;
     fpi := pi;
     ftan := tan;
     fradians := fun x => Qred (Qdiv (Qmult x pi) (inject_Z 180));
     feqb_zero := eq_refl |}.

End QFloat.

(** ** The data model *)

(** A value held in a numeric attribute: a number, or the string the
    request delivered in its place (["1/2"], ["1-1/2"]). *)
Inductive PyVal {F : PyFloat} : Type :=
| VNum (x : num)
| VStr (s : string).

(** The numeric attributes of [ToolInfo], in the order of the dataclass. *)
Inductive NumAttr : Type :=
| cut_diameter | length_of_cut | shank_diameter | overall_length
| flute_length | tip_diameter | tip_length | pilot_length | corner_radius
| neck_diameter | neck_length | tapered_neck_diameter
| tapered_neck_angle | main_angle
| material_diameter | material_oal
| fluting_cycle_time | prep_cycle_time.

(** The string attributes of [ToolInfo]. *)
Inductive StrAttr : Type :=
| material | material_dimension
| full_description | tool_description | bur_description | formatted_description
| part_number | tool_family | reference_family | tool_type | flute_count
| prep_type.

Scheme Equality for NumAttr.
Scheme Equality for StrAttr.

(** Every numeric attribute, as [tool.__dict__] lists them. *)
Definition num_attrs : list NumAttr :=
  [cut_diameter; length_of_cut; shank_diameter; overall_length;
   flute_length; tip_diameter; tip_length; pilot_length; corner_radius;
   neck_diameter; neck_length; tapered_neck_diameter;
   tapered_neck_angle; main_angle;
   material_diameter; material_oal;
   fluting_cycle_time; prep_cycle_time].

(** The option flags of [InputArgData]. *)
Inductive Flag : Type :=
| tert_od_angle | notch | end_time | spiral | double_end | coarse
| performance | detail | mass_detail | mm | prep.

Scheme Equality for Flag.

Section DataModel.
Context {F : PyFloat}.

(** [ToolInfo]: the attribute dictionary of the object. *)
Record ToolInfo : Type := {
  num_attr : NumAttr -> PyVal;
  str_attr : StrAttr -> string
}.

(** [setattr(tool, a, v)] *)
Definition set_num (tool : ToolInfo) (a : NumAttr) (v : PyVal) : ToolInfo :=
  {| num_attr := fun b => if NumAttr_beq a b then v else num_attr tool b;
     str_attr := str_attr tool |}.

Definition set_str (tool : ToolInfo) (a : StrAttr) (v : string) : ToolInfo :=
  {| num_attr := num_attr tool;
     str_attr := fun b => if StrAttr_beq a b then v else str_attr tool b |}.

(** Reading an attribute where the source does arithmetic on it: a string
    in its place is a [TypeError]. *)
Definition get_num (tool : ToolInfo) (a : NumAttr) : Outcome num :=
  match num_attr tool a with
  | VNum x => Ok x
  | VStr _ => Raise TypeError
  end.

(** [InputArgData] *)
Record InputArgData : Type := {
  flag : Flag -> bool;
  end_type : string;
  bur_cut : string
}.

Definition set_flag (feature : InputArgData) (a : Flag) (v : bool) : InputArgData :=
  {| flag := fun b => if Flag_beq a b then v else flag feature b;
     end_type := end_type feature;
     bur_cut := bur_cut feature |}.

(** [InputArgData()] *)
Definition new_feature : InputArgData :=
  {| flag := fun _ => false; end_type := ""; bur_cut := "" |}.

(** One row of a fluting rate sheet ([SQ EM] or [BUR]). *)
Record RateRow : Type := {
  min_diameter : num;
  max_diameter : num;
  bur_type : string;
  sc_fluting : num;
  dc_fluting : num;
  fluting_fr : num;
  od_fr : num;
  end_ct : num;
  end_gash_ct : num;
  end_split_ct : num
}.

(** One row of a prep sheet ([F_RED_PREP], [NECK_PREP], [POINT_PREP]). *)
Record PrepRow : Type := {
  length_ratio : num;
  neck_ratio : num;
  reduction_vol : num;
  in3_per_min : num;
  major_diameter : num
}.

(** A prep sheet: its rows, and whether any cell is NaN. *)
Record PrepSheet : Type := {
  prep_rows : list PrepRow;
  has_null : bool
}.

(** The workbook ([excel_content]): the rate sheet of each reference
    family, the prep sheets, and whether the live-time sheet is empty. *)
Record Excel : Type := {
  rate_sheet : string -> option (list RateRow);
  prep_sheet : string -> option PrepSheet;
  live_time_empty : bool
}.

(** [json_content["prep"]]: the constants of the prep rules. *)
Record PrepDict : Type := {
  fr_dia_cutoff1 : num;             (* ["fr_prep"]["dia_cutoff1"] *)
  fr_prep_dia_inc1 : num;
  fr_dia_cutoff2 : num;
  fr_prep_dia_inc2 : num;
  fr_prep_dia_inc3 : num;
  backtaper_tools : list string;    (* ["backtaper_prep"]["tools"] *)
  backtaper_rate : num;             (* ["backtaper_prep"]["rate"] *)
  included_prep_angle : num;        (* ["bur_neck_prep"]["included_prep_angle"] *)
  point_tools : list string;        (* ["point_prep"]["tools"] *)
  prep_tip_percent : num;           (* ["point_prep"]["prep_tip%"] *)
  drill_countersink_percent : num;  (* ["point_prep"]["drill&countersink%"] *)
  drill_percent : num;              (* ["point_prep"]["drill%"] *)
  point_prep_dia_cutoff : num;      (* ["drill_prep"]["point_prep_dia_cutoff"] *)
  ball_dia_cutoff : num;            (* ["ball_prep"]["dia_cutoff"] *)
  ball_dia_ref_1 : num;
  ball_loc_ref_1 : num;
  ball_dia_ref_2 : num;
  ball_loc_ref_2 : num;
  cr_dia_cutoff : num;              (* ["cr_prep"]["dia_cutoff"] *)
  cr_cut_percent : num;             (* ["cr_prep"]["cut_%"] *)
  bumping_length_cutoff : num       (* ["bumping_prep"]["length_cutoff"] *)
}.

(** What [get_json_from_layer] delivers. *)
Record JsonLayer : Type := {
  json_content : Taxonomy;
  PREP_DICT : PrepDict
}.

End DataModel.

(** ** Fluting time: [calc_fluting_time] *)

Section Fluting.
Context {F : PyFloat}.

#[local] Open Scope pyfloat_scope.

(** What [calc_fluting_time] puts in [content['detail']]: the printed
    report (its tool type and the numbers it prints), the tuple of
    components in mass mode, or the plain description. *)
Inductive Detail : Type :=
| DetailPrint (tool_type : string) (components : list num)
| DetailMass (components : list num)
| DetailDescription (description : string).

Definition dynamic_variable : num := dec 25 1.

(** [dia_cutoff = round(3/25.4, 4)] *)
Definition dia_cutoff : num := fround (of_Z 3 / dec 254 1) 4.

Definition chk_mirror_finish (inc_percentage : num) (split_description : list string) : num :=
  if PyStr.mem "MF" split_description then inc_percentage + dec 2 1 else inc_percentage.

(** Lines 1675-1679 and 1804-1808. *)
Definition mirror_finish (inc_percentage : num) (split_description : list string) : num :=
  let mf_inc := chk_mirror_finish inc_percentage split_description in
  if mf_inc >? inc_percentage then inc_percentage + (mf_inc - inc_percentage)
  else inc_percentage.

(** [(min_diameter <= cut_dia) & (max_diameter >= cut_dia)] *)
Definition in_range (cut_dia : num) (r : RateRow) : bool :=
  (min_diameter r <=? cut_dia) && (max_diameter r >=? cut_dia).

(** [filtered_df.iloc[0] + filtered_df.iloc[1]] *)
Definition add_rows (a b : RateRow) : RateRow :=
  {| min_diameter := min_diameter a + min_diameter b;
     max_diameter := max_diameter a + max_diameter b;
     bur_type := (bur_type a ++ bur_type b)%string;
     sc_fluting := sc_fluting a + sc_fluting b;
     dc_fluting := dc_fluting a + dc_fluting b;
     fluting_fr := fluting_fr a + fluting_fr b;
     od_fr := od_fr a + od_fr b;
     end_ct := end_ct a + end_ct b;
     end_gash_ct := end_gash_ct a + end_gash_ct b;
     end_split_ct := end_split_ct a + end_split_ct b |}.

(** Lines 1610-1645: the rows of the rate sheet that apply, the cut
    diameter and the description the rest of the function works with. *)
Definition select_rows (tool : ToolInfo) (cut_dia : num) (fluting_fr_data : list RateRow)
  : Outcome (list RateRow * num * string) :=
  let family := str_attr tool tool_family in
  let split_description := PyStr.split_char " " (str_attr tool tool_description) in
  let description := str_attr tool formatted_description in
  filtered <-
    (if String.eqb family "FBGR" || PyStr.mem "DIEMILL" split_description
        || PyStr.contains "TIRE BUR" description then
       let shapes := if PyStr.contains "TIRE BUR" description
                     then ["CYLINDER NOENDCUT"; "INCLUDED POINTED CONE"]
                     else ["CYLINDER NOENDCUT"] in
       Ok (filter (fun r => in_range cut_dia r && PyStr.mem (bur_type r) shapes)
                  fluting_fr_data, cut_dia, description)
     else if String.eqb family "BUR" then
       let description := str_attr tool bur_description in
       match find (fun r => PyStr.contains (PyStr.upper (bur_type r)) description)
                  fluting_fr_data with
       | Some r =>
           if String.eqb (bur_type r) "" then Failure 304
           else Ok (filter (fun r' => in_range cut_dia r'
                                      && String.eqb (bur_type r') (bur_type r))
                           fluting_fr_data, cut_dia, description)
       | None => Failure 304
       end
     else
       let cut_dia := if String.eqb family "DRILL" && (cut_dia >? dec 8500 4)
                      then dec 850 3 else cut_dia in
       Ok (filter (in_range cut_dia) fluting_fr_data, cut_dia, description)) ;;
  match filtered with
  | ([], _, _) => Failure 305
  | _ => Ok filtered
  end.

(** The outcome of a branch: the cycle time before the final rounding and
    what the detail report is built from. *)
Record BranchResult : Type := {
  fluting_time : num;
  report_description : string;
  feature_list : list num
}.

(** *** The bur branch ([ref_fam == "BUR"], lines 1671-1781) *)
Definition bur_branch (tool : ToolInfo) (feature : InputArgData)
    (cut_dia loc : num) (fl_cnt1 fl_cnt2 : Z)
    (filtered_df : list RateRow) (description : string) : Outcome BranchResult :=
  let family := str_attr tool tool_family in
  let split_description := PyStr.split_char " " (str_attr tool tool_description) in
  let part_num := str_attr tool part_number in
  let row_values := nth 0 filtered_df
                        {| min_diameter := fzero; max_diameter := fzero; bur_type := "";
                           sc_fluting := fzero; dc_fluting := fzero; fluting_fr := fzero;
                           od_fr := fzero; end_ct := fzero; end_gash_ct := fzero;
                           end_split_ct := fzero |} in
  let inc_percentage := mirror_finish (of_Z 1) split_description in
  '(loc, inc_percentage, row_values) <-
    (if PyStr.contains "TIRE BUR" description then
       let loc := loc / of_Z 5 in
       let inc_percentage :=
         if cut_dia >=? dec 5 1 then inc_percentage + dec 15 2 else inc_percentage in
       match filtered_df with
       | r0 :: r1 :: _ => Ok (loc, inc_percentage, add_rows r0 r1)
       | _ => Raise IndexError
       end
     else Ok (loc, inc_percentage, row_values)) ;;
  let sc_fluting_feedrate := sc_fluting row_values in
  let dc_fluting_feedrate := dc_fluting row_values in
  let inc_percentage :=
    if flag feature spiral then inc_percentage + dec 10 2 else inc_percentage in
  let endmill_like := PyStr.mem (bur_cut feature) ["FM"; "NX"] in
  let is_fbgr := String.eqb family "FBGR" in
  '(sc_time, dc_time, fluting_time) <-
    (if negb endmill_like || is_fbgr then
       let sc_time := sc_fluting_feedrate * loc * of_Z fl_cnt1 * inc_percentage in
       if (fl_cnt2 =? 1)%Z && PyStr.word_search ["DM"; "DC"; "FBGR"] description
       then Failure 306
       else
         let dc_time :=
           if negb (PyStr.mem "SC" split_description) || is_fbgr
           then dc_fluting_feedrate * loc * of_Z fl_cnt2 * inc_percentage
           else fzero in
         Ok (sc_time, dc_time, sc_time + dc_time)
     else Ok (fzero, fzero, fzero)) ;;
  '(inc_percentage, fluting_time, calc_fl_time, calc_od_time, calc_end_time,
    calc_gash_time, end_split_time) <-
    (if endmill_like || is_fbgr then
      inc_percentage <-
        (if PyStr.contains "COUNTERSINK" description then
           let inc_percentage := inc_percentage + dec 20 2 in
           if cut_dia >? dec 3700 4
           then ratio <- pydiv cut_dia loc ;;
                Ok (inc_percentage + (ratio - dec 15 2))
           else Ok inc_percentage
         else if PyStr.contains "INCLUDED CONE" description && (loc <? dec 22 2) then
           let inc_percentage := inc_percentage + ((of_Z 1 - (loc / dec 22 2)) + dec 1 1) in
           Ok (if (fl_cnt1 <? 6)%Z then inc_percentage + dec 25 2 else inc_percentage)
         else Ok inc_percentage) ;;
      let fluting_feedrate := fluting_fr row_values in
      let od_feedrate := od_fr row_values in
      let end_cycle_time := end_ct row_values in
      let end_gash_cycle_time := end_gash_ct row_values in
      let end_split_time := end_split_ct row_values in
      let '(fluting_feedrate, od_feedrate, end_split_time, end_gash_cycle_time,
            end_cycle_time) :=
        if is_fbgr then
          if PyStr.mem (end_type feature) ["PLAIN"; "BUR"; "FISHTAIL"] then
            if String.eqb (end_type feature) "PLAIN"
            then (fzero, fzero, fzero, fzero, fzero)
            else (fzero, fzero, fzero, fzero, end_cycle_time)
          else (fzero, fzero, fzero, end_gash_cycle_time, end_cycle_time)
        else (fluting_feedrate, od_feedrate, end_split_time, end_gash_cycle_time,
              end_cycle_time) in
      let end_split_time :=
        if (PyStr.startswith part_num "AC" || PyStr.startswith part_num "TA")
           && PyStr.endswith part_num "FM" && negb (flag feature notch)
        then end_split_time * dec 45 2 else end_split_time in
      let inc_percentage :=
        if cut_dia >=? dec 748 3 then inc_percentage + dec 12 2 else inc_percentage in
      let calc_gash_time :=
        if truthy end_gash_cycle_time
        then ((cut_dia * dec 5 1) / end_gash_cycle_time) * of_Z fl_cnt1 * inc_percentage
        else fzero in
      let calc_end_time :=
        if truthy end_cycle_time
        then ((cut_dia * dec 5 1) / end_cycle_time) * of_Z fl_cnt1 * inc_percentage
        else fzero in
      let calc_fl_time :=
        if truthy fluting_feedrate
        then (loc / fluting_feedrate) * of_Z fl_cnt1 * inc_percentage else fzero in
      let calc_od_time :=
        if truthy od_feedrate
        then (loc / od_feedrate) * of_Z fl_cnt1 * inc_percentage else fzero in
      let fluting_time :=
        calc_fl_time + calc_od_time + calc_end_time + calc_gash_time + end_split_time in
      let fluting_time :=
        if is_fbgr
        then calc_fl_time + calc_od_time + calc_end_time + calc_gash_time
             + end_split_time + sc_time + dc_time
        else fluting_time in
      Ok (inc_percentage, fluting_time, calc_fl_time, calc_od_time, calc_end_time,
          calc_gash_time, end_split_time)
    else Ok (inc_percentage, fluting_time, fzero, fzero, fzero, fzero, fzero)) ;;
  let fluting_time :=
    if flag feature double_end then fluting_time * of_Z 2 else fluting_time in
  let description :=
    if PyStr.contains "~" description
    then PyStr.rstrip (hd "" (PyStr.split_char "~" description)) else description in
  Ok {| fluting_time := fluting_time;
        report_description := description;
        feature_list := [fluting_time; inc_percentage; sc_time; dc_time; calc_fl_time;
                         calc_od_time; calc_end_time; calc_gash_time; end_split_time] |}.

(** *** The endmill, wood-router and drill branch (lines 1783-2031) *)

Definition SPLIT_DICT (key : string) : list Z :=
  if String.eqb key "SQ EM" then [3; 5; 6]%Z
  else if String.eqb key "BALL EM" then [3; 4; 5; 6]%Z
  else if String.eqb key "CR EM" then [3; 5; 6]%Z
  else if String.eqb key "ROUGHER EM" then [3; 5; 6]%Z
  else if String.eqb key "TAPERMILL EM" then [3]%Z
  else [].

(** [EM_MAP]; the entries that carry [sec_od_angle] hold the value it had
    when the dictionary was built. *)
Definition EM_MAP (description : string) (sec_od_angle : bool)
  : list (string * (string * num * bool)) :=
  [("SQ", ("SQ EM", fzero, sec_od_angle));
   ("BALL", ("BALL EM", dec 25 2, sec_od_angle));
   ("CR", ("CR EM", dec 20 2, sec_od_angle));
   ("DRILLMILL", ("NONE", dec 5 2, sec_od_angle));
   ("ROUGHER", ("ROUGHER EM", fzero, false));
   ("ALUMAZIP", ("NONE", fzero, false));
   ("TAPERMILL", ("TAPERMILL EM",
                  if PyStr.contains "CR" description then fzero else dec 5 2, true))].

(** The loop over [EM_MAP.items()]; the state is
    [(inc_percentage, split, sec_od_angle)]. *)
Definition apply_em_map (description : string) (fl_cnt1 : Z)
    (st : num * bool * bool) (entries : list (string * (string * num * bool)))
  : num * bool * bool :=
  fold_left
    (fun st entry =>
       let '(inc_percentage, split, sec_od_angle) := st in
       let '(word, (split_key, inc, sec_od)) := entry in
       if PyStr.startswith description word || PyStr.contains word description then
         (inc_percentage + inc,
          existsb (Z.eqb fl_cnt1) (SPLIT_DICT split_key),
          sec_od)
       else st)
    entries st.

(** [check_performance_series]; the state is
    [(inc_percentage, split, sec_od_angle, sec_inc)]. *)
Definition check_performance_series (PERF_LIST : list string) (tool_type : string)
    (st : num * bool * bool * num) : num * bool * bool * num :=
  fold_left
    (fun st ps =>
       let '(inc_percentage, split, sec_od_angle, sec_inc) := st in
       if PyStr.contains ps tool_type then
         if PyStr.startswith ps "V" then
           (inc_percentage + dec 1 1,
            if PyStr.startswith tool_type "SQ" || PyStr.startswith tool_type "CR"
            then false else split,
            sec_od_angle, sec_inc)
         else if String.eqb ps "AX" then
           (inc_percentage + dec 5 2, false, sec_od_angle,
            if PyStr.contains "CB" tool_type then of_Z 45 / of_Z 60 else sec_inc)
         else if String.eqb ps "CR TAPERMILL" then
           (inc_percentage - dec 15 2, split, sec_od_angle, sec_inc)
         else if String.eqb ps "F45" then
           (inc_percentage + dec 1 1, false, sec_od_angle, sec_inc)
         else if String.eqb ps "HY5" then
           (inc_percentage + dec 1 1, split, sec_od_angle, sec_inc)
         else if String.eqb ps "HYPERMILL" then
           (inc_percentage + dec 5 2, split, sec_od_angle, sec_inc)
         else if String.eqb ps "MOLD" then
           (inc_percentage + dec 5 2, split, sec_od_angle, sec_inc)
         else if String.eqb ps "TWISTER" then
           (inc_percentage + dec 5 2, split, sec_od_angle, sec_inc)
         else st
       else st)
    PERF_LIST st.

(** The five time components of the branch. *)
Record Components : Type := {
  calc_fl_time : num;
  calc_od_time : num;
  calc_end_time : num;
  calc_gash_time : num;
  end_split_time : num
}.

(** Lines 1824-1837: the base components.  The feedrates are cells of the
    rate sheet, whose division does not raise. *)
Definition base_components (loc cut_dia fluting_feedrate od_feedrate
    end_cycle_time end_gash_cycle_time end_split_time : num) (fl_cnt1 : Z)
  : Components :=
  let '(calc_fl_time, calc_od_time) :=
    if (fl_cnt1 =? 2)%Z then
      let cnt := 4%Z in
      ((loc / fluting_feedrate) * dynamic_variable * of_Z cnt,
       (loc / od_feedrate) * dynamic_variable * of_Z cnt)
    else
      ((loc / fluting_feedrate) * dynamic_variable * of_Z fl_cnt1,
       (loc / od_feedrate) * dynamic_variable * of_Z fl_cnt1) in
  {| calc_fl_time := calc_fl_time;
     calc_od_time := calc_od_time;
     calc_end_time := ((cut_dia * dec 5 1) / end_cycle_time) * dynamic_variable * of_Z fl_cnt1;
     calc_gash_time :=
       ((cut_dia * dec 5 1) / end_gash_cycle_time) * dynamic_variable * of_Z fl_cnt1;
     end_split_time := end_split_time |}.

(** The flags and components after lines 1974-1994. *)
Record Adjusted : Type := {
  adj_sec_od_angle : bool;
  adj_tert_od_angle : bool;
  adj_split : bool;
  adj_components : Components
}.

(** Lines 1974-1994: the OD-angle flags are settled, components whose
    flag is off are zeroed, and the OD time is multiplied. *)
Definition adjust_components (description : string)
    (tert_od_angle sec_od_angle split end_time : bool) (c : Components) : Adjusted :=
  let tert_od_angle :=
    if tert_od_angle && negb sec_od_angle then false else tert_od_angle in
  let no_od := calc_od_time c == fzero in
  let sec_od_angle := if no_od then false else sec_od_angle in
  let tert_od_angle := if no_od then false else tert_od_angle in
  let staggered := PyStr.contains "STAGGERED" (PyStr.upper description) in
  let sec_od_angle := if staggered then false else sec_od_angle in
  let tert_od_angle := if staggered then false else tert_od_angle in
  let split := if staggered then false else split in
  let calc_od_time := if staggered then fzero else calc_od_time c in
  let calc_end_time := if negb end_time then fzero else calc_end_time c in
  let calc_gash_time := if negb end_time then fzero else calc_gash_time c in
  let end_split_time := if negb split then fzero else end_split_time c in
  let calc_od_time :=
    if sec_od_angle && tert_od_angle then calc_od_time * dec 30 1
    else if sec_od_angle && negb tert_od_angle then calc_od_time * dec 20 1
    else calc_od_time in
  {| adj_sec_od_angle := sec_od_angle;
     adj_tert_od_angle := tert_od_angle;
     adj_split := split;
     adj_components :=
       {| calc_fl_time := calc_fl_time c;
          calc_od_time := calc_od_time;
          calc_end_time := calc_end_time;
          calc_gash_time := calc_gash_time;
          end_split_time := end_split_time |} |}.

Definition ROUTER_FAM : list string := ["WR"; "O-FLUTE"; "WR COMP"].

(** Lines 1932-1970: reamers and drills.  The state is
    [(inc_percentage, split, end_time, calc_fl_time, calc_od_time,
    calc_gash_time)]. *)
Definition reamer_drill_rules (family description : string) (cut_dia loc : num)
    (st : num * bool * bool * num * num * num) : num * bool * bool * num * num * num :=
  let '(inc_percentage, split, has_end_time, calc_fl_time, calc_od_time,
        calc_gash_time) := st in
  if PyStr.contains "REAMER" description then
    (inc_percentage, split, PyStr.contains "ENDCUT" description,
     calc_fl_time, calc_od_time, calc_gash_time)
  else if String.eqb family "DRILL" then
    let split := false in
    let calc_od_time := fzero in
    if PyStr.contains "SPADE" description then
      let calc_fl_time := loc / (of_Z 5 / dec 254 1) in
      let inc_percentage := inc_percentage + dec 30 2 in
      let inc_percentage :=
        if cut_dia <? dec 1575 4 then inc_percentage + dec 15 2 else inc_percentage in
      (inc_percentage, split, has_end_time, calc_fl_time, calc_od_time, fzero)
    else
      let '(inc_percentage, calc_gash_time) :=
        if cut_dia <? dia_cutoff then
          let inc_percentage := inc_percentage - dec 20 2 in
          let inc_percentage :=
            if cut_dia <? dec 501 4 then inc_percentage - dec 30 2 else inc_percentage in
          (inc_percentage, fzero)
        else (inc_percentage, calc_gash_time) in
      let inc_percentage :=
        if PyStr.contains "SPOTTING" description then inc_percentage + dec 20 2
        else if PyStr.contains "DRILL&COUNTERSINK" description then
          if cut_dia >? dec 500 4 then inc_percentage + dec 15 2 else inc_percentage
        else if PyStr.contains "HURRICANE" description then inc_percentage + dec 20 2
        else if PyStr.contains "MAXIMIZER" description then inc_percentage + dec 15 2
        else inc_percentage in
      let inc_percentage :=
        if (loc <? dec 7000 4) && (cut_dia >? dec 790 4)
           && negb (PyStr.contains "SPOTTING" description)
        then inc_percentage + dec 15 2 else inc_percentage in
      let inc_percentage :=
        if cut_dia >? dec 5000 4 then inc_percentage - dec 5 2 else inc_percentage in
      (inc_percentage, split, has_end_time, calc_fl_time, calc_od_time, calc_gash_time)
  else st.

Definition em_branch (PERF_LIST : list string) (tool : ToolInfo)
    (feature : InputArgData) (cut_dia loc : num) (fl_cnt1 : Z)
    (row_values : RateRow) (description : string) : Outcome BranchResult :=
  let family := str_attr tool tool_family in
  let split_description := PyStr.split_char " " (str_attr tool tool_description) in
  let sec_inc := fzero in
  let split := flag feature notch in
  let tert_od_angle := flag feature tert_od_angle in
  let inc_percentage := of_Z 1 in
  loc <-
    (if PyStr.contains "MINI-MILL" (PyStr.upper description) then
       mm_ratio <- pydiv cut_dia loc ;;
       Ok (if mm_ratio >? dec 5 1 then loc * dec 18 1 else loc)
     else Ok loc) ;;
  let '(split_description, inc_percentage) :=
    if PyStr.contains "OFX" description then
      (split_description ++ ["MF"],
       if cut_dia >? dec 79 3 then inc_percentage + dec 20 2 else inc_percentage)
    else (split_description, inc_percentage) in
  let inc_percentage := mirror_finish inc_percentage split_description in
  let loc := if PyStr.contains "STAGGERED" description then cut_dia * of_Z 3 else loc in
  let diff := if cut_dia <? dec 6 2 then cut_dia / max_diameter row_values
              else dec 10 1 in
  let fluting_feedrate := fluting_fr row_values * diff in
  let od_feedrate := od_fr row_values * diff in
  let base := base_components loc cut_dia fluting_feedrate od_feedrate
                (end_ct row_values) (end_gash_ct row_values) (end_split_ct row_values)
                fl_cnt1 in
  let sec_od_angle := negb (cut_dia <? dia_cutoff) in
  let '(inc_percentage, split, sec_od_angle) :=
    apply_em_map description fl_cnt1 (inc_percentage, split, sec_od_angle)
                 (EM_MAP description sec_od_angle) in
  let sec_inc :=
    if PyStr.contains "ROUGHER" (PyStr.upper description)
    then of_Z 60 / of_Z 60 else sec_inc in
  let inc_percentage :=
    if PyStr.contains "STRFL" (PyStr.upper description)
       && negb (PyStr.contains "REAMER" description) then
      let inc_percentage := inc_percentage + dec 1 1 in
      if String.eqb family "DRILL" then inc_percentage + dec 45 2 else inc_percentage
    else inc_percentage in
  let inc_percentage :=
    if PyStr.mem family ROUTER_FAM then
      let inc_percentage :=
        if PyStr.contains "CB" (PyStr.upper description)
        then inc_percentage + dec 20 2 else inc_percentage in
      let inc_percentage :=
        if PyStr.contains "COMP" description then
          if (fl_cnt1 =? 2)%Z then inc_percentage + dec 5 1
          else inc_percentage + dec 70 2
        else inc_percentage in
      if PyStr.contains "HOGGER" (PyStr.upper description)
         || PyStr.contains "RIPPER" (PyStr.upper description)
      then inc_percentage + dec 40 2 else inc_percentage
    else inc_percentage in
  let '(inc_percentage, split, has_end_time, fl_time, od_time, gash_time) :=
    reamer_drill_rules family description cut_dia loc
      (inc_percentage, split, flag feature end_time,
       calc_fl_time base, calc_od_time base, calc_gash_time base) in
  let '(inc_percentage, split, sec_od_angle, sec_inc) :=
    if flag feature performance
    then check_performance_series PERF_LIST description
           (inc_percentage, split, sec_od_angle, sec_inc)
    else (inc_percentage, split, sec_od_angle, sec_inc) in
  let adjusted :=
    adjust_components description tert_od_angle sec_od_angle split has_end_time
      {| calc_fl_time := fl_time; calc_od_time := od_time;
         calc_end_time := calc_end_time base; calc_gash_time := gash_time;
         end_split_time := end_split_time base |} in
  let c := adj_components adjusted in
  let fluting_time :=
    ((calc_fl_time c + calc_od_time c + calc_end_time c + calc_gash_time c
      + end_split_time c) * inc_percentage) + (sec_inc * of_Z fl_cnt1) in
  let fluting_time :=
    if flag feature double_end then fluting_time * of_Z 2 else fluting_time in
  fluting_time <-
    (if PyStr.contains "MINI-MILL" (PyStr.upper description) then
       mm_ratio <- pydiv cut_dia loc ;;
       Ok (if mm_ratio >? dec 5 1
           then fluting_time * (of_Z 2 + (dec 6 1 - mm_ratio)) else fluting_time)
     else Ok fluting_time) ;;
  Ok {| fluting_time := fluting_time;
        report_description := description;
        feature_list := [fluting_time; inc_percentage; calc_fl_time c; calc_od_time c;
                         calc_end_time c; calc_gash_time c; end_split_time c; sec_inc] |}.

(** [calc_fluting_time].  [excel_data] is what [get_xlsx_from_layer]
    returns; [PERF_LIST] is the global [get_tool_detail] has set. *)
Definition calc_fluting_time (PERF_LIST : list string) (excel_data : Outcome Excel)
    (tool : ToolInfo) (feature : InputArgData)
  : Outcome (ToolInfo * InputArgData * Detail) :=
  let fl_cnt := str_attr tool flute_count in
  let ref_fam := str_attr tool reference_family in
  '(fl_cnt1, fl_cnt2) <- parse_flute_count fl_cnt ;;
  excel <- excel_data ;;
  _ <- (if flag feature mass_detail && live_time_empty excel
        then Failure 105 else Ok tt) ;;
  fluting_fr_data <-
    match rate_sheet excel ref_fam with
    | Some rows => Ok rows
    | None => Raise KeyError
    end ;;
  cut_dia <- get_num tool cut_diameter ;;
  '(filtered_df, cut_dia, description) <- select_rows tool cut_dia fluting_fr_data ;;
  loc <- get_num tool length_of_cut ;;
  result <-
    (if String.eqb ref_fam "BUR" then
       bur_branch tool feature cut_dia loc fl_cnt1 fl_cnt2 filtered_df description
     else if existsb (fun fam => PyStr.contains fam ref_fam)
                     ["EM"; "WR"; "O-FLUTE"; "WR COMP"; "DRILL"] then
       match filtered_df with
       | row_values :: _ =>
           em_branch PERF_LIST tool feature cut_dia loc fl_cnt1 row_values description
       | [] => Raise IndexError
       end
     else Raise UnboundLocalError) ;;
  let fluting_time := fround (fluting_time result) 3 in
  let tool := set_num tool fluting_cycle_time (VNum fluting_time) in
  if fluting_time == fzero then Failure 401
  else
    Ok (tool, feature,
        if flag feature detail
        then DetailPrint (report_description result) (feature_list result)
        else if flag feature mass_detail then DetailMass (feature_list result)
        else DetailDescription (report_description result)).

End Fluting.

(** ** The Python runtime the parser calls *)

(** The regular expressions of [parse_description]. *)
Inductive Pattern : Type :=
| neck_pattern     (* the neck dimensions, ending in [NECK] or [TAPEREDNECK] *)
| cr_pattern       (* a corner radius, ending in [CR] *)
| fl_cnt_pattern   (* digits followed by [FL] *)
| dim_pattern      (* digits, [X], digits *)
| dim_pattern_any  (* digits, [X], any character, digits *)
| angle_pattern.   (* digits followed by the degree sign *)

(** [re.search], [eval], [float] on a string and [str] on a number are
    taken as they come: [re_search p s] is [group(0)] of the leftmost match,
    and [None] is no match for [re_search] and a raised exception for the
    others. *)
Class PyRuntime {F : PyFloat} : Type := {
  re_search : Pattern -> string -> option string;
  py_eval : string -> option num;
  py_float : string -> option num;
  py_str : num -> string
}.

(** ** Description parsing: [parse_description] *)

Section Parse.
Context {F : PyFloat} {R : PyRuntime}.

#[local] Open Scope pyfloat_scope.

(** The degree sign, as its two UTF-8 bytes. *)
Definition degree : string :=
  String (ascii_of_nat 194) (String (ascii_of_nat 176) EmptyString).

Definition MM_CUTOFF : num := dec 200 1.

Definition is_none {A : Type} (o : option A) : bool :=
  match o with Some _ => false | None => true end.

(** Truth value and formatting of an attribute value. *)
Definition val_truthy (v : PyVal) : bool :=
  match v with
  | VNum x => truthy x
  | VStr s => negb (String.eqb s "")
  end.

Definition val_str (v : PyVal) : string :=
  match v with
  | VNum x => py_str x
  | VStr s => s
  end.

(** [float(v)] *)
Definition val_float (v : PyVal) : Outcome num :=
  match v with
  | VNum x => Ok x
  | VStr s =>
      match py_float s with
      | Some x => Ok x
      | None => Raise ValueError
      end
  end.

(** Lines 527-565: the description is cleaned, abbreviations are expanded
    in two passes, duplicate words are dropped and a default flute count
    is put in front. *)
Definition normalize_description (abbrev_dict : list (string * string))
    (description : string) : string :=
  let description :=
    fold_left (fun d char => PyStr.replace char " " d) ["("; ")"; ","] description in
  let description := PyStr.join " " (PyStr.split_ws description) in
  let description :=
    if PyStr.any_in ["RADIUS CONE"; "POINTED CONE"] description
       && negb (PyStr.contains "INCLUDED" description)
    then PyStr.replace "POINTED CONE" "INCLUDED POINTED CONE"
           (PyStr.replace "RADIUS CONE" "INCLUDED RADIUS CONE" description)
    else description in
  let pass d :=
    fold_left (fun d kv => PyStr.replace (fst kv) (snd kv) d) abbrev_dict d in
  let description := pass (pass description) in
  let description := PyStr.join " " (PyStr.dedup [] (PyStr.split_ws description)) in
  let missing_fl_desc := ["SPADE"; "SPOTTING"; "DRILL&COUNTERSINK"] in
  let found :=
    map (fun _ => negb (PyStr.contains "FL" description))
        (filter (fun desc => PyStr.contains desc description) missing_fl_desc) in
  if existsb (fun b => b) found then ("2FL " ++ description)%string else description.

(** [[eval(dim.replace("-", "+")) for dim in dimensions.split("X")]]
    unpacked into two targets. *)
Definition eval_pair (dimensions : string) : Outcome (num * num) :=
  let split_dim :=
    map (fun dim => py_eval (PyStr.replace "-" "+" dim))
        (PyStr.split_char "X" dimensions) in
  match split_dim with
  | [Some a; Some b] => Ok (a, b)
  | _ => if existsb is_none split_dim then Raise SyntaxError else Raise ValueError
  end.

(** Lines 568-589: the neck dimensions.  The result is the record, the
    neck angle and the words of the description without the match. *)
Definition extract_neck (tool : ToolInfo) (description : string) (prep : bool)
  : Outcome (ToolInfo * num * list string) :=
  match re_search neck_pattern description with
  | Some group0 =>
      '(tool, neck_angle) <-
        (if PyStr.contains degree group0 then
           let dimensions :=
             PyStr.replace degree "" (PyStr.replace " TAPEREDNECK" "" group0) in
           '(neck_angle, nk_len) <- eval_pair dimensions ;;
           Ok (set_num tool neck_length (VNum nk_len),
               of_Z (ftrunc neck_angle * 2))
         else
           let dimensions := PyStr.replace " NECK" "" group0 in
           '(nk_dia, nk_len) <- eval_pair dimensions ;;
           Ok (set_num (set_num tool neck_diameter (VNum nk_dia))
                       neck_length (VNum nk_len),
               fzero)) ;;
      Ok (tool, neck_angle, PyStr.split_char " " (PyStr.replace group0 "" description))
  | None =>
      if prep && PyStr.contains "NECK" description then Failure 209
      else Ok (tool, fzero, PyStr.split_char " " description)
  end.

(** Lines 591-612: the corner radius and the unit flag.  (Resetting
    [cr_match] for an implausible value has no effect on either.) *)
Definition extract_corner_radius (tool : ToolInfo) (description : string)
    (split_description : list string) (using_mm prep : bool)
  : Outcome (PyVal * bool) :=
  let cr := num_attr tool corner_radius in
  if PyStr.mem "CR" split_description then
    match re_search cr_pattern description with
    | Some cr_str =>
        if PyStr.contains "MM" cr_str then
          match py_float (PyStr.replace "MM CR" "" cr_str) with
          | Some cr => Ok (VNum cr, true)
          | None => Raise ValueError
          end
        else
          match py_float (PyStr.replace " CR" "" cr_str) with
          | Some cr => Ok (VNum cr, using_mm)
          | None => Raise ValueError
          end
    | None => if prep then Failure 207 else Ok (cr, using_mm)
    end
  else Ok (cr, using_mm).

(** What the loop over the words collects. *)
Record Scan : Type := {
  fl_cnt : string;
  fl_cnt_cs : bool;
  dimension_list : list string;
  angle_list : list string;
  formatted : string;
  base : string
}.

(** One iteration of the loop of lines 615-644. *)
Definition scan_word (json_content : Taxonomy) (st : Scan) (word : string) : Scan :=
  let '(fl_cnt, fl_cnt_cs) :=
    match re_search fl_cnt_pattern word with
    | Some group0 => (PyStr.replace "FL" "" group0, true)
    | None => (fl_cnt st, fl_cnt_cs st)
    end in
  let dimension_list :=
    if negb (is_none (re_search dim_pattern word))
       || negb (is_none (re_search dim_pattern_any word))
    then dimension_list st ++ [PyStr.lower word] else dimension_list st in
  let angle_list :=
    match re_search angle_pattern word with
    | Some group0 => angle_list st ++ [PyStr.lower group0]
    | None => angle_list st
    end in
  let word :=
    if PyStr.contains degree word then PyStr.replace degree "" word else word in
  let '(formatted, base) :=
    if PyStr.mem word (split_tool_type_list json_content)
       || PyStr.mem word (map snd (abbreviations json_content)) then
      ((formatted st ++ word ++ " ")%string,
       if negb (PyStr.mem word (BUR_CUT_LIST json_content))
          && negb (PyStr.mem word (extras json_content))
          && negb (PyStr.mem word (wr_cut json_content))
          && negb (PyStr.isnumeric word)
       then (base st ++ word ++ " ")%string else base st)
    else (formatted st, base st) in
  {| fl_cnt := fl_cnt; fl_cnt_cs := fl_cnt_cs; dimension_list := dimension_list;
     angle_list := angle_list; formatted := formatted; base := base |}.

(** Lines 658-688: the four main dimensions, read from the first
    dimension word or from the fields of the request.  The result is
    [(cut_dia, loc, shank_dia, oal, full_dim)]; [loc] keeps the value of
    the request when the word has three numbers. *)
Definition resolve_dimensions (tool : ToolInfo) (dimension_list : list string)
  : Outcome (num * PyVal * num * num * string) :=
  let loc := num_attr tool length_of_cut in
  let full_dim :=
    match dimension_list with
    | [] =>
        (val_str (num_attr tool cut_diameter) ++ "x" ++ val_str loc ++ "x"
         ++ val_str (num_attr tool shank_diameter) ++ "x"
         ++ val_str (num_attr tool overall_length))%string
    | full_dim :: _ => full_dim
    end in
  let full_dim := PyStr.replace "-" "+" full_dim in
  let dims := PyStr.split_char "x" full_dim in
  let x_cnt := PyStr.count_char "x" full_dim in
  let eval_at (i : nat) : option num :=
    match nth_error dims i with
    | Some d => py_eval d
    | None => None
    end in
  match eval_at x_cnt, eval_at 0%nat with
  | Some oal, Some cut_dia =>
      match x_cnt with
      | 2%nat =>
          match eval_at 1%nat with
          | Some shank_dia => Ok (cut_dia, loc, shank_dia, oal, full_dim)
          | None => Failure 206
          end
      | 3%nat =>
          match eval_at 1%nat, eval_at 2%nat with
          | Some loc, Some shank_dia => Ok (cut_dia, VNum loc, shank_dia, oal, full_dim)
          | _, _ => Failure 206
          end
      | 4%nat =>
          match eval_at 1%nat, eval_at 3%nat with
          | Some loc, Some shank_dia => Ok (cut_dia, VNum loc, shank_dia, oal, full_dim)
          | _, _ => Failure 206
          end
      | _ => Failure 205
      end
  | _, _ => Failure 206
  end.

(** [float(angle.replace("°", ""))] *)
Definition angle_value (angle : string) : Outcome num :=
  match py_float (PyStr.replace degree "" angle) with
  | Some x => Ok x
  | None => Raise ValueError
  end.

(** Lines 695-706: the main angle is the first angle word that stands
    among the first three words, or the first one that is not a word of
    its own. *)
Fixpoint find_main_angle (description : string) (split_description angle_list : list string)
  : Outcome num :=
  match angle_list with
  | [] => Ok fzero
  | angle :: rest =>
      match PyStr.index angle split_description with
      | Some index =>
          if (index <=? 2)%nat then angle_value angle
          else find_main_angle description split_description rest
      | None =>
          main_angle <- angle_value angle ;;
          Ok (if PyStr.contains "TAPERMILL" description
              then main_angle * of_Z 2 else main_angle)
      end
  end.

(** [find_height_tan] *)
Definition find_height_tan (angle dia : num) : num :=
  let angle :=
    if angle == dec 900 1 then dec 900 1 / dec 20 1
    else dec 900 1 - (angle / dec 20 1) in
  let radius := dia / dec 20 1 in
  ftan (fradians angle) * radius.

(** [convert_from_mm] *)
Definition convert_from_mm (dimension : num) : num :=
  if dimension == fzero then fzero else fround (dimension / dec 254 1) 4.

(** Line 761-764: the non-zero numeric attributes. *)
Definition attribute_list (tool : ToolInfo) : list NumAttr :=
  filter (fun attr =>
            match num_attr tool attr with
            | VNum x => negb (x == fzero)
            | VStr _ => false
            end)
         num_attrs.

(** Lines 778-779: [setattr(tool, attr, convert_from_mm(getattr(tool, attr)))]
    for every listed attribute. *)
Definition convert_attributes (tool : ToolInfo) (attrs : list NumAttr) : ToolInfo :=
  fold_left
    (fun tool attr =>
       match num_attr tool attr with
       | VNum x => set_num tool attr (VNum (convert_from_mm x))
       | VStr _ => tool
       end)
    attrs tool.

(** Lines 753-783: the end of [parse_description].  The attributes to
    convert are listed before the angles found in the description are
    stored. *)
Definition finish_parse (tool : ToolInfo) (base_description description : string)
    (angle neck_angle : num) (using_mm : bool) : Outcome ToolInfo :=
  let tool := set_str tool formatted_description base_description in
  let tool := set_str tool bur_description description in
  let attribute_list := attribute_list tool in
  let tool := if truthy angle then set_num tool main_angle (VNum angle) else tool in
  let tool := if truthy neck_angle then set_num tool tapered_neck_angle (VNum neck_angle)
              else tool in
  match attribute_list with
  | [] => Failure 206
  | _ => Ok (if using_mm then convert_attributes tool attribute_list else tool)
  end.

(** Lines 725-751: a countersink gets its flute length (and a combined
    drill its pilot length) from the cone of the main angle. *)
Definition countersink_geometry (tool : ToolInfo) (description fl_cnt : string)
    (fl_cnt_cs : bool) (angle cut_dia shank_dia : num) (loc : PyVal)
  : Outcome (ToolInfo * string) :=
  let int_fl_cnt : Outcome Z :=
    match PyStr.py_int fl_cnt with
    | Some n => Ok n
    | None => Raise ValueError
    end in
  if PyStr.contains "COUNTERSINK" description then
    '(tool, description) <-
      (if fl_cnt_cs && negb (PyStr.contains "DRILL" description) then
         let description := (description ++ " ~ 90 INCLUDED CONE FM")%string in
         _ <- int_fl_cnt ;;
         Ok (set_str tool tool_description description, description)
       else Ok (tool, description)) ;;
    if truthy angle then
      '(tool, multiplier, dia) <-
        (if PyStr.contains "DRILL" description then
           let tool :=
             set_num tool pilot_length
               (VNum ((cut_dia + cut_dia / dec 332856 5) - dec 1 2)) in
           Ok (tool, if shank_dia >=? dec 5000 4 then dec 32 1 else dec 40 1, shank_dia)
         else
           n <- int_fl_cnt ;;
           Ok (tool, if (n =? 1)%Z then dec 23 1 else dec 15 1, cut_dia)) ;;
      let fl_len := find_height_tan angle dia * multiplier in
      let tool := set_num tool flute_length (VNum fl_len) in
      Ok (if negb (val_truthy loc) then set_num tool length_of_cut (VNum fl_len)
          else tool,
          description)
    else Failure 308
  else Ok (tool, description).

(** [parse_description(tool, context, using_mm, prep)]; [layer_detail] is
    what [get_json_from_layer(context)] returns. *)
Definition parse_description (layer_detail : Outcome JsonLayer) (tool : ToolInfo)
    (using_mm prep : bool) : Outcome (Taxonomy * ToolInfo) :=
  let description := PyStr.upper (str_attr tool tool_description) in
  let tool := set_str tool full_description description in
  layer <- layer_detail ;;
  let json_content := json_content layer in
  let description := normalize_description (abbreviations json_content) description in
  let tool := set_str tool tool_description description in
  '(tool, neck_angle, split_description) <- extract_neck tool description prep ;;
  '(cr, using_mm) <-
    extract_corner_radius tool description split_description using_mm prep ;;
  let tool := set_num tool corner_radius cr in
  let scan :=
    fold_left (scan_word json_content) split_description
      {| fl_cnt := str_attr tool flute_count; fl_cnt_cs := false;
         dimension_list := []; angle_list := []; formatted := ""; base := "" |} in
  let tool := if fl_cnt_cs scan then set_str tool flute_count (fl_cnt scan) else tool in
  let description := PyStr.rstrip (formatted scan) in
  if String.eqb (fl_cnt scan) "" then Failure 307
  else
    '(cut_dia, loc, shank_dia, oal, full_dim) <-
      resolve_dimensions tool (dimension_list scan) ;;
    loc_float <- val_float loc ;;
    let tool := set_num tool cut_diameter (VNum (fround cut_dia 4)) in
    let tool := set_num tool length_of_cut (VNum loc_float) in
    let tool := set_num tool shank_diameter (VNum shank_dia) in
    let tool := set_num tool overall_length (VNum oal) in
    angle <- find_main_angle description split_description (angle_list scan) ;;
    using_mm <-
      (if negb (PyStr.contains "/" full_dim) then
         Ok (if (oal >? MM_CUTOFF) && negb using_mm then true else using_mm)
       else if using_mm then Failure 208
       else Ok using_mm) ;;
    let base_description := PyStr.rstrip (base scan) in
    if negb (PyStr.mem base_description (tool_types_list json_content)) then Failure 104
    else
      '(tool, description) <-
        countersink_geometry tool description (fl_cnt scan) (fl_cnt_cs scan)
          angle cut_dia shank_dia loc ;;
      tool <- finish_parse tool base_description description angle neck_angle using_mm ;;
      Ok (json_content, tool).

End Parse.

(** ** Prep time: [calc_prep_time] *)

Section Prep.
Context {F : PyFloat} {R : PyRuntime}.

#[local] Open Scope pyfloat_scope.

Inductive VolType : Type := CYLINDER | CONE.

(** [vol_content_dict.content] *)
Record VolInfo : Type := {
  vol_time : num;
  vol_reduction_vol : num;
  vol_rate : num
}.

(** The first element of [r :: rs] whose key is least
    ([idxmin], and [min] with a [key]). *)
Fixpoint first_min {A : Type} (key : A -> num) (best : A) (l : list A) : A :=
  match l with
  | [] => best
  | x :: l' => first_min key (if key x <? key best then x else best) l'
  end.

(** [df.loc[(df['reduction_vol'] - reduction_vol).abs().idxmin()]];
    [idxmin] of an empty column raises. *)
Definition closest_row (rows : list PrepRow) (vol : num) : Outcome PrepRow :=
  match rows with
  | [] => Raise ValueError
  | r :: rs => Ok (first_min (fun row => fabs (reduction_vol row - vol)) r rs)
  end.

(** The choice between the rows under and over a length ratio of 8. *)
Definition match_by_length (rows : list PrepRow) (ratio vol : num) : Outcome PrepRow :=
  if ratio <? of_Z 8
  then closest_row (filter (fun row => length_ratio row <? of_Z 8) rows) vol
  else closest_row (filter (fun row => length_ratio row >=? of_Z 8) rows) vol.

(** Lines 1249-1252: the time for a removed volume at a rate. *)
Definition removal_time (vol rate : num) : num :=
  if negb (truthy rate) then fzero else fround (vol / rate) 3.

(** [vol_calc]; [tool_description] is the description of the tool the
    enclosing call works on. *)
Definition vol_calc (excel : Excel) (tool_description : string)
    (major_od minor_od height : num) (sheet_name : string) (vol_type : VolType)
  : Outcome VolInfo :=
  fr_df <-
    match prep_sheet excel sheet_name with
    | Some sheet => Ok sheet
    | None => Raise KeyError
    end ;;
  match prep_rows fr_df with
  | [] => Failure 404
  | first_row :: other_rows =>
      if has_null fr_df then Failure 102
      else
        let rows := first_row :: other_rows in
        let major_rad := major_od / of_Z 2 in
        let minor_rad := minor_od / of_Z 2 in
        let major_vol := fpi * fpow major_rad 2 * height in
        let minor_vol :=
          match vol_type with
          | CYLINDER => fpi * fpow minor_rad 2 * height
          | CONE =>
              (fpi * height
               * (fpow major_rad 2 + fpow minor_rad 2 + major_rad * minor_rad))
              / of_Z 3
          end in
        let vol := major_vol - minor_vol in
        ratio <- pydiv height minor_od ;;
        let ratio := fround ratio 0 in
        rate <-
          (if String.eqb sheet_name "POINT_PREP" then
             let closest_diameter :=
               major_diameter
                 (first_min (fun row => fabs (major_diameter row - major_od))
                            first_row other_rows) in
             tip_ratio <- pydiv minor_od major_od ;;
             _ <- pydiv height major_od ;;
             let inc := if tip_ratio >=? dec 45 2 then dec 11 1 else dec 10 1 in
             inc <-
               (if PyStr.contains "TAPERMILL" tool_description then
                  r <- pydiv height minor_od ;;
                  Ok (if r >? of_Z 8 then inc + dec 16 1 else inc)
                else Ok inc) ;;
             match filter (fun row => major_diameter row == closest_diameter) rows with
             | row :: _ => Ok (in3_per_min row * inc)
             | [] => Raise IndexError
             end
           else if String.eqb sheet_name "F_RED_PREP" then
             row <- match_by_length rows ratio vol ;;
             Ok (in3_per_min row)
           else if String.eqb sheet_name "NECK_PREP" then
             q <- pydiv minor_od major_od ;;
             let neck_pecent := of_Z 1 - q in
             let allowed_percent :=
               if minor_od == major_od then dec 15 2 else dec 2 1 in
             let neck_df :=
               if neck_pecent <? allowed_percent
               then filter (fun row => neck_ratio row <? dec 15 2) rows
               else filter (fun row => neck_ratio row >=? dec 15 2) rows in
             row <- match_by_length neck_df ratio vol ;;
             Ok (in3_per_min row)
           else Raise KeyError) ;;
        Ok {| vol_time := removal_time vol rate;
              vol_reduction_vol := vol;
              vol_rate := rate |}
  end.

(** Lines 1010-1019: the backtaper time.  The result is
    [(backtaper_prep, bt_time, backtaper_rate)]. *)
Definition backtaper (prep : PrepDict) (description : string) (prep_length : num)
  : Outcome (bool * num * num) :=
  if existsb (fun word => PyStr.contains word description) (backtaper_tools prep) then
    let rate := backtaper_rate prep / dec 254 1 in
    bt_time <- pydiv prep_length rate ;;
    Ok (true, bt_time, rate)
  else Ok (false, fzero, fzero).

(** An entry of [prep_type]: name, time with its increase, removed volume
    and rate. *)
Record PrepEntry : Type := {
  entry_name : string;
  entry_time : num;
  entry_vol : num;
  entry_rate : num
}.

(** Lines 1399-1405: the robot time of one operation. *)
Definition robot_time_of (prep : PrepEntry) : num :=
  let time := entry_time prep in
  if (time <? dec 111 2) && negb (time == fzero) then
    if PyStr.contains "Backtaper Prep" (entry_name prep)
    then fround (of_Z 5 / of_Z 60) 4
    else fround (of_Z 20 / of_Z 60) 4
  else fzero.

(** The loop of lines 1397-1408; the state is
    [(total_prep_time, total_robot_time, robot_time)]. *)
Definition sum_prep_times (prep_type : list PrepEntry) : num * num * num :=
  fold_left
    (fun st prep =>
       let '(total_prep_time, total_robot_time, _) := st in
       let robot_time := robot_time_of prep in
       let prep_time := fround (entry_time prep + robot_time) 3 in
       (total_prep_time + prep_time, total_robot_time + robot_time, robot_time))
    prep_type (fzero, fzero, fzero).

(** Lines 1394-1413: the aggregate prep time, and the robot time it was
    closed with. *)
Definition total_prep_time (prep_type : list PrepEntry) (double_end : bool)
  : num * num :=
  let '(total_prep_time, _, robot_time) := sum_prep_times prep_type in
  let total_prep_time :=
    if double_end then total_prep_time * of_Z 2 else total_prep_time in
  (fround (total_prep_time + robot_time) 3, robot_time).

(** Lines 1414-1422: the text of the prep types. *)
Definition prep_type_text (prep_type : list PrepEntry) (robot_time : num) : string :=
  let text :=
    fold_left
      (fun text pair =>
         (text ++ entry_name pair ++ ": " ++ py_str (entry_time pair) ++ " | ")%string)
      prep_type ""%string in
  let n := String.length text in
  let text :=
    if String.eqb (PyStr.drop (n - 3) text) " | "
    then String.substring 0 (n - 3) text else text in
  match prep_type with
  | [] => text
  | _ => (text ++ " | Robot Time: " ++ py_str robot_time)%string
  end.

(** Lines 1369-1392: the table of operations with the fixed 10 % increase,
    and the entries whose gate is open.  With a neck prep, the neck entry
    is re-inserted under its full name and so comes last. *)
Definition inc_percentage : num := dec 110 2.

Definition gated (gate : bool) (name : string) (time vol rate : num)
  : list PrepEntry :=
  if gate
  then [{| entry_name := name; entry_time := time; entry_vol := vol;
           entry_rate := rate |}]
  else [].

Definition increased (time : num) : num := fround (time * inc_percentage) 4.

(** The gates of the twelve operations and the times of the six that
    are computed, as lines 1370-1383 tabulate them. *)
Record PrepTable : Type := {
  front_reduction_prep : bool;  fr_info : VolInfo;
  shank_reduction_prep : bool;  sr_info : VolInfo;
  point_prep : bool;            pt_info : VolInfo;
  chamfer_prep : bool;
  neck_prep : bool;             nk_info : VolInfo;  nk_after_fluting : bool;
  tapered_neck_prep : bool;     tp_nk_info : VolInfo;
  radius_prep : bool;
  backtaper_prep : bool;        bt_time : num;      bt_rate : num;
  flat_prep : bool;
  cut_off_prep : bool;
  bumping_prep : bool;
  cg_prep : bool
}.

Definition no_vol : VolInfo :=
  {| vol_time := fzero; vol_reduction_vol := fzero; vol_rate := fzero |}.

(** Lines 1370-1392: [prep_type]. *)
Definition prep_type_of (t : PrepTable) : list PrepEntry :=
  let of_vol gate name (i : VolInfo) :=
    gated gate name (increased (vol_time i)) (vol_reduction_vol i) (vol_rate i) in
  of_vol (front_reduction_prep t) "Front Reduction Prep" (fr_info t)
  ++ of_vol (shank_reduction_prep t) "Shank Reduction Prep" (sr_info t)
  ++ of_vol (point_prep t) "Point Prep" (pt_info t)
  ++ gated (chamfer_prep t) "Chamfer Prep" fzero fzero fzero
  ++ of_vol (tapered_neck_prep t) "Tapered Neck Prep" (tp_nk_info t)
  ++ gated (radius_prep t) "Radius Prep" fzero fzero fzero
  ++ gated (backtaper_prep t) "Backtaper Prep" (increased (bt_time t)) fzero (bt_rate t)
  ++ gated (flat_prep t) "Flat Prep" fzero fzero fzero
  ++ gated (cut_off_prep t) "Cut Off Prep" fzero fzero fzero
  ++ gated (bumping_prep t) "Bumping Prep" fzero fzero fzero
  ++ gated (cg_prep t) "Centerless Grinding Prep" fzero fzero fzero
  ++ of_vol (neck_prep t)
       (if nk_after_fluting t then "Neck Prep (After Fluting)"
        else "Neck Prep (Before Fluting)")
       (nk_info t).

(** Lines 1394-1425: the record gets the text and the aggregate time when
    some operation is gated. *)
Definition store_prep (tool : ToolInfo) (entries : list PrepEntry) (double_end : bool)
  : ToolInfo :=
  let '(total, robot_time) := total_prep_time entries double_end in
  match entries with
  | [] => tool
  | _ =>
      set_num (set_str tool prep_type (prep_type_text entries robot_time))
              prep_cycle_time (VNum total)
  end.

(** Lines 918-1368 of [calc_prep_time]: the gates are decided and the
    gated operations are timed.  The record comes back with the
    attributes the rules set on the way (tip diameter and main angle of a
    chamfer prep, the default tapered-neck angle). *)
Definition prep_operations (layer : JsonLayer) (excel : Excel) (tool : ToolInfo)
  : Outcome (ToolInfo * PrepTable) :=
  let P := PREP_DICT layer in
  let description := str_attr tool tool_description in
  let family := str_attr tool tool_family in
  let split_description := PyStr.split_char " " description in
  cut_dia <- get_num tool cut_diameter ;;
  loc <- get_num tool length_of_cut ;;
  shank_dia <- get_num tool shank_diameter ;;
  oal <- get_num tool overall_length ;;
  cr <- get_num tool corner_radius ;;
  nk_dia <- get_num tool neck_diameter ;;
  nk_len <- get_num tool neck_length ;;
  mat_dia <- get_num tool material_diameter ;;
  mat_len <- get_num tool material_oal ;;
  pilot <- get_num tool pilot_length ;;
  let prep_length :=
    if PyStr.contains "DRILL&COUNTERSINK" description then pilot else loc in
  let cg := (mat_dia >? cut_dia) && (mat_dia >? shank_dia) in
  let front_reduction := cut_dia <? shank_dia in
  let prep_dia :=
    if front_reduction then
      if String.eqb family "DRILL" then cut_dia
      else if cut_dia >? fr_dia_cutoff1 P then cut_dia + fr_prep_dia_inc1 P
      else if cut_dia >=? fr_dia_cutoff2 P then cut_dia + fr_prep_dia_inc2 P
      else cut_dia + fr_prep_dia_inc3 P
    else cut_dia in
  let shank_dia :=
    if PyStr.contains "BRAZED" (PyStr.upper (str_attr tool material))
    then cut_dia else shank_dia in
  let shank_reduction := shank_dia <? cut_dia in
  let '(neck, prep_length) :=
    if truthy nk_dia then
      if nk_dia == cut_dia then (false, loc + nk_len) else (true, prep_length)
    else (false, prep_length) in
  '(backtaper_gate, bt, bt_r) <- backtaper P description prep_length ;;
  tn_dia <- get_num tool tapered_neck_diameter ;;
  if PyStr.contains "TAPEREDNECK" description && negb (truthy tn_dia) then Failure 211
  else
    tn_angle <- get_num tool tapered_neck_angle ;;
    let '(tool, tn_angle, tapered_neck) :=
      if truthy tn_dia then
        let '(tool, tn_angle) :=
          if negb (truthy tn_angle)
          then (set_num tool tapered_neck_angle (VNum (included_prep_angle P)),
                included_prep_angle P)
          else (tool, tn_angle) in
        (tool, tn_angle,
         negb (shank_reduction
               && existsb (fun x => PyStr.mem x split_description) ["OVAL"; "INVERTED"]))
      else (tool, tn_angle, false) in
    let '(point, tip_percent) :=
      if String.eqb family "DRILL" then
        if PyStr.contains "HURRICANE" description then (true, Some (prep_tip_percent P))
        else if cut_dia >=? point_prep_dia_cutoff P then
          (true,
           Some (if PyStr.contains "DRILL&COUNTERSINK" description
                 then drill_countersink_percent P else drill_percent P))
        else (false, None)
      else (false, None) in
    let '(point, tip_percent) :=
      if existsb (fun word => PyStr.contains word description) (point_tools P)
         && negb (PyStr.contains "DRILL&COUNTERSINK" description)
      then (true, Some (prep_tip_percent P)) else (point, tip_percent) in
    let '(chamfer, radius) :=
      if PyStr.mem "BALL" split_description then
        if cut_dia <=? ball_dia_cutoff P then
          (if (cut_dia >? ball_dia_ref_1 P) && (loc <? ball_loc_ref_1 P) then true
           else if (cut_dia >=? ball_dia_ref_2 P) && (loc >=? ball_loc_ref_2 P) then true
           else false,
           false)
        else if cut_dia >? ball_dia_cutoff P then (false, true)
        else (false, false)
      else (false, false) in
    let chamfer :=
      if PyStr.mem "CR" split_description
         && (cut_dia >? cr_dia_cutoff P) && (cr >=? cr_cut_percent P * cut_dia)
      then true else chamfer in
    let chamfer :=
      if PyStr.contains "PILOTED DIEMILL" description then true else chamfer in
    let tool :=
      if chamfer
      then set_num (set_num tool tip_diameter (VNum (cut_dia * dec 50 2)))
                   main_angle (VNum (dec 450 1))
      else tool in
    tip_dia <- get_num tool tip_diameter ;;
    angle <- get_num tool main_angle ;;
    let point := if truthy tip_dia then true else point in
    prep_tip_dia <-
      (if point then
         if negb (truthy angle) then Failure 404
         else
           prep_tip_dia <-
             (if PyStr.contains "BUR" family then
                if negb (truthy tip_dia) then Failure 404 else Ok tip_dia
              else Ok fzero) ;;
           if negb (truthy prep_tip_dia) then
             if truthy tip_dia then Ok (tip_dia + dec 10 3)
             else match tip_percent with
                  | Some percent => Ok (cut_dia * percent)
                  | None => Raise UnboundLocalError
                  end
           else Ok prep_tip_dia
       else Ok fzero) ;;
    let '(prep_tip_dia, front_reduction, point) :=
      if PyStr.mem "TAPERMILL" split_description then
        (if PyStr.mem "SQ" split_description || PyStr.mem "CR" split_description
         then cut_dia + dec 1 2 else cut_dia,
         false, true)
      else (prep_tip_dia, front_reduction, point) in
    let '(bumping, cut_off) :=
      if negb (oal == fzero) && (oal <? mat_len) then
        let dif := mat_len - oal in
        if dif <? bumping_length_cutoff P / dec 254 1 then (true, false)
        else (false, true)
      else (false, false) in
    let flat := PyStr.mem "W/FLAT" split_description in
    let vol := vol_calc excel description in
    let shank_length := oal - loc in
    sr <-
      (if shank_reduction
       then vol cut_dia shank_dia shank_length "F_RED_PREP" CYLINDER
       else Ok no_vol) ;;
    let reach := nk_len + loc in
    '(after_fluting, nk) <-
      (if neck then
         q <- pydiv reach cut_dia ;;
         let reach_ratio := fround q 0 in
         let after_fluting :=
           if front_reduction then
             if shank_dia <=? dec 1250 4 then
               (reach_ratio >? dec 60 1) && (cut_dia >=? dec 35 3)
             else if shank_dia <=? dec 2500 4 then reach_ratio >? dec 70 1
             else false
           else false in
         let base_dia := if after_fluting then shank_dia else prep_dia in
         nk <- vol base_dia nk_dia nk_len "NECK_PREP" CYLINDER ;;
         Ok (after_fluting, nk)
       else Ok (false, no_vol)) ;;
    fr <-
      (if front_reduction then
         if neck && negb after_fluting
         then vol shank_dia prep_dia reach "F_RED_PREP" CYLINDER
         else vol shank_dia prep_dia prep_length "F_RED_PREP" CYLINDER
       else Ok no_vol) ;;
    pt <-
      (if point then
         let base_dia := if front_reduction || shank_reduction then prep_dia
                         else shank_dia in
         let cone_tip_length := find_height_tan angle prep_tip_dia in
         let truncated_cone_length := find_height_tan angle base_dia - cone_tip_length in
         vol base_dia prep_tip_dia truncated_cone_length "POINT_PREP" CONE
       else Ok no_vol) ;;
    tp_nk <-
      (if tapered_neck then
         let base_dia := shank_dia in
         let truncated_cone_length :=
           if truthy nk_len then nk_len
           else find_height_tan tn_angle base_dia - find_height_tan tn_angle tn_dia in
         vol base_dia tn_dia truncated_cone_length "POINT_PREP" CONE
       else Ok no_vol) ;;
    Ok (tool,
        {| front_reduction_prep := front_reduction; fr_info := fr;
           shank_reduction_prep := shank_reduction; sr_info := sr;
           point_prep := point; pt_info := pt;
           chamfer_prep := chamfer;
           neck_prep := neck; nk_info := nk; nk_after_fluting := after_fluting;
           tapered_neck_prep := tapered_neck; tp_nk_info := tp_nk;
           radius_prep := radius;
           backtaper_prep := backtaper_gate; bt_time := bt; bt_rate := bt_r;
           flat_prep := flat;
           cut_off_prep := cut_off;
           bumping_prep := bumping;
           cg_prep := cg |}).

(** [calc_prep_time(tool, context, parse, double_end)]; [json_layer] and
    [excel_layer] are what [get_json_from_layer] and [get_xlsx_from_layer]
    return. *)
Definition calc_prep_time (json_layer : Outcome JsonLayer) (excel_layer : Outcome Excel)
    (tool : ToolInfo) (parse double_end : bool) : Outcome ToolInfo :=
  tool <-
    (if parse then
       '(json_content, tool) <- parse_description json_layer tool false true ;;
       let description := str_attr tool tool_description in
       family_info <-
         get_family json_content description (PyStr.split_char " " description) ;;
       Ok (set_str tool tool_family (Fam.family family_info))
     else Ok tool) ;;
  let is_zero (v : PyVal) : bool :=
    match v with
    | VNum x => x == fzero
    | VStr _ => false
    end in
  let critical_dim :=
    [num_attr tool cut_diameter; num_attr tool length_of_cut;
     num_attr tool shank_diameter] in
  if existsb is_zero critical_dim then Failure 206
  else
    layer <- json_layer ;;
    excel <- excel_layer ;;
    '(tool, table) <- prep_operations layer excel tool ;;
    Ok (store_prep tool (prep_type_of table) double_end).

End Prep.

(** ** The request pipeline: [get_tool_detail] and [lambda_handler] *)

Section Handler.
Context {F : PyFloat} {R : PyRuntime}.

#[local] Open Scope pyfloat_scope.

(** The reference data behind a [context]: what the two memoized readers
    return for it. *)
Record Layer : Type := {
  json_layer : Outcome JsonLayer;
  excel_layer : Outcome Excel
}.

(** The option tokens of [args] and the flag each one sets. *)
Definition arg_flag (arg : string) : option Flag :=
  let arg := PyStr.upper arg in
  if String.eqb arg "TERT" then Some tert_od_angle
  else if String.eqb arg "NOTCH" then Some notch
  else if String.eqb arg "DE" then Some double_end
  else if String.eqb arg "COARSE" then Some coarse
  else if String.eqb arg "DETAIL" then Some detail
  else if String.eqb arg "MASS" then Some mass_detail
  else if String.eqb arg "MM" then Some mm
  else if String.eqb arg "PREP" then Some prep
  else None.

(** The attribute a key of [kwargs] is stored in. *)
Inductive KwTarget : Type :=
| ToStr (attr : StrAttr)
| ToNum (attr : NumAttr).

Definition kwarg_attr (k : string) : option KwTarget :=
  let k := PyStr.upper k in
  if String.eqb k "PART_NUM" then Some (ToStr part_number)
  else if String.eqb k "MATERIAL" then Some (ToStr material)
  else if String.eqb k "MAT_DIMENSION" then Some (ToStr material_dimension)
  else if String.eqb k "TIP_DIAMETER" then Some (ToNum tip_diameter)
  else if String.eqb k "TAPERED_NECK_DIA" then Some (ToNum tapered_neck_diameter)
  else None.

(** Lines 1439-1451: the loop over [args]. *)
Definition apply_args (feature : InputArgData) (args : list string) : InputArgData :=
  fold_left
    (fun feature arg =>
       match arg_flag arg with
       | Some attr => set_flag feature attr true
       | None => feature
       end)
    args feature.

(** Lines 1452-1467: the loop over [kwargs]; a value is coerced to the
    type the attribute holds, and a coercion that raises ends the request
    with status 200. *)
Fixpoint apply_kwargs (tool : ToolInfo) (kw : list (string * PyVal)) : Outcome ToolInfo :=
  match kw with
  | [] => Ok tool
  | (k, v) :: rest =>
      match kwarg_attr k with
      | Some (ToStr attr) => apply_kwargs (set_str tool attr (val_str v)) rest
      | Some (ToNum attr) =>
          match num_attr tool attr, v with
          | VNum _, VNum x => apply_kwargs (set_num tool attr (VNum x)) rest
          | VNum _, VStr s =>
              match py_float s with
              | Some x => apply_kwargs (set_num tool attr (VNum x)) rest
              | None => Failure 200
              end
          | VStr _, _ => apply_kwargs (set_num tool attr (VStr (val_str v))) rest
          end
      | None => apply_kwargs tool rest
      end
  end.

(** Lines 1485-1497: the stock dimensions. *)
Definition material_dimensions (tool : ToolInfo) (cut_dia oal : num) : Outcome ToolInfo :=
  let dimension := str_attr tool material_dimension in
  if negb (String.eqb dimension "") then
    let dims := PyStr.split_char "X" (PyStr.replace "-" "+" (PyStr.upper dimension)) in
    match map py_eval dims with
    | [Some d; Some l] =>
        let '(d, l) :=
          if l >? MM_CUTOFF then (d / dec 254 1, l / dec 254 1) else (d, l) in
        Ok (set_num (set_num tool material_diameter (VNum d)) material_oal (VNum l))
    | _ => Failure 200
    end
  else
    Ok (set_num (set_num tool material_diameter (VNum cut_dia)) material_oal (VNum oal)).

(** [get_tool_detail(tool, context, args=args, kwargs=kwargs)] *)
Definition get_tool_detail (layer : Layer) (tool : ToolInfo) (args : list string)
    (kwargs : list (string * PyVal)) : Outcome (ToolInfo * InputArgData * Detail) :=
  let feature := apply_args new_feature args in
  tool <- apply_kwargs tool kwargs ;;
  '(json_content, tool) <-
    parse_description (json_layer layer) tool (flag feature mm) (flag feature prep) ;;
  cut_dia <- match val_float (num_attr tool cut_diameter) with
             | Raise ValueError => Failure 201 | r => r end ;;
  loc <- match val_float (num_attr tool length_of_cut) with
         | Raise ValueError => Failure 201 | r => r end ;;
  shank_dia <- match val_float (num_attr tool shank_diameter) with
               | Raise ValueError => Failure 201 | r => r end ;;
  oal <- match val_float (num_attr tool overall_length) with
         | Raise ValueError => Failure 201 | r => r end ;;
  let description := str_attr tool tool_description in
  tool <- material_dimensions tool cut_dia oal ;;
  let PERF_LIST := perf_series json_content in
  let base_description := str_attr tool formatted_description in
  let split_description := PyStr.split_char " " description in
  let feature :=
    if PyStr.mem "DRILL&COUNTERSINK" split_description
    then set_flag feature double_end true else feature in
  let feature :=
    if PyStr.mem "CC" split_description then set_flag feature coarse true else feature in
  let feature :=
    if PyStr.mem "DE" split_description
    then set_flag feature double_end true else feature in
  family_dict <- get_family json_content base_description split_description ;;
  let tool := set_str tool tool_family (Fam.family family_dict) in
  let tool := set_str tool reference_family (Fam.ref_family family_dict) in
  let feature :=
    set_flag {| flag := flag feature;
                end_type := Fam.end_type family_dict;
                bur_cut := Fam.bur_cut family_dict |}
             spiral (Fam.spiral family_dict) in
  if (cut_dia == fzero) || (loc == fzero) || (shank_dia == fzero)
     || String.eqb description "" then Failure 206
  else
    let '(tool, feature) :=
      if PyStr.mem (str_attr tool tool_family) ROUTER_FAM then
        (if String.eqb (str_attr tool flute_count) "1"
         then set_str tool flute_count "2" else tool,
         set_flag (set_flag feature notch false) end_time
           (existsb (fun desc => PyStr.mem desc (HAS_END_TIME json_content))
                    split_description))
      else (tool, feature) in
    let feature :=
      set_flag feature performance
        (existsb (fun ps => PyStr.contains ps description) PERF_LIST) in
    tool <-
      (if flag feature prep
       then calc_prep_time (json_layer layer) (excel_layer layer) tool false
              (flag feature double_end)
       else Ok tool) ;;
    calc_fluting_time PERF_LIST (excel_layer layer) tool feature.

(** The request: a missing key is [None]. *)
Record Event : Type := {
  Diameter : option PyVal;
  LOC : option PyVal;
  ShankDiameter : option PyVal;
  OAL : option PyVal;
  FluteCount : option string;
  Description : option string;
  args : option (list string);
  kwargs : option (list (string * PyVal))
}.

(** The body of a successful response. *)
Record Response : Type := {
  statusCode : Z;
  PartNumber : string;
  resp_Diameter : PyVal;
  resp_LOC : PyVal;
  resp_ShankDiameter : PyVal;
  resp_OAL : PyVal;
  resp_FluteCount : string;
  resp_Description : string;
  Family : string;
  PrepType : string;
  CycleTime : PyVal;
  PrepTime : PyVal;
  TotalCycleTime : num;
  resp_Detail : Detail
}.

(** Lines 209-216: the scan of [kwargs] for the part number; the [break]
    ends it after the first entry. *)
Definition scan_part_num (kwargs : list (string * PyVal)) : string :=
  match kwargs with
  | [] => ""
  | (k, v) :: _ =>
      if String.eqb (PyStr.lower k) "part_num" then val_str v else ""
  end.

(** Lines 221-226: an empty string in a numeric field becomes 0. *)
Definition empty_to_zero (v : PyVal) : PyVal :=
  match v with
  | VStr s => if String.eqb s "" then VNum fzero else v
  | VNum _ => v
  end.

(** [ToolInfo(cut_diameter=..., ...)]: the other attributes have the
    defaults of the dataclass. *)
Definition new_tool (diameter loc shank_dia oal : PyVal) (fl_cnt description : string)
  : ToolInfo :=
  {| num_attr := fun attr =>
       match attr with
       | cut_diameter => diameter
       | length_of_cut => loc
       | shank_diameter => shank_dia
       | overall_length => oal
       | _ => VNum fzero
       end;
     str_attr := fun attr =>
       match attr with
       | flute_count => fl_cnt
       | tool_description => description
       | _ => ""
       end |}.

Definition lambda_handler (layer : Layer) (event : Event) : Outcome Response :=
  let args := match args event with Some a => a | None => [] end in
  let '(kwargs, part_num) :=
    match kwargs event with
    | Some kw => (kw, scan_part_num kw)
    | None => ([], "")
    end in
  match Diameter event, LOC event, ShankDiameter event, OAL event,
        FluteCount event, Description event with
  | Some diameter, Some loc, Some shank_dia, Some oal, Some fl_cnt, Some description =>
      if String.eqb description "" then Failure 204
      else
        let tool :=
          new_tool (empty_to_zero diameter) (empty_to_zero loc)
                   (empty_to_zero shank_dia) (empty_to_zero oal) fl_cnt description in
        '(tool, feature, report) <- get_tool_detail layer tool args kwargs ;;
        fluting_time <- get_num tool fluting_cycle_time ;;
        prep_time <- get_num tool prep_cycle_time ;;
        Ok {| statusCode := 900;
              PartNumber := part_num;
              resp_Diameter := num_attr tool cut_diameter;
              resp_LOC := num_attr tool length_of_cut;
              resp_ShankDiameter := num_attr tool shank_diameter;
              resp_OAL := num_attr tool overall_length;
              resp_FluteCount := str_attr tool flute_count;
              resp_Description := str_attr tool full_description;
              Family := str_attr tool tool_family;
              PrepType := str_attr tool prep_type;
              CycleTime := num_attr tool fluting_cycle_time;
              PrepTime := num_attr tool prep_cycle_time;
              TotalCycleTime := fround (fluting_time + prep_time) 3;
              resp_Detail := report |}
  | _, _, _, _, _, _ => Failure 108
  end.

(** The call of [get_tool_detail] that [lambda_handler] makes for a
    request (lines 228-260), with its early returns. *)
Definition request_detail (layer : Layer) (event : Event)
  : Outcome (ToolInfo * InputArgData * Detail) :=
  match Diameter event, LOC event, ShankDiameter event, OAL event,
        FluteCount event, Description event with
  | Some diameter, Some loc, Some shank_dia, Some oal, Some fl_cnt, Some description =>
      if String.eqb description "" then Failure 204
      else
        get_tool_detail layer
          (new_tool (empty_to_zero diameter) (empty_to_zero loc)
                    (empty_to_zero shank_dia) (empty_to_zero oal) fl_cnt description)
          (match args event with Some a => a | None => [] end)
          (match kwargs event with Some kw => kw | None => [] end)
  | _, _, _, _, _, _ => Failure 108
  end.

End Handler.

(** ** The rule table of the family classifier, as the specification states it *)

(** The rule table of the specification: the rules are tried in order and
    the first one whose condition holds gives the result. *)
Definition first_match {A : Type} (rules : list (bool * A)) (default : A) : A :=
  match find fst rules with
  | Some (_, a) => a
  | None => default
  end.

(** The rules of the family classifier in the order the specification
    lists them; [first] is the first word of the description and [tokens]
    are all its words. *)
Definition family_rules (taxonomy : Taxonomy) (base_description first : string)
    (tokens : list string) : list (bool * Outcome Fam.Info) :=
  let info f r e c s :=
    Ok {| Fam.family := f; Fam.ref_family := r; Fam.end_type := e;
          Fam.bur_cut := c; Fam.spiral := s |} in
  [ (PyStr.mem base_description (EM_LIST taxonomy), info "EM" "SQ EM" "" "" false);
    (PyStr.mem base_description (WR_LIST taxonomy), info "WR" "SQ EM" "" "" false);
    (PyStr.mem base_description (DRILL_LIST taxonomy), info "DRILL" "SQ EM" "" "" false);
    (PyStr.mem base_description (FBGR_LIST taxonomy), info "FBGR" "BUR" first "" false);
    (PyStr.mem base_description (O_FLUTE_LIST taxonomy),
     info "O-FLUTE" "SQ EM" "" "" false);
    (PyStr.mem base_description (WR_COMP_LIST taxonomy),
     info "WR COMP" "SQ EM" "" "" false);
    (PyStr.any_in (BUR_LIST taxonomy) base_description
     && negb (PyStr.contains "DRILL" base_description),
     match find (fun cut => PyStr.mem cut tokens) (BUR_CUT_LIST taxonomy) with
     | Some cut => info "BUR" "BUR" "" cut (PyStr.mem "SPIRAL" tokens)
     | None => Failure 302
     end) ].

(** ** The record with the angles of the description stored (lines 765-768) *)

Definition with_angles {F : PyFloat} (tool : ToolInfo) (angle neck_angle : num)
  : ToolInfo :=
  let tool := if truthy angle then set_num tool main_angle (VNum angle) else tool in
  if truthy neck_angle then set_num tool tapered_neck_angle (VNum neck_angle) else tool.

(** ** The test of the attribute list: a number other than 0 *)

Definition nonzero_number {F : PyFloat} (v : PyVal) : bool :=
  match v with
  | VNum x => negb (feqb x fzero)
  | VStr _ => false
  end.

(** ** The description the parser works on (lines 489-565) *)

Definition working_description {F : PyFloat} (layer : JsonLayer) (tool : ToolInfo)
  : string :=
  normalize_description (abbreviations (json_content layer))
                        (PyStr.upper (str_attr tool tool_description)).

(** ** The part number the mapping of [kwargs] leaves in the record *)

(** The value of the last entry whose key is [PART_NUM] in any case, or
    [init] when there is none. *)
Definition kwargs_part_number {F : PyFloat} {R : PyRuntime} (init : string)
    (kw : list (string * PyVal)) : string :=
  fold_left
    (fun acc kv =>
       if String.eqb (PyStr.upper (fst kv)) "PART_NUM" then val_str (snd kv) else acc)
    kw init.

(** Whether [args] requests [attr]. *)
Definition requests (attr : Flag) (args : list string) : bool :=
  existsb (fun arg =>
             match arg_flag arg with
             | Some b => Flag_beq b attr
             | None => false
             end)
          args.

(** ** Attribute values that are numbers *)

Definition is_number {F : PyFloat} (v : PyVal) : Prop := exists x, v = VNum x.

(** ** The families [get_family] assigns *)

Definition FAMILIES : list string :=
  ["EM"; "WR"; "DRILL"; "FBGR"; "O-FLUTE"; "WR COMP"; "BUR"].

(** ** What the conversion loop does to one attribute value *)

Definition converted {F : PyFloat} (v : PyVal) : PyVal :=
  match v with
  | VNum x => VNum (convert_from_mm x)
  | VStr s => VStr s
  end.

(** ** The aggregate prep time, as the specification states it *)

(** The sum over the gated operations of the increased time plus its robot
    surcharge, doubled for a double-ended tool, and nothing else. *)
Definition claimed_prep_time {F : PyFloat} (entries : list PrepEntry)
    (double_end : bool) : num :=
  let total :=
    fold_left (fun acc entry => fadd acc (fadd (entry_time entry) (robot_time_of entry)))
              entries fzero in
  if double_end then fmul total (of_Z 2) else total.

(** ** A runtime to compute with *)

(** An executable [PyRuntime] on the rationals of [QFloat]: a backtracking
    matcher for the six patterns, [eval] and [float] on the dimension
    notations (decimal numbers, fractions, sums), and decimal printing.  It
    serves to run the definitions on concrete requests; the theorems do not
    depend on it. *)
Module QRuntime.

Inductive Re : Type :=
| Eps
| Chr (c : ascii)
| Digit
| AnyChar
| Seq (a b : Re)
| Alt (a b : Re)
| Opt (a : Re)
| Plus (a : Re).

Fixpoint lit (s : string) : Re :=
  match s with
  | EmptyString => Eps
  | String c s' => Seq (Chr c) (lit s')
  end.

Fixpoint size (r : Re) : nat :=
  match r with
  | Eps | Chr _ | Digit | AnyChar => 1
  | Seq a b | Alt a b => S (size a + size b)
  | Opt a | Plus a => S (size a)
  end.

(** Backtracking match of [r] at the head of [s]; [k] continues on the
    rest.  Greedy repetition, alternatives in order. *)
Fixpoint run (fuel : nat) (r : Re) (s : string) (k : string -> option string)
  : option string :=
  match fuel with
  | O => None
  | S fuel' =>
      match r with
      | Eps => k s
      | Chr c =>
          match s with
          | String a s' => if Ascii.eqb a c then k s' else None
          | EmptyString => None
          end
      | Digit =>
          match s with
          | String a s' =>
              match PyStr.digit_of a with Some _ => k s' | None => None end
          | EmptyString => None
          end
      | AnyChar =>
          match s with
          | String a s' => if Ascii.eqb a (ascii_of_nat 10) then None else k s'
          | EmptyString => None
          end
      | Seq a b => run fuel' a s (fun s' => run fuel' b s' k)
      | Alt a b =>
          match run fuel' a s k with
          | Some rest => Some rest
          | None => run fuel' b s k
          end
      | Opt a =>
          match run fuel' a s k with
          | Some rest => Some rest
          | None => k s
          end
      | Plus a =>
          run fuel' a s
              (fun s' =>
                 match run fuel' (Plus a) s' k with
                 | Some rest => Some rest
                 | None => k s'
                 end)
      end
  end.

Fixpoint take (n : nat) (s : string) : string :=
  match n, s with
  | S n', String a s' => String a (take n' s')
  | _, _ => EmptyString
  end.

(** [re.search(r, s).group(0)] *)
Fixpoint search (r : Re) (s : string) : option string :=
  match run (String.length s + size r + 2) r s Some with
  | Some rest => Some (take (String.length s - String.length rest) s)
  | None =>
      match s with
      | EmptyString => None
      | String _ s' => search r s'
      end
  end.

Definition digits : Re := Plus Digit.

(** A dimension: decimal, fraction or mixed number. *)
Definition dimension : Re :=
  Alt (Seq digits (Opt (Seq (Chr ".") digits)))
      (Alt (Seq digits (Seq (Chr "/") digits))
           (Seq digits (Seq (Chr "-") (Seq digits (Seq (Chr "/") digits))))).

Definition degree_sign : Re :=
  Seq (Chr (ascii_of_nat 194)) (Chr (ascii_of_nat 176)).

Definition pattern (p : Pattern) : Re :=
  match p with
  | neck_pattern =>
      Seq (Opt (Chr "."))
        (Seq (Opt dimension)
           (Seq (Opt degree_sign)
              (Seq (Chr "X")
                 (Seq (Opt (Chr "."))
                    (Seq (Opt dimension)
                       (Seq (Chr " ") (Seq (Opt (lit "TAPERED")) (lit "NECK"))))))))
  | cr_pattern =>
      Seq (Opt digits) (Seq (Opt (Chr ".")) (Seq digits (Seq (Opt (lit "MM")) (lit " CR"))))
  | fl_cnt_pattern => Seq digits (lit "FL")
  | dim_pattern => Seq digits (Seq (Chr "X") digits)
  | dim_pattern_any => Seq digits (Seq (Chr "X") (Seq AnyChar digits))
  | angle_pattern => Seq digits degree_sign
  end.

(** Value of a digit string, and of the digits after a decimal point. *)
Fixpoint digits_value (s : string) (acc : Z) : option Z :=
  match s with
  | EmptyString => Some acc
  | String a s' =>
      match PyStr.digit_of a with
      | Some d => digits_value s' (10 * acc + d)
      | None => None
      end
  end.

(** A decimal literal: digits, optionally a point and digits; at least
    one digit. *)
Definition number (s : string) : option Q :=
  match PyStr.split_char "." s with
  | [whole] =>
      if String.eqb whole "" then None
      else option_map inject_Z (digits_value whole 0)
  | [whole; frac] =>
      if String.eqb whole "" && String.eqb frac "" then None
      else
        match digits_value whole 0, digits_value frac 0 with
        | Some w, Some f =>
            Some (Qred (inject_Z w
                        + Qdiv (inject_Z f)
                               (inject_Z (10 ^ Z.of_nat (String.length frac)))))
        | _, _ => None
        end
  | _ => None
  end.

(** A quotient [a/b/...] of decimal literals. *)
Definition quotient (s : string) : option Q :=
  match map number (PyStr.split_char "/" s) with
  | Some a :: rest =>
      fold_left
        (fun acc d =>
           match acc, d with
           | Some x, Some y => if Qeq_bool y 0 then None else Some (Qred (Qdiv x y))
           | _, _ => None
           end)
        rest (Some a)
  | _ => None
  end.

(** [eval] of a sum of quotients; an empty first summand is a unary
    plus. *)
Definition eval (s : string) : option Q :=
  let add acc t :=
    match acc, quotient t with
    | Some x, Some y => Some (Qred (Qplus x y))
    | _, _ => None
    end in
  match PyStr.split_char "+" (PyStr.strip s) with
  | [] => None
  | first :: rest =>
      if String.eqb first "" then
        match rest with
        | [] => None
        | _ => fold_left add rest (Some 0%Q)
        end
      else fold_left add rest (quotient first)
  end.

(** [float(s)] of a signed decimal literal. *)
Definition float (s : string) : option Q :=
  match PyStr.strip s with
  | String "-" r => option_map (fun x => Qred (Qopp x)) (number r)
  | String "+" r => number r
  | r => number r
  end.

Definition digit_char (d : Z) : ascii := ascii_of_nat (48 + Z.to_nat d).

Fixpoint nat_digits (fuel : nat) (n : Z) (acc : string) : string :=
  match fuel with
  | O => acc
  | S fuel' =>
      let acc := String (digit_char (n mod 10)) acc in
      if n / 10 =? 0 then acc else nat_digits fuel' (n / 10) acc
  end.

Fixpoint frac_digits (fuel : nat) (x : Q) : string :=
  match fuel with
  | O => EmptyString
  | S fuel' =>
      let y := Qmult x (inject_Z 10) in
      let d := Qfloor y in
      let r := Qred (Qminus y (inject_Z d)) in
      String (digit_char d) (if Qeq_bool r 0 then EmptyString else frac_digits fuel' r)
  end.

(** [str(x)]: the decimal expansion, cut after 17 places. *)
Definition str (x : Q) : string :=
  let a := Qred (Qabs x) in
  let whole := Qfloor a in
  ((if QFloat.ltb x 0 then "-" else "")
   ++ nat_digits 40 whole EmptyString ++ "."
   ++ frac_digits 17 (Qred (Qminus a (inject_Z whole))))%string.

Definition ops : @PyRuntime QFloat.ops :=
  @Build_PyRuntime QFloat.ops (fun p s => search (pattern p) s) eval float str.

End QRuntime.

(** ** Sample reference data and requests *)

Module Sample.

#[local] Existing Instance QFloat.ops.
#[local] Existing Instance QRuntime.ops.

Definition q (m : Z) (e : nat) : Q := QFloat.of_decimal m e.

Definition vnum (x : Q) : @PyVal QFloat.ops := @VNum QFloat.ops x.

Definition taxonomy : Taxonomy :=
  {| EM_LIST := ["SQ EM"; "BALL EM"; "REAMER"];
     BUR_LIST := ["OVAL"; "CYLINDER"];
     DRILL_LIST := ["DRILL"];
     FBGR_LIST := ["FBGR"];
     WR_LIST := ["WR"];
     O_FLUTE_LIST := ["O-FLUTE WR"];
     WR_COMP_LIST := ["COMP WR"];
     BUR_CUT_LIST := ["DC"; "SC"; "DM"];
     HAS_END_TIME := ["ENDCUT"];
     extras := ["DE"; "SPIRAL"];
     wr_cut := ["UPCUT"];
     abbreviations := [("DOUBLECUT", "DC"); ("SQUARE", "SQ"); ("ENDMILL", "EM")];
     perf_series := ["V4"; "AX"];
     tool_types_list := ["SQ EM"; "BALL EM"; "OVAL"; "CYLINDER"; "DRILL"; "REAMER"];
     split_tool_type_list :=
       ["SQ"; "BALL"; "EM"; "OVAL"; "CYLINDER"; "DRILL"; "DC"; "SC"; "REAMER"] |}.

(** The constants of the prep rules; [rate] is the backtaper rate. *)
Definition prep_dict (rate : Q) : PrepDict :=
  {| fr_dia_cutoff1 := q 2362 4;
     fr_prep_dia_inc1 := q 10 3;
     fr_dia_cutoff2 := q 30 3;
     fr_prep_dia_inc2 := q 5 3;
     fr_prep_dia_inc3 := q 2 3;
     backtaper_tools := ["REAMER"];
     backtaper_rate := rate;
     included_prep_angle := 14%Q;
     point_tools := ["POINTED"];
     prep_tip_percent := q 5 1;
     drill_countersink_percent := q 4 1;
     drill_percent := q 6 1;
     point_prep_dia_cutoff := q 5 1;
     ball_dia_cutoff := q 5 1;
     ball_dia_ref_1 := q 25 2;
     ball_loc_ref_1 := 1%Q;
     ball_dia_ref_2 := q 125 3;
     ball_loc_ref_2 := 1%Q;
     cr_dia_cutoff := q 25 2;
     cr_cut_percent := q 2 1;
     bumping_length_cutoff := 10%Q |}.

Definition json (rate : Q) : JsonLayer :=
  {| json_content := taxonomy; PREP_DICT := prep_dict rate |}.

Definition row (lo hi : Q) (shape : string) (sc dc fl od e g s : Q) : RateRow :=
  {| min_diameter := lo; max_diameter := hi; bur_type := shape;
     sc_fluting := sc; dc_fluting := dc; fluting_fr := fl; od_fr := od;
     end_ct := e; end_gash_ct := g; end_split_ct := s |}.

Definition prep_row (lr nr vol rate dia : Q) : PrepRow :=
  {| length_ratio := lr; neck_ratio := nr; reduction_vol := vol;
     in3_per_min := rate; major_diameter := dia |}.

Definition excel : Excel :=
  {| rate_sheet := fun name =>
       if String.eqb name "SQ EM" then
         Some [row 0%Q (q 5 1) "" 0%Q 0%Q 2%Q 4%Q 1%Q 1%Q (q 5 1);
               row (q 5 1) 1%Q "" 0%Q 0%Q 1%Q 2%Q 1%Q 1%Q 1%Q]
       else if String.eqb name "BUR" then
         Some [row 0%Q (q 5 1) "Oval" (q 7 1) (q 2 1) 0%Q 0%Q 0%Q 0%Q 0%Q;
               row 0%Q (q 5 1) "Cylinder" (q 6 1) (q 2 1) 0%Q 0%Q 0%Q 0%Q 0%Q]
       else None;
     prep_sheet := fun name =>
       if String.eqb name "F_RED_PREP" then
         Some {| prep_rows := [prep_row 2%Q 0%Q (q 5 2) (q 2 1) 0%Q;
                               prep_row 10%Q 0%Q (q 5 2) (q 1 1) 0%Q];
                 has_null := false |}
       else if String.eqb name "NECK_PREP" then
         Some {| prep_rows := [prep_row 2%Q (q 1 1) (q 1 2) (q 1 2) 0%Q;
                               prep_row 2%Q (q 3 1) (q 1 2) (q 2 2) 0%Q;
                               prep_row 10%Q (q 1 1) (q 1 2) (q 1 2) 0%Q;
                               prep_row 10%Q (q 3 1) (q 1 2) (q 2 2) 0%Q];
                 has_null := false |}
       else if String.eqb name "POINT_PREP" then
         Some {| prep_rows := [prep_row 0%Q 0%Q 0%Q (q 5 2) (q 25 2);
                               prep_row 0%Q 0%Q 0%Q (q 1 1) (q 5 1)];
                 has_null := false |}
       else None;
     live_time_empty := false |}.

(** The reference data of a context whose backtaper rate is [rate]. *)
Definition layer (rate : Q) : Layer :=
  {| json_layer := Ok (json rate); excel_layer := Ok excel |}.

Definition event (description fl_cnt : string) (args : list string)
    (kwargs : list (string * PyVal)) : Event :=
  {| Diameter := Some (VStr ""); LOC := Some (VStr "");
     ShankDiameter := Some (VStr ""); OAL := Some (VStr "");
     FluteCount := Some fl_cnt; Description := Some description;
     args := Some args; kwargs := Some kwargs |}.

(** A 4-flute square endmill of diameter 1/8 on a 1/4 shank: its only
    prep operation is the front reduction. *)
Definition reduced_endmill : string := "1/8X1/2X1/4X2 4FL SQUARE ENDMILL".

(** The entry of that front reduction: 0.099 minutes with the increase. *)
Definition front_reduction : @PrepEntry QFloat.ops :=
  @Build_PrepEntry QFloat.ops "Front Reduction Prep" (q 99 3) 0%Q 0%Q.

(** A metric drill with a 90 degree point: the overall length of 57
    exceeds the cutoff, so millimeters are inferred. *)
Definition metric_drill : string :=
  ("6X13X6X57 2FL 90" ++ degree ++ " DRILL")%string.

(** The record the handler creates for a description when the numeric
    fields of the request are empty. *)
Definition tool_of (description : string) : @ToolInfo QFloat.ops :=
  new_tool (vnum 0%Q) (vnum 0%Q) (vnum 0%Q) (vnum 0%Q) "" description.

(** The request of the oval bur of the specification's scenario, without
    [PREP], with the part number after another key. *)
Definition oval_request : @Event QFloat.ops :=
  event "1/4X3/8X1/4X2 OVAL DOUBLECUT WITH .113X.6395 NECK" "8/5" []
        [("MATERIAL", VStr "SOLID"); ("PART_NUM", VStr "101-101")].

(** The handler's response, for requests it answers with status 900. *)
Definition response_of (rate : Q) (request : @Event QFloat.ops)
  : @Response QFloat.ops :=
  match @lambda_handler QFloat.ops QRuntime.ops (layer rate) request with
  | Ok response => response
  | _ => {| statusCode := 0; PartNumber := ""; resp_Diameter := VStr "";
            resp_LOC := VStr ""; resp_ShankDiameter := VStr ""; resp_OAL := VStr "";
            resp_FluteCount := ""; resp_Description := ""; Family := "";
            PrepType := ""; CycleTime := VStr ""; PrepTime := VStr "";
            TotalCycleTime := 0%Q; resp_Detail := DetailDescription "" |}
  end.

(** The request of the reduced endmill with its prep time. *)
Definition endmill_request : @Event QFloat.ops :=
  event reduced_endmill "" ["PREP"] [].

(** A reamer, which has a backtaper prep. *)
Definition reamer : string := "1/4X1/2X1/4X2 4FL REAMER".

(** The oval bur of the specification's scenario. *)
Definition oval_bur : string := "1/4X3/8X1/4X2 OVAL DOUBLECUT WITH .113X.6395 NECK".

(** A 2-flute square endmill of diameter 0.25 with a length of cut of
    0.5. *)
Definition square_endmill : string := "1/4X1/2X1/4X2 2FL SQUARE ENDMILL".

End Sample.


(** * The desktop calculator: [src/CycleTimeCalc.py] *)

(** The window of the desktop calculator reads its four entries, looks up
    the reference sheet and calls [calc_cycle_time]; the widgets and the
    message boxes are left out, and a [return] without a value is [None]. *)
Module CycleTimeCalc.
Section Calc.
Context {F : PyFloat}.

#[local] Open Scope pyfloat_scope.

Definition perf_series : list string :=
  ["V4"; "V5"; "V7"; "AX"; "F45"; "HY5"; "HYPERMILL"; "MOLD"; "TWISTER"].

(** [tool_types_list] (lines 16-29).  The literals ["CR AX EM"] and
    ["CR TAPERMILL EM"] stand without a comma between them, so they are one
    string. *)
Definition tool_types_list : list string :=
  ["DRILLMILL EM"; "ROUGHER EM";
   "SQ EM"; "SQ ALUMAZIP EM"; "SQ TAPERMILL EM";
   "SQ V4 EM"; "SQ V5 EM"; "SQ V7 EM"; "SQ AX EM"; "SQ F45 EM"; "SQ HY5 EM";
   "SQ HYPERMILL EM"; "SQ TWISTERMILL EM";
   "CR EM"; "CR ALUMAZIP EM";
   "CR V4 EM"; "CR V5 EM"; "CR V7 EM"; "CR AX EMCR TAPERMILL EM"; "CR F45 EM";
   "CR HY5 EM"; "CR MOLD MILL EM";
   "BALL EM"; "BALL ALUMAZIP EM"; "BALL TAPERMILL EM";
   "BALL V4 EM"; "BALL V5 EM"; "BALL AX EM"; "BALL MOLD MILL EM";
   "WOOD ROUTER"].

Definition em_list_type_list : list string := ["SQ"; "CR"; "BALL"].

(** Lines 30-35. *)
Definition em_list : list string :=
  filter (fun i => existsb (fun et => PyStr.startswith i et) em_list_type_list
                   && PyStr.endswith i "EM")
         tool_types_list.

(** [validate_input] (lines 46-53) *)
Definition validate_input (value : string) : bool :=
  let accepted_char := "0123456789./" in
  let value := if PyStr.startswith value "." then ("0" ++ value)%string else value in
  forallb (fun char => PyStr.contains (String char EmptyString) accepted_char)
          (list_ascii_of_string value).

(** [check_performance_series] (lines 231-241) *)
Definition check_performance_series (tool_type : string) (inc_percentage : num)
    (split : bool) : num * bool :=
  fold_left
    (fun st ps =>
       let '(inc_percentage, split) := st in
       if PyStr.contains ps tool_type then
         if String.eqb ps "V4" || String.eqb ps "V5" then
           (inc_percentage + dec 1 1,
            if PyStr.startswith tool_type "SQ" || PyStr.startswith tool_type "CR"
            then false else split)
         else if String.eqb ps "AX" then (inc_percentage + dec 15 2, false)
         else st
       else st)
    perf_series (inc_percentage, split).

(** [split_dict] (line 208) *)
Definition split_dict (key : string) : list Z :=
  if String.eqb key "SQ EM" then [3; 5; 6]%Z
  else if String.eqb key "BALL EM" then [3; 4; 5; 6]%Z
  else if String.eqb key "CR EM" then [3; 5; 6]%Z
  else if String.eqb key "ALUMAZIP EM" then [3]%Z
  else [].

(** The cycle time as it is shown: [h m s] over 60 minutes, else [m s]. *)
Inductive Formatted : Type :=
| HoursMinutesSeconds (h m : Z) (s : num)
| MinutesSeconds (m : Z) (s : num).

(** The tuple [calc_cycle_time] returns. *)
Record CycleTime : Type := {
  formatted_cycle_time : Formatted;
  calc_fl_time : num;
  calc_od_time : num;
  calc_end_time : num;
  calc_gash_time : num;
  end_split_time : num
}.

(** [calc_cycle_time] (lines 150-276).  [ref_df], [unit] and [tert_angle]
    are the sheet [check_tool_type] has loaded and the two radio buttons.
    A tool type of [em_list] that did not end in ["EM"] would leave the
    feedrates at their initial [0.0] and the first division would raise. *)
Definition calc_cycle_time (ref_df : option (list RateRow)) (unit_mm tert : bool)
    (diameter loc : num) (flute_count : Z) (tool_type : string)
  : Outcome (option CycleTime) :=
  if (diameter == fzero) || (loc == fzero) || (flute_count =? 0)%Z || is_none ref_df
  then Ok None
  else
    let ref_df := match ref_df with Some rows => rows | None => [] end in
    let mm_convert_inch := dec 254 1 in
    let '(diameter, loc) :=
      if unit_mm then (diameter / mm_convert_inch, loc / mm_convert_inch)
      else (diameter, loc) in
    let filtered_df := filter (in_range diameter) ref_df in
    if PyStr.mem tool_type em_list then
      match filtered_df with
      | [] => Ok None
      | row_values :: _ =>
          if negb (PyStr.endswith tool_type "EM") then Raise ZeroDivisionError
          else
            let fluting_feedrate := fluting_fr row_values in
            let od_feedrate := od_fr row_values in
            let end_cycle_time := end_ct row_values in
            let end_gash_cycle_time := end_gash_ct row_values in
            let end_split_time := end_split_ct row_values in
            let dia_cutoff := fround (of_Z 3 / mm_convert_inch) 4 in
            let sec_od_angle := negb (diameter <? dia_cutoff) in
            let dynamic_variable := dec 25 1 in
            let inc_percentage := of_Z 1 in
            let split := false in
            let calc_fl_time :=
              if (flute_count =? 2)%Z
              then (loc / fluting_feedrate) * dynamic_variable * of_Z 4
              else (loc / fluting_feedrate) * dynamic_variable * of_Z flute_count in
            let calc_od_time :=
              (loc / od_feedrate) * dynamic_variable * of_Z flute_count in
            let calc_od_time :=
              if sec_od_angle && tert then calc_od_time * dec 30 1
              else if sec_od_angle && negb tert then calc_od_time * dec 20 1
              else calc_od_time in
            let calc_end_time :=
              ((diameter * dec 5 1) / end_cycle_time) * dynamic_variable
              * of_Z flute_count in
            let calc_gash_time :=
              ((diameter * dec 5 1) / end_gash_cycle_time) * dynamic_variable
              * of_Z flute_count in
            let with_split key split :=
              if existsb (Z.eqb flute_count) (split_dict key) then true else split in
            let '(inc_percentage, split) :=
              if PyStr.startswith tool_type "SQ" then
                check_performance_series tool_type inc_percentage
                  (with_split "SQ EM" split)
              else if PyStr.startswith tool_type "BALL" then
                check_performance_series tool_type (dec 125 2)
                  (with_split "BALL EM" split)
              else if PyStr.startswith tool_type "CR" then
                check_performance_series tool_type (dec 120 2)
                  (with_split "CR EM" split)
              else (inc_percentage, split) in
            if PyStr.contains "ALUMAZIP" tool_type then Ok None
            else
              let end_split_time := if negb split then fzero else end_split_time in
              let cycle_time :=
                (calc_fl_time + calc_od_time + calc_end_time + calc_gash_time
                 + end_split_time) * inc_percentage in
              let minutes := ftrunc cycle_time in
              let seconds := fround ((cycle_time - of_Z minutes) * of_Z 60) 0 in
              Ok (Some {| formatted_cycle_time :=
                            if (minutes >? 60)%Z
                            then HoursMinutesSeconds (minutes / 60) (minutes mod 60)
                                                     seconds
                            else MinutesSeconds minutes seconds;
                          calc_fl_time := calc_fl_time;
                          calc_od_time := calc_od_time;
                          calc_end_time := calc_end_time;
                          calc_gash_time := calc_gash_time;
                          end_split_time := end_split_time |})
      end
    else Ok None.

End Calc.
End CycleTimeCalc.


(** * Further samples *)

(** The value of an outcome that is [Ok], and [default] otherwise. *)
Definition value_of {A : Type} (default : A) (o : Outcome A) : A :=
  match o with
  | Ok a => a
  | _ => default
  end.

Module Cases.

#[local] Existing Instance QFloat.ops.
#[local] Existing Instance QRuntime.ops.

(** The oval bur with its part number as the only keyword value, the key
    in mixed case. *)
Definition part_request : @Event QFloat.ops :=
  Sample.event Sample.oval_bur "8/5" [] [("Part_Num", VStr "101-101")].

(** A record as [get_tool_detail] hands it to [calc_fluting_time]: a
    4-flute square endmill of diameter 0.25 with a length of cut of 0.5. *)
Definition endmill_record : @ToolInfo QFloat.ops :=
  {| num_attr := fun attr =>
       match attr with
       | cut_diameter => Sample.vnum (Sample.q 25 2)
       | length_of_cut => Sample.vnum (Sample.q 5 1)
       | shank_diameter => Sample.vnum (Sample.q 25 2)
       | overall_length => Sample.vnum 2%Q
       | _ => Sample.vnum 0%Q
       end;
     str_attr := fun attr =>
       match attr with
       | flute_count => "4"
       | tool_description => "4FL SQ EM"
       | formatted_description => "SQ EM"
       | full_description => "1/4X1/2X1/4X2 4FL SQUARE ENDMILL"
       | tool_family => "EM"
       | reference_family => "SQ EM"
       | _ => ""
       end |}.

(** The same record for a drill. *)
Definition drill_record : @ToolInfo QFloat.ops :=
  set_str (set_str (set_str endmill_record tool_family "DRILL")
                   tool_description "4FL DRILL")
          formatted_description "DRILL".

(** An oval bur with a double cut, and its options. *)
Definition bur_record : @ToolInfo QFloat.ops :=
  set_str (set_str (set_str (set_str (set_str endmill_record tool_family "BUR")
                                     reference_family "BUR")
                            tool_description "8/5FL OVAL DC")
                   formatted_description "OVAL")
          bur_description "OVAL DC".

Definition bur_feature : InputArgData :=
  {| flag := fun _ => false; end_type := ""; bur_cut := "DC" |}.

Definition bur_rows : list (@RateRow QFloat.ops) :=
  [Sample.row 0%Q (Sample.q 5 1) "Oval" (Sample.q 7 1) (Sample.q 2 1)
              0%Q 0%Q 0%Q 0%Q 0%Q].

Definition endmill_rows : list (@RateRow QFloat.ops) :=
  [Sample.row 0%Q (Sample.q 5 1) "" 0%Q 0%Q 2%Q 4%Q 1%Q 1%Q (Sample.q 5 1);
   Sample.row (Sample.q 5 1) 1%Q "" 0%Q 0%Q 1%Q 2%Q 1%Q 1%Q 1%Q].

(** The reference workbook without live times. *)
Definition excel_without_live_time : @Excel QFloat.ops :=
  {| rate_sheet := rate_sheet Sample.excel;
     prep_sheet := prep_sheet Sample.excel;
     live_time_empty := true |}.

Definition mass_feature : InputArgData :=
  set_flag new_feature mass_detail true.

(** The rows of a front-reduction sheet. *)
Definition reduction_rows : list (@PrepRow QFloat.ops) :=
  [Sample.prep_row 2%Q 0%Q (Sample.q 5 2) (Sample.q 2 1) 0%Q;
   Sample.prep_row 10%Q 0%Q (Sample.q 5 2) (Sample.q 1 1) 0%Q;
   Sample.prep_row 3%Q 0%Q (Sample.q 2 2) (Sample.q 3 1) 0%Q].

(** A table with a front reduction and a neck prep before fluting. *)
Definition neck_table : @PrepTable QFloat.ops :=
  let info (time : Q) : @VolInfo QFloat.ops :=
    {| vol_time := time; vol_reduction_vol := Sample.q 1 2; vol_rate := Sample.q 1 2 |} in
  {| front_reduction_prep := true; fr_info := info (Sample.q 9 2);
     shank_reduction_prep := false; sr_info := no_vol;
     point_prep := false; pt_info := no_vol;
     chamfer_prep := false;
     neck_prep := true; nk_info := info 2%Q; nk_after_fluting := false;
     tapered_neck_prep := false; tp_nk_info := no_vol;
     radius_prep := false;
     backtaper_prep := false; bt_time := 0%Q; bt_rate := 0%Q;
     flat_prep := false;
     cut_off_prep := true;
     bumping_prep := false;
     cg_prep := false |}.

(** The reduced endmill as [get_tool_detail] hands it to
    [calc_prep_time]. *)
Definition reduced_record : @ToolInfo QFloat.ops :=
  set_num (set_str endmill_record tool_description "4FL SQ EM")
          cut_diameter (Sample.vnum (Sample.q 125 3)).

(** A description that names a neck without its dimensions. *)
Definition bare_neck : @ToolInfo QFloat.ops :=
  Sample.tool_of "1/4X3/8X1/4X2 OVAL DOUBLECUT WITH NECK".

(** The endmill with 2 and with 3 flutes, and with a diameter of 0.1, under
    the cutoff of 0.1181 for a secondary OD angle. *)
Definition two_flute_record : @ToolInfo QFloat.ops :=
  set_str (set_str endmill_record flute_count "2") tool_description "2FL SQ EM".

Definition three_flute_record : @ToolInfo QFloat.ops :=
  set_str (set_str endmill_record flute_count "3") tool_description "3FL SQ EM".

Definition small_record : @ToolInfo QFloat.ops :=
  set_num endmill_record cut_diameter (Sample.vnum (Sample.q 1 1)).

(** The options [DETAIL] and [DETAIL] with [TERT]. *)
Definition detail_feature : InputArgData :=
  set_flag new_feature detail true.

Definition tert_feature : InputArgData :=
  set_flag detail_feature tert_od_angle true.


End Cases.

(** * Properties *)

(** ** Family classification *)

Lemma scan_bur_cuts_find (cuts tokens : list string) (seen : bool) :
  scan_bur_cuts cuts tokens seen =
  match find (fun cut => PyStr.mem cut tokens) cuts with
  | Some cut => Some (cut, PyStr.mem "SPIRAL" tokens || seen)
  | None => None
  end.
Proof.
  revert seen.
  induction cuts as [|cut rest IH]; intros seen; simpl; [reflexivity|].
  destruct (PyStr.mem cut tokens) eqn:Hcut.
  - destruct (PyStr.mem "SPIRAL" tokens); reflexivity.
  - rewrite IH.
    destruct (find (fun c => PyStr.mem c tokens) rest); [|reflexivity].
    destruct (PyStr.mem "SPIRAL" tokens); simpl; [reflexivity|].
    reflexivity.
Qed.

(** C3. [get_family] applies the rules of the specification in their order,
    first match wins: endmill set, wood-router set, drill set,
    file/burr-grinder set (end type = first word), O-flute set,
    compression-router set, then the bur rule (a bur-family substring and
    no "DRILL": the first cut-type token of the taxonomy that is among the
    words sets the bur cut, none is error 302); no match is error 301.
    Every result whose family is EM, WR, DRILL, O-FLUTE or WR COMP has the
    reference family "SQ EM". *)
Theorem get_family_rule_order :
  forall (taxonomy : Taxonomy) (base_description first : string) (rest : list string),
    get_family taxonomy base_description (first :: rest)
    = first_match (family_rules taxonomy base_description first (first :: rest))
                  (Failure 301)
    /\ (forall info,
          get_family taxonomy base_description (first :: rest) = Ok info ->
          PyStr.mem (Fam.family info) ["EM"; "WR"; "DRILL"; "O-FLUTE"; "WR COMP"] = true ->
          Fam.ref_family info = "SQ EM").
Proof.
  intros taxonomy b first rest.
  remember (first :: rest) as tokens eqn:Htokens.
  assert (Heq : get_family taxonomy b tokens
                = first_match (family_rules taxonomy b first tokens) (Failure 301)).
  { unfold get_family, first_match, family_rules. cbn [find fst].
    destruct (PyStr.mem b (EM_LIST taxonomy)); [reflexivity|].
    destruct (PyStr.mem b (WR_LIST taxonomy)); [reflexivity|].
    destruct (PyStr.mem b (DRILL_LIST taxonomy)); [reflexivity|].
    destruct (PyStr.mem b (FBGR_LIST taxonomy)); [rewrite Htokens; reflexivity|].
    destruct (PyStr.mem b (O_FLUTE_LIST taxonomy)); [reflexivity|].
    destruct (PyStr.mem b (WR_COMP_LIST taxonomy)); [reflexivity|].
    destruct (PyStr.any_in (BUR_LIST taxonomy) b
              && negb (PyStr.contains "DRILL" b)); [|reflexivity].
    rewrite scan_bur_cuts_find.
    destruct (find (fun cut => PyStr.mem cut tokens) (BUR_CUT_LIST taxonomy));
      [|reflexivity].
    rewrite orb_false_r. reflexivity. }
  split; [exact Heq|].
  intros info Hok Hfam. rewrite Heq in Hok.
  unfold first_match, family_rules in Hok. cbn [find fst] in Hok.
  destruct (PyStr.mem b (EM_LIST taxonomy));
    [injection Hok as <-; reflexivity|].
  destruct (PyStr.mem b (WR_LIST taxonomy));
    [injection Hok as <-; reflexivity|].
  destruct (PyStr.mem b (DRILL_LIST taxonomy));
    [injection Hok as <-; reflexivity|].
  destruct (PyStr.mem b (FBGR_LIST taxonomy));
    [injection Hok as <-; discriminate Hfam|].
  destruct (PyStr.mem b (O_FLUTE_LIST taxonomy));
    [injection Hok as <-; reflexivity|].
  destruct (PyStr.mem b (WR_COMP_LIST taxonomy));
    [injection Hok as <-; reflexivity|].
  destruct (PyStr.any_in (BUR_LIST taxonomy) b
            && negb (PyStr.contains "DRILL" b)); [|discriminate Hok].
  destruct (find (fun cut => PyStr.mem cut tokens) (BUR_CUT_LIST taxonomy));
    [injection Hok as <-; discriminate Hfam|discriminate Hok].
Qed.

(** ** Flute-count parsing *)

Lemma calc_fluting_time_parse_failure {F : PyFloat}
    (PERF_LIST : list string) (excel_data : Outcome Excel)
    (tool : ToolInfo) (feature : InputArgData) (code : Z) :
  parse_flute_count (str_attr tool flute_count) = Failure code ->
  calc_fluting_time PERF_LIST excel_data tool feature = Failure code.
Proof.
  intros H. unfold calc_fluting_time. rewrite H. reflexivity.
Qed.

(** C2. Flute-count parsing in [calc_fluting_time]: ["8/5"] gives (8, 5);
    a string without a slash that [int] reads as [n], such as ["8"], gives
    (n, 1); the empty string is error 307; a string with a slash that does
    not split into two integers, such as ["a/b"], is error 202; a string
    without a slash that [int] rejects is error 203.  For every tool, a
    failure of the parse is the failure of [calc_fluting_time]. *)
Theorem flute_count_parsing :
  parse_flute_count "8/5" = Ok (8, 5)
  /\ parse_flute_count "8" = Ok (8, 1)
  /\ parse_flute_count "" = Failure 307
  /\ parse_flute_count "a/b" = Failure 202
  /\ (forall s n,
        PyStr.contains "/" s = false -> PyStr.py_int s = Some n ->
        parse_flute_count s = Ok (n, 1))
  /\ (forall s,
        PyStr.contains "/" s = true ->
        (forall a b, map PyStr.py_int (PyStr.split_char "/" s) <> [Some a; Some b]) ->
        parse_flute_count s = Failure 202)
  /\ (forall s,
        PyStr.contains "/" s = false -> s <> "" -> PyStr.py_int s = None ->
        parse_flute_count s = Failure 203)
  /\ (forall (F : PyFloat) PERF_LIST excel_data (tool : ToolInfo) feature code,
        parse_flute_count (str_attr tool flute_count) = Failure code ->
        calc_fluting_time PERF_LIST excel_data tool feature = Failure code).
Proof.
  repeat split; try reflexivity.
  - intros s n Hslash Hint. unfold parse_flute_count. rewrite Hslash, Hint.
    destruct (String.eqb_spec s ""); [subst; discriminate Hint | reflexivity].
  - intros s Hslash Hparts. unfold parse_flute_count. rewrite Hslash.
    destruct (map PyStr.py_int (PyStr.split_char "/" s)) as [|[a|] [|[b|] [|c l]]] eqn:E;
      try reflexivity.
    exfalso. apply (Hparts a b). reflexivity.
  - intros s Hslash Hne Hint. unfold parse_flute_count. rewrite Hslash, Hint.
    destruct (String.eqb_spec s ""); [contradiction | reflexivity].
  - intros F PERF_LIST excel_data tool feature code.
    apply calc_fluting_time_parse_failure.
Qed.

(** The general clauses of C2 at ["12"], ["3/x/4"] and ["four"], and a tool
    whose flute count is empty. *)
Lemma flute_count_parsing_witness :
  parse_flute_count "12" = Ok (12, 1)
  /\ parse_flute_count "3/x/4" = Failure 202
  /\ parse_flute_count "four" = Failure 203
  /\ calc_fluting_time (F := QFloat.ops) [] (Failure 102)
       {| num_attr := fun _ => VNum (F := QFloat.ops) 0%Q; str_attr := fun _ => "" |}
       new_feature
     = Failure 307.
Proof.
  destruct flute_count_parsing as (_ & _ & _ & _ & Hint & Hslash & Hbad & Htool).
  split; [apply Hint; reflexivity|].
  split; [apply Hslash; [reflexivity | intros a b; discriminate]|].
  split; [apply Hbad; [reflexivity | discriminate | reflexivity]|].
  apply Htool. reflexivity.
Defined.

(** ** Prep time: the aggregate *)

Lemma sum_prep_times_last {F : PyFloat} (entries : list PrepEntry) (last : PrepEntry) :
  snd (sum_prep_times (entries ++ [last])) = robot_time_of last.
Proof.
  unfold sum_prep_times. rewrite fold_left_app. cbn [fold_left].
  destruct (fold_left _ entries _) as [[total robot_total] robot]. reflexivity.
Qed.

(** C5 (the code departs from it). The aggregate prep time is closed by
    adding the robot time of the last gated operation once more, after the
    doubling for a double-ended tool.  For the request of a 1/8 endmill on a
    1/4 shank with [PREP], whose only operation is a front reduction of
    0.099 minutes, the handler reports 0.765 (and 1.197 with [DE]) where the
    sum of the claim is 0.4323 (and 0.8646). *)
Theorem prep_total_adds_last_robot_time_again :
  (forall (F : PyFloat) (entries : list PrepEntry) (last : PrepEntry) (double_end : bool),
      let total := fst (fst (sum_prep_times (entries ++ [last]))) in
      fst (total_prep_time (entries ++ [last]) double_end)
      = fround (fadd (if double_end then fmul total (of_Z 2) else total)
                     (robot_time_of last)) 3)
  /\ robot_time_of Sample.front_reduction = Sample.q 3333 4
  /\ claimed_prep_time [Sample.front_reduction] false = Sample.q 4323 4
  /\ claimed_prep_time [Sample.front_reduction] true = Sample.q 8646 4
  /\ total_prep_time [Sample.front_reduction] false = (Sample.q 765 3, Sample.q 3333 4)
  /\ total_prep_time [Sample.front_reduction] true = (Sample.q 1197 3, Sample.q 3333 4)
  /\ match lambda_handler (F := QFloat.ops) (R := QRuntime.ops) (Sample.layer 10%Q)
             (Sample.event Sample.reduced_endmill "" ["PREP"] []) with
     | Ok response =>
         PrepType response = "Front Reduction Prep: 0.099 | Robot Time: 0.3333"
         /\ PrepTime response = Sample.vnum (Sample.q 765 3)
     | _ => False
     end
  /\ match lambda_handler (F := QFloat.ops) (R := QRuntime.ops) (Sample.layer 10%Q)
             (Sample.event Sample.reduced_endmill "" ["PREP"; "DE"] []) with
     | Ok response => PrepTime response = Sample.vnum (Sample.q 1197 3)
     | _ => False
     end.
Proof.
  split.
  { intros F entries last double_end total. subst total.
    unfold total_prep_time.
    pose proof (sum_prep_times_last entries last) as Hlast.
    destruct (sum_prep_times (entries ++ [last])) as [[total robot_total] robot].
    cbn [fst snd] in *. rewrite Hlast. reflexivity. }
  do 5 (split; [vm_compute; reflexivity|]).
  split; vm_compute; [split; reflexivity | reflexivity].
Qed.

(** ** Prep time: divisions *)

Lemma removal_time_zero_rate {F : PyFloat} (vol : num) :
  removal_time vol fzero = fzero.
Proof.
  unfold removal_time, truthy. rewrite feqb_zero. reflexivity.
Qed.

(** C8 (the code departs from it). [vol_calc] guards its division: a zero
    rate gives the time 0.  The backtaper time has no such guard: whenever
    a backtaper tool is named and the rate read from the reference data
    divided by 25.4 is zero, [prep_length / backtaper_rate] raises
    [ZeroDivisionError]; with a backtaper rate of 0 the request of a reamer
    with [PREP] ends in that exception. *)
Theorem backtaper_time_divides_by_zero_rate :
  (forall (F : PyFloat) (vol : num), removal_time vol fzero = fzero)
  /\ (forall (F : PyFloat) (P : PrepDict) (description : string) (prep_length : num),
        existsb (fun word => PyStr.contains word description) (backtaper_tools P) = true ->
        feqb (fdiv (backtaper_rate P) (dec 254 1)) fzero = true ->
        backtaper P description prep_length = Raise ZeroDivisionError)
  /\ lambda_handler (F := QFloat.ops) (R := QRuntime.ops) (Sample.layer 0%Q)
       (Sample.event Sample.reamer "" ["PREP"] [])
     = Raise ZeroDivisionError.
Proof.
  split; [intros F vol; apply removal_time_zero_rate|].
  split.
  - intros F P description prep_length Htool Hzero.
    unfold backtaper, pydiv. rewrite Htool, Hzero. reflexivity.
  - vm_compute. reflexivity.
Qed.

(** The general clause of C8 at the sample constants with a rate of 0 and
    the description of the reamer. *)
Lemma backtaper_time_divides_by_zero_rate_witness :
  backtaper (F := QFloat.ops) (Sample.prep_dict 0%Q) Sample.reamer (1 # 2)%Q
  = Raise ZeroDivisionError.
Proof.
  destruct backtaper_time_divides_by_zero_rate as (_ & H & _).
  apply (H QFloat.ops (Sample.prep_dict 0%Q) Sample.reamer (1 # 2)%Q);
    vm_compute; reflexivity.
Defined.

(** ** Unit conversion at the end of [parse_description] *)

Lemma NumAttr_beq_true (a b : NumAttr) : NumAttr_beq a b = true -> a = b.
Proof. destruct a, b; simpl; intros H; try reflexivity; discriminate H. Qed.

Lemma NumAttr_beq_refl (a : NumAttr) : NumAttr_beq a a = true.
Proof. destruct a; reflexivity. Qed.

Lemma NumAttr_beq_sym (a b : NumAttr) : NumAttr_beq a b = NumAttr_beq b a.
Proof. destruct a, b; reflexivity. Qed.

Lemma num_attrs_complete (a : NumAttr) : existsb (NumAttr_beq a) num_attrs = true.
Proof. destruct a; reflexivity. Qed.

Lemma num_attrs_NoDup : NoDup num_attrs.
Proof.
  unfold num_attrs.
  repeat (constructor; [simpl; intuition discriminate|]). constructor.
Qed.

Lemma existsb_filter_attr (a : NumAttr) (f : NumAttr -> bool) (l : list NumAttr) :
  existsb (NumAttr_beq a) (filter f l) = f a && existsb (NumAttr_beq a) l.
Proof.
  induction l as [|b l IH]; simpl; [rewrite andb_false_r; reflexivity|].
  destruct (f b) eqn:Hb; simpl; rewrite IH.
  - destruct (NumAttr_beq a b) eqn:Hab; simpl.
    + apply NumAttr_beq_true in Hab. subst b. rewrite Hb. reflexivity.
    + reflexivity.
  - destruct (NumAttr_beq a b) eqn:Hab; simpl.
    + apply NumAttr_beq_true in Hab. subst b. rewrite Hb. reflexivity.
    + reflexivity.
Qed.

Lemma convert_attributes_str {F : PyFloat} (attrs : list NumAttr) (tool : ToolInfo) :
  str_attr (convert_attributes tool attrs) = str_attr tool.
Proof.
  revert tool. induction attrs as [|a l IH]; intros tool; [reflexivity|].
  unfold convert_attributes in *. cbn [fold_left]. rewrite IH.
  destruct (num_attr tool a); reflexivity.
Qed.

(** The loop converts each listed attribute once and leaves the others. *)
Lemma convert_attributes_num {F : PyFloat} (attrs : list NumAttr) :
  NoDup attrs ->
  forall (tool : ToolInfo) (b : NumAttr),
    num_attr (convert_attributes tool attrs) b
    = if existsb (NumAttr_beq b) attrs then converted (num_attr tool b)
      else num_attr tool b.
Proof.
  induction 1 as [|a l Hnotin Hnodup IH]; intros tool b; [reflexivity|].
  unfold convert_attributes in *. cbn [fold_left existsb].
  rewrite IH.
  assert (Hl : existsb (NumAttr_beq a) l = false).
  { destruct (existsb (NumAttr_beq a) l) eqn:E; [|reflexivity].
    apply existsb_exists in E. destruct E as (x & Hin & Hx).
    apply NumAttr_beq_true in Hx. subst x. contradiction. }
  destruct (NumAttr_beq b a) eqn:Hba.
  - apply NumAttr_beq_true in Hba. subst b. rewrite Hl. cbn [orb].
    destruct (num_attr tool a) eqn:Ha; cbn [num_attr set_num converted].
    + rewrite NumAttr_beq_refl. reflexivity.
    + rewrite Ha. reflexivity.
  - cbn [orb].
    assert (Hstep : forall t',
              t' = match num_attr tool a with
                   | VNum x => set_num tool a (VNum (convert_from_mm x))
                   | VStr _ => tool
                   end ->
              num_attr t' b = num_attr tool b).
    { intros t' ->. destruct (num_attr tool a); [|reflexivity].
      cbn [num_attr set_num]. rewrite NumAttr_beq_sym, Hba. reflexivity. }
    rewrite (Hstep _ eq_refl). reflexivity.
Qed.

Lemma attribute_list_NoDup {F : PyFloat} (tool : ToolInfo) : NoDup (attribute_list tool).
Proof. unfold attribute_list. apply NoDup_filter, num_attrs_NoDup. Qed.

Lemma attribute_list_mem {F : PyFloat} (tool : ToolInfo) (a : NumAttr) :
  existsb (NumAttr_beq a) (attribute_list tool)
  = match num_attr tool a with
    | VNum x => negb (feqb x fzero)
    | VStr _ => false
    end.
Proof.
  unfold attribute_list. rewrite existsb_filter_attr, num_attrs_complete.
  apply andb_true_r.
Qed.

(** With millimeters [finish_parse] converts every numeric attribute that is
    non-zero when the attribute list is taken, exactly once (the stored
    value is [convert_from_mm] of the value the inch run stores); every
    other attribute is left as it is.  The list is taken before the angles
    are stored, so the main angle and the tapered-neck angle of a record
    whose angle fields are 0 on entry stay as they are. *)
Lemma finish_parse_conversion :
  forall (F : PyFloat) (tool : ToolInfo) (base_description description : string)
         (angle neck_angle : num) (tool_in tool_mm : ToolInfo),
    finish_parse tool base_description description angle neck_angle false = Ok tool_in ->
    finish_parse tool base_description description angle neck_angle true = Ok tool_mm ->
    (forall attr : NumAttr,
        match num_attr tool attr with
        | VNum x =>
            if feqb x fzero then num_attr tool_mm attr = num_attr tool_in attr
            else exists y, num_attr tool_in attr = VNum y
                           /\ num_attr tool_mm attr = VNum (convert_from_mm y)
        | VStr _ => num_attr tool_mm attr = num_attr tool_in attr
        end)
    /\ (num_attr tool main_angle = VNum fzero ->
        num_attr tool_mm main_angle = num_attr tool_in main_angle
        /\ num_attr tool_in main_angle = VNum (if truthy angle then angle else fzero))
    /\ (num_attr tool tapered_neck_angle = VNum fzero ->
        num_attr tool_mm tapered_neck_angle = num_attr tool_in tapered_neck_angle
        /\ num_attr tool_in tapered_neck_angle
           = VNum (if truthy neck_angle then neck_angle else fzero)).
Proof.
  intros F tool base_description description angle neck_angle tool_in tool_mm Hin Hmm.
  unfold finish_parse in Hin, Hmm.
  set (tool1 := set_str (set_str tool formatted_description base_description)
                        bur_description description) in *.
  set (tool2 := if truthy neck_angle
                then set_num (if truthy angle then set_num tool1 main_angle (VNum angle)
                              else tool1)
                             tapered_neck_angle (VNum neck_angle)
                else (if truthy angle then set_num tool1 main_angle (VNum angle)
                      else tool1)) in *.
  destruct (attribute_list tool1) as [|a0 l0] eqn:Hlist; [discriminate Hin|].
  injection Hin as <-. injection Hmm as <-.
  assert (Hmem : forall a, existsb (NumAttr_beq a) (a0 :: l0)
                           = match num_attr tool a with
                             | VNum x => negb (feqb x fzero)
                             | VStr _ => false
                             end).
  { intros a. rewrite <- Hlist. apply (attribute_list_mem tool1). }
  assert (Hnodup : NoDup (a0 :: l0)).
  { rewrite <- Hlist. apply attribute_list_NoDup. }
  assert (Hconv : forall a,
             num_attr (convert_attributes tool2 (a0 :: l0)) a
             = match num_attr tool a with
               | VNum x => if feqb x fzero then num_attr tool2 a
                           else converted (num_attr tool2 a)
               | VStr _ => num_attr tool2 a
               end).
  { intros a. rewrite (convert_attributes_num _ Hnodup), Hmem.
    destruct (num_attr tool a) as [x|s]; [|reflexivity].
    destruct (feqb x fzero); reflexivity. }
  assert (Htool2 : forall a x, num_attr tool a = VNum x ->
                               exists y, num_attr tool2 a = VNum y).
  { intros a x Ha. subst tool2 tool1.
    destruct (truthy neck_angle), (truthy angle); cbn [num_attr set_num set_str];
      repeat match goal with
             | |- context [if ?c then _ else _] => destruct c
             end; eauto. }
  split; [|split].
  - intros attr. rewrite Hconv.
    destruct (num_attr tool attr) as [x|s] eqn:Ha; [|reflexivity].
    destruct (feqb x fzero); [reflexivity|].
    destruct (Htool2 attr x Ha) as (y & Hy). exists y. rewrite Hy. split; reflexivity.
  - intros Hzero. rewrite Hconv, Hzero, feqb_zero. split; [reflexivity|].
    subst tool2 tool1.
    destruct (truthy neck_angle), (truthy angle); cbn [num_attr set_num set_str];
      cbn [NumAttr_beq]; try reflexivity; exact Hzero.
  - intros Hzero. rewrite Hconv, Hzero, feqb_zero. split; [reflexivity|].
    subst tool2 tool1.
    destruct (truthy neck_angle), (truthy angle); cbn [num_attr set_num set_str];
      cbn [NumAttr_beq]; try reflexivity; exact Hzero.
Qed.


(** ** The response of the handler *)

Lemma bind_ok {A B : Type} (m : Outcome A) (k : A -> Outcome B) (b : B) :
  bind m k = Ok b -> exists a, m = Ok a /\ k a = Ok b.
Proof.
  destruct m as [a| |]; simpl; intros H; [|discriminate H..].
  exists a. split; [reflexivity | exact H].
Qed.

(** The handler succeeds exactly on the record [get_tool_detail] returns
    for the request, and builds the response from it. *)
Lemma lambda_handler_ok {F : PyFloat} {R : PyRuntime}
    (layer : Layer) (event : Event) (response : Response) :
  lambda_handler layer event = Ok response ->
  exists tool feature report fluting prep_time,
    request_detail layer event = Ok (tool, feature, report)
    /\ num_attr tool fluting_cycle_time = VNum fluting
    /\ num_attr tool prep_cycle_time = VNum prep_time
    /\ response
       = {| statusCode := 900;
            PartNumber := match kwargs event with
                          | Some kw => scan_part_num kw
                          | None => ""
                          end;
            resp_Diameter := num_attr tool cut_diameter;
            resp_LOC := num_attr tool length_of_cut;
            resp_ShankDiameter := num_attr tool shank_diameter;
            resp_OAL := num_attr tool overall_length;
            resp_FluteCount := str_attr tool flute_count;
            resp_Description := str_attr tool full_description;
            Family := str_attr tool tool_family;
            PrepType := str_attr tool prep_type;
            CycleTime := VNum fluting;
            PrepTime := VNum prep_time;
            TotalCycleTime := fround (fadd fluting prep_time) 3;
            resp_Detail := report |}.
Proof.
  unfold lambda_handler, request_detail.
  destruct (kwargs event) as [kw|];
    (destruct (Diameter event), (LOC event), (ShankDiameter event), (OAL event),
             (FluteCount event), (Description event) as [description|];
     try discriminate;
     destruct (String.eqb description ""); try discriminate;
     intros H;
     apply bind_ok in H; destruct H as ([[tool feature] report] & Hdetail & H);
     apply bind_ok in H; destruct H as (fluting & Hfl & H);
     apply bind_ok in H; destruct H as (prep_time & Hprep & H);
     unfold get_num in Hfl, Hprep;
     destruct (num_attr tool fluting_cycle_time) as [x|] eqn:Ex; try discriminate;
     destruct (num_attr tool prep_cycle_time) as [y|] eqn:Ey; try discriminate;
     injection Hfl as ->; injection Hprep as ->; injection H as <-;
     exists tool, feature, report, fluting, prep_time;
     repeat split; assumption).
Qed.

(** C1. Every response with status 900 carries as [TotalCycleTime] the sum
    of its [CycleTime] and [PrepTime] rounded to 3 decimals, and these two
    are the fluting and prep cycle times of the record [get_tool_detail]
    computed for the request. *)
Theorem total_cycle_time_is_rounded_sum :
  forall (F : PyFloat) (R : PyRuntime) (layer : Layer) (event : Event)
         (response : Response),
    lambda_handler layer event = Ok response ->
    statusCode response = 900
    /\ exists tool feature report fluting prep_time,
         request_detail layer event = Ok (tool, feature, report)
         /\ num_attr tool fluting_cycle_time = VNum fluting
         /\ num_attr tool prep_cycle_time = VNum prep_time
         /\ CycleTime response = VNum fluting
         /\ PrepTime response = VNum prep_time
         /\ TotalCycleTime response = fround (fadd fluting prep_time) 3.
Proof.
  intros F R layer event response H.
  destruct (lambda_handler_ok layer event response H)
    as (tool & feature & report & fluting & prep_time & Hdetail & Hfl & Hprep & ->).
  split; [reflexivity|].
  exists tool, feature, report, fluting, prep_time.
  repeat split; assumption || reflexivity.
Qed.

(** ** Which attributes each stage leaves alone *)

Section Frames.
Context {F : PyFloat} {R : PyRuntime}.

Lemma extract_neck_attrs (tool tool' : ToolInfo) (description : string) (prep : bool)
    (neck_angle : num) (words : list string) :
  extract_neck tool description prep = Ok (tool', neck_angle, words) ->
  str_attr tool' = str_attr tool
  /\ (forall a, a <> neck_diameter -> a <> neck_length ->
                num_attr tool' a = num_attr tool a).
Proof.
  unfold extract_neck.
  destruct (re_search neck_pattern description) as [group0|].
  - destruct (PyStr.contains degree group0).
    + destruct (eval_pair _) as [[x y]| |]; cbn [bind]; intros H;
        [|discriminate H..].
      injection H as <- _ _. split; [reflexivity|].
      intros a Hd Hl. cbn [num_attr set_num].
      destruct (NumAttr_beq neck_length a) eqn:E; [|reflexivity].
      apply NumAttr_beq_true in E. congruence.
    + destruct (eval_pair _) as [[x y]| |]; cbn [bind]; intros H;
        [|discriminate H..].
      injection H as <- _ _. split; [reflexivity|].
      intros a Hd Hl. cbn [num_attr set_num].
      destruct (NumAttr_beq neck_length a) eqn:E;
        [apply NumAttr_beq_true in E; congruence|].
      destruct (NumAttr_beq neck_diameter a) eqn:E';
        [apply NumAttr_beq_true in E'; congruence|reflexivity].
  - destruct (prep && PyStr.contains "NECK" description); intros H;
      [discriminate H|].
    injection H as <- _ _. split; [reflexivity | reflexivity].
Qed.


Lemma countersink_geometry_attrs (tool tool' : ToolInfo) (description fl_cnt : string)
    (fl_cnt_cs : bool) (angle cut_dia shank_dia : num) (loc : PyVal)
    (description' : string) :
  countersink_geometry tool description fl_cnt fl_cnt_cs angle cut_dia shank_dia loc
  = Ok (tool', description') ->
  (forall a, a <> tool_description -> str_attr tool' a = str_attr tool a)
  /\ (forall a, a <> pilot_length -> a <> flute_length -> a <> length_of_cut ->
                num_attr tool' a = num_attr tool a).
Proof.
  unfold countersink_geometry.
  destruct (PyStr.contains "COUNTERSINK" description);
    [|intros H; injection H as <- _; split; reflexivity].
  intros H. apply bind_ok in H. destruct H as ([tool1 description1] & H1 & H).
  assert (H1' : (forall a, a <> tool_description -> str_attr tool1 a = str_attr tool a)
                /\ num_attr tool1 = num_attr tool).
  { destruct (fl_cnt_cs && negb (PyStr.contains "DRILL" description)).
    - apply bind_ok in H1. destruct H1 as (n & _ & H1). injection H1 as <- _.
      split; [|reflexivity]. intros a Ha. cbn [str_attr set_str].
      destruct (StrAttr_beq tool_description a) eqn:E; [|reflexivity].
      destruct a; try discriminate E. congruence.
    - injection H1 as <- _. split; reflexivity. }
  destruct H1' as (Hstr1 & Hnum1).
  destruct (truthy angle); [|discriminate H].
  apply bind_ok in H. destruct H as ([[tool2 multiplier] dia] & H2 & H).
  assert (H2' : str_attr tool2 = str_attr tool1
                /\ forall a, a <> pilot_length -> num_attr tool2 a = num_attr tool1 a).
  { destruct (PyStr.contains "DRILL" description1).
    - injection H2 as <- _ _. split; [reflexivity|].
      intros a Ha. cbn [num_attr set_num].
      destruct (NumAttr_beq pilot_length a) eqn:E; [|reflexivity].
      apply NumAttr_beq_true in E. congruence.
    - apply bind_ok in H2. destruct H2 as (n & _ & H2). injection H2 as <- _ _.
      split; reflexivity. }
  destruct H2' as (Hstr2 & Hnum2).
  injection H as <- _.
  split.
  - intros a Ha. rewrite <- Hstr1 by exact Ha. rewrite <- Hstr2.
    destruct (negb (val_truthy loc)); reflexivity.
  - intros a Hp Hf Hl. rewrite <- Hnum1. rewrite <- Hnum2 by exact Hp.
    destruct (negb (val_truthy loc)); cbn [num_attr set_num].
    + destruct (NumAttr_beq length_of_cut a) eqn:E;
        [apply NumAttr_beq_true in E; congruence|].
      destruct (NumAttr_beq flute_length a) eqn:E';
        [apply NumAttr_beq_true in E'; congruence|reflexivity].
    + destruct (NumAttr_beq flute_length a) eqn:E';
        [apply NumAttr_beq_true in E'; congruence|reflexivity].
Qed.

End Frames.

Section Frames2.
Context {F : PyFloat} {R : PyRuntime}.

Lemma Ok_inj {A : Type} (a b : A) : Ok a = Ok b -> a = b.
Proof. intros H. injection H as H. exact H. Qed.

Lemma attribute_list_set_str (tool : ToolInfo) (a : StrAttr) (v : string) :
  attribute_list (set_str tool a v) = attribute_list tool.
Proof. unfold attribute_list. cbn [num_attr set_str]. reflexivity. Qed.

Lemma finish_parse_unfold (tool : ToolInfo) (base_description description : string)
    (angle neck_angle : num) (using_mm : bool) :
  finish_parse tool base_description description angle neck_angle using_mm
  = match attribute_list tool with
    | [] => Failure 206
    | _ =>
        let stored :=
          with_angles (set_str (set_str tool formatted_description base_description)
                               bur_description description)
                      angle neck_angle in
        Ok (if using_mm then convert_attributes stored (attribute_list tool) else stored)
    end.
Proof.
  cbv beta zeta delta [finish_parse with_angles].
  rewrite !attribute_list_set_str.
  destruct (attribute_list tool); reflexivity.
Qed.

Lemma with_angles_attrs (tool : ToolInfo) (angle neck_angle : num) :
  str_attr (with_angles tool angle neck_angle) = str_attr tool
  /\ (forall a, a <> main_angle -> a <> tapered_neck_angle ->
                num_attr (with_angles tool angle neck_angle) a = num_attr tool a).
Proof.
  unfold with_angles.
  destruct (truthy angle), (truthy neck_angle); (split; [reflexivity|]);
    intros a Hm Ht; cbn [num_attr set_num];
    destruct (NumAttr_beq tapered_neck_angle a) eqn:E1;
    destruct (NumAttr_beq main_angle a) eqn:E2;
    try (apply NumAttr_beq_true in E1; congruence);
    try (apply NumAttr_beq_true in E2; congruence);
    reflexivity.
Qed.

Lemma set_str_other (tool : ToolInfo) (a b : StrAttr) (v : string) :
  a <> b -> str_attr (set_str tool a v) b = str_attr tool b.
Proof.
  intros Hab. cbn [str_attr set_str].
  destruct (StrAttr_beq a b) eqn:E; [|reflexivity].
  exfalso. apply Hab. destruct a, b; try discriminate E; reflexivity.
Qed.

Lemma set_num_other (tool : ToolInfo) (a b : NumAttr) (v : PyVal) :
  a <> b -> num_attr (set_num tool a v) b = num_attr tool b.
Proof.
  intros Hab. cbn [num_attr set_num].
  destruct (NumAttr_beq a b) eqn:E; [|reflexivity].
  apply NumAttr_beq_true in E. contradiction.
Qed.

Lemma finish_parse_attrs (tool tool' : ToolInfo) (base_description description : string)
    (angle neck_angle : num) (using_mm : bool) :
  finish_parse tool base_description description angle neck_angle using_mm = Ok tool' ->
  (forall a, a <> formatted_description -> a <> bur_description ->
             str_attr tool' a = str_attr tool a)
  /\ (forall a, a <> main_angle -> a <> tapered_neck_angle ->
                num_attr tool' a
                = if using_mm && existsb (NumAttr_beq a) (attribute_list tool)
                  then converted (num_attr tool a) else num_attr tool a).
Proof.
  rewrite finish_parse_unfold.
  pose proof (attribute_list_NoDup tool) as Hnodup.
  destruct (attribute_list tool) as [|a0 l0] eqn:Hl; [discriminate|].
  cbv zeta.
  set (tool1 := set_str (set_str tool formatted_description base_description)
                        bur_description description).
  destruct (with_angles_attrs tool1 angle neck_angle) as (Hstr & Hnum).
  intros H. apply Ok_inj in H. subst tool'.
  split.
  - intros a Hf Hb.
    assert (Hs : str_attr (with_angles tool1 angle neck_angle) a = str_attr tool a).
    { rewrite Hstr. subst tool1.
      rewrite set_str_other by congruence. apply set_str_other. congruence. }
    destruct using_mm; [rewrite (convert_attributes_str (a0 :: l0))|]; exact Hs.
  - intros a Hm Ht.
    destruct using_mm; cbn [andb].
    + rewrite (convert_attributes_num _ Hnodup).
      rewrite (Hnum a Hm Ht). reflexivity.
    + apply (Hnum a Hm Ht).
Qed.

End Frames2.

Ltac unbind H a Ha :=
  apply bind_ok in H; destruct H as (a & Ha & H); cbv beta in H.

Section Frames3.
Context {F : PyFloat} {R : PyRuntime}.

Lemma attribute_list_mem_nonzero (tool : ToolInfo) (a : NumAttr) :
  existsb (NumAttr_beq a) (attribute_list tool) = nonzero_number (num_attr tool a).
Proof. apply attribute_list_mem. Qed.

Lemma parse_description_attrs (layer_detail : Outcome JsonLayer)
    (tool tool' : ToolInfo) (using_mm prep : bool) (json : Taxonomy) :
  parse_description layer_detail tool using_mm prep = Ok (json, tool') ->
  exists (layer : JsonLayer) (tool1 : ToolInfo) (neck_angle : num)
         (words : list string) (mm_final : bool),
    layer_detail = Ok layer
    /\ json = json_content layer
    /\ extract_neck
         (set_str (set_str tool full_description
                           (PyStr.upper (str_attr tool tool_description)))
                  tool_description (working_description layer tool))
         (working_description layer tool) prep
       = Ok (tool1, neck_angle, words)
    /\ (forall a,
           a <> full_description -> a <> tool_description -> a <> flute_count ->
           a <> formatted_description -> a <> bur_description ->
           str_attr tool' a = str_attr tool a)
    /\ (forall a,
           a <> corner_radius -> a <> cut_diameter -> a <> length_of_cut ->
           a <> shank_diameter -> a <> overall_length -> a <> pilot_length ->
           a <> flute_length -> a <> main_angle -> a <> tapered_neck_angle ->
           num_attr tool' a
           = if mm_final && nonzero_number (num_attr tool1 a)
             then converted (num_attr tool1 a) else num_attr tool1 a).
Proof.
  unfold parse_description. intros H.
  unbind H layer Hlayer.
  unbind H r1 Hneck. destruct r1 as [[tool1 neck_angle] words]. cbv beta iota in H.
  unbind H r2 Hcr. destruct r2 as [cr mm1]. cbv beta iota in H.
  set (tool2 := set_num tool1 corner_radius cr) in H.
  set (scan := fold_left (scan_word (json_content layer)) words _) in H.
  set (tool3 := if fl_cnt_cs scan then set_str tool2 flute_count (fl_cnt scan)
                else tool2) in H.
  destruct (String.eqb (fl_cnt scan) ""); [discriminate H|].
  unbind H r3 Hres. destruct r3 as [[[[cut_dia loc] shank_dia] oal] full_dim].
  cbv beta iota in H.
  unbind H loc_float Hloc.
  unbind H angle Hangle.
  unbind H mm_final Hmm.
  set (tool7 := set_num (set_num (set_num (set_num tool3 cut_diameter _)
                                          length_of_cut _) shank_diameter _)
                        overall_length _) in H.
  destruct (negb (PyStr.mem _ (tool_types_list (json_content layer))));
    [discriminate H|].
  unbind H r4 Hcs. destruct r4 as [tool8 description2]. cbv beta iota in H.
  unbind H tool9 Hfin. apply Ok_inj in H. injection H as Hjson Htool. subst tool'.
  exists layer, tool1, neck_angle, words, mm_final.
  split; [exact Hlayer|]. split; [symmetry; exact Hjson|].
  split; [exact Hneck|].
  destruct (extract_neck_attrs _ _ _ _ _ _ Hneck) as (Hstr1 & _).
  destruct (countersink_geometry_attrs _ _ _ _ _ _ _ _ _ _ Hcs) as (Hstr8 & Hnum8).
  destruct (finish_parse_attrs _ _ _ _ _ _ _ Hfin) as (Hstr9 & Hnum9).
  assert (Hstr3 : forall a, a <> flute_count -> str_attr tool3 a = str_attr tool1 a).
  { intros a Ha. subst tool3 tool2.
    destruct (fl_cnt_cs scan); [rewrite set_str_other by congruence|]; reflexivity. }
  assert (Hnum3 : forall a, a <> corner_radius -> num_attr tool3 a = num_attr tool1 a).
  { intros a Ha. subst tool3 tool2.
    destruct (fl_cnt_cs scan); cbn [num_attr set_str]; apply set_num_other; congruence. }
  split.
  - intros a H1 H2 H3 H4 H5.
    rewrite Hstr9 by assumption. rewrite Hstr8 by assumption.
    subst tool7. cbn [str_attr set_num]. rewrite Hstr3 by assumption.
    rewrite Hstr1. rewrite !set_str_other by congruence. reflexivity.
  - intros a H1 H2 H3 H4 H5 H6 H7 H8 H9.
    assert (Ha : num_attr tool8 a = num_attr tool1 a).
    { rewrite Hnum8 by assumption. subst tool7.
      rewrite !set_num_other by congruence. apply Hnum3. assumption. }
    rewrite Hnum9 by assumption.
    rewrite attribute_list_mem_nonzero, Ha. reflexivity.
Qed.
End Frames3.

Section Frames4.
Context {F : PyFloat} {R : PyRuntime}.

Lemma set_flag_other (feature : InputArgData) (a b : Flag) (v : bool) :
  a <> b -> flag (set_flag feature a v) b = flag feature b.
Proof.
  intros Hab. cbn [flag set_flag].
  destruct (Flag_beq a b) eqn:E; [|reflexivity].
  exfalso. apply Hab. destruct a, b; try discriminate E; reflexivity.
Qed.


Lemma Flag_beq_refl (a : Flag) : Flag_beq a a = true.
Proof. destruct a; reflexivity. Qed.

(** The loop over [args] only ever switches flags on. *)
Lemma apply_args_flag (args : list string) (feature : InputArgData) (a : Flag) :
  flag (apply_args feature args) a = flag feature a || requests a args.
Proof.
  revert feature. induction args as [|arg rest IH]; intros feature.
  - cbn. rewrite orb_false_r. reflexivity.
  - unfold apply_args in *. cbn [fold_left requests existsb]. rewrite IH.
    unfold requests.
    destruct (arg_flag arg) as [b|]; [|reflexivity].
    cbn [flag set_flag].
    destruct (Flag_beq b a) eqn:E; cbn [orb].
    + rewrite orb_true_r. reflexivity.
    + reflexivity.
Qed.

Lemma apply_kwargs_attrs (kw : list (string * PyVal)) :
  forall (tool tool' : ToolInfo),
    apply_kwargs tool kw = Ok tool' ->
    (forall a, a <> part_number -> a <> material -> a <> material_dimension ->
               str_attr tool' a = str_attr tool a)
    /\ (forall a, a <> tip_diameter -> a <> tapered_neck_diameter ->
                  num_attr tool' a = num_attr tool a)
    /\ str_attr tool' part_number = kwargs_part_number (str_attr tool part_number) kw.
Proof.
  induction kw as [|[k v] rest IH]; intros tool tool' H.
  - apply Ok_inj in H. subst tool'. repeat split; reflexivity.
  - cbn [apply_kwargs] in H. unfold kwargs_part_number. cbn [fold_left fst snd].
    fold (kwargs_part_number
            (if String.eqb (PyStr.upper k) "PART_NUM" then val_str v
             else str_attr tool part_number) rest).
    unfold kwarg_attr in H.
    destruct (String.eqb (PyStr.upper k) "PART_NUM") eqn:E1.
    { destruct (IH _ _ H) as (Hs & Hn & Hp). repeat split.
      - intros a H1 H2 H3. rewrite Hs by assumption. apply set_str_other. congruence.
      - intros a H1 H2. rewrite Hn by assumption. reflexivity.
      - rewrite Hp. reflexivity. }
    destruct (String.eqb (PyStr.upper k) "MATERIAL") eqn:E2.
    { destruct (IH _ _ H) as (Hs & Hn & Hp). repeat split.
      - intros a H1 H2 H3. rewrite Hs by assumption. apply set_str_other. congruence.
      - intros a H1 H2. rewrite Hn by assumption. reflexivity.
      - rewrite Hp. reflexivity. }
    destruct (String.eqb (PyStr.upper k) "MAT_DIMENSION") eqn:E3.
    { destruct (IH _ _ H) as (Hs & Hn & Hp). repeat split.
      - intros a H1 H2 H3. rewrite Hs by assumption. apply set_str_other. congruence.
      - intros a H1 H2. rewrite Hn by assumption. reflexivity.
      - rewrite Hp. reflexivity. }
    assert (Hnum : forall attr tool1,
               attr = tip_diameter \/ attr = tapered_neck_diameter ->
               apply_kwargs tool1 rest = Ok tool' ->
               str_attr tool1 = str_attr tool ->
               (forall a, a <> tip_diameter -> a <> tapered_neck_diameter ->
                          num_attr tool1 a = num_attr tool a) ->
               (forall a, a <> part_number -> a <> material -> a <> material_dimension ->
                          str_attr tool' a = str_attr tool a)
               /\ (forall a, a <> tip_diameter -> a <> tapered_neck_diameter ->
                             num_attr tool' a = num_attr tool a)
               /\ str_attr tool' part_number
                  = kwargs_part_number (str_attr tool part_number) rest).
    { intros attr tool1 Hattr H1 Hs1 Hn1.
      destruct (IH _ _ H1) as (Hs & Hn & Hp). repeat split.
      - intros a Ha1 Ha2 Ha3. rewrite Hs by assumption. rewrite Hs1. reflexivity.
      - intros a Ha1 Ha2. rewrite Hn by assumption. apply Hn1; assumption.
      - rewrite Hp, Hs1. reflexivity. }
    assert (Hset : forall attr x,
               attr = tip_diameter \/ attr = tapered_neck_diameter ->
               forall a, a <> tip_diameter -> a <> tapered_neck_diameter ->
                         num_attr (set_num tool attr x) a = num_attr tool a).
    { intros attr x [-> | ->] a Ha1 Ha2; apply set_num_other; congruence. }
    destruct (String.eqb (PyStr.upper k) "TIP_DIAMETER") eqn:E4.
    { destruct (num_attr tool tip_diameter) as [y|t], v as [z|s];
        try destruct (py_float s); try discriminate H;
        (eapply (Hnum tip_diameter); [left; reflexivity | exact H | reflexivity
                                      | apply Hset; left; reflexivity]). }
    destruct (String.eqb (PyStr.upper k) "TAPERED_NECK_DIA") eqn:E5.
    { destruct (num_attr tool tapered_neck_diameter) as [y|t], v as [z|s];
        try destruct (py_float s); try discriminate H;
        (eapply (Hnum tapered_neck_diameter);
         [right; reflexivity | exact H | reflexivity
          | apply Hset; right; reflexivity]). }
    apply (IH _ _ H).
Qed.

Lemma material_dimensions_attrs (tool tool' : ToolInfo) (cut_dia oal : num) :
  material_dimensions tool cut_dia oal = Ok tool' ->
  str_attr tool' = str_attr tool
  /\ (forall a, a <> material_diameter -> a <> material_oal ->
                num_attr tool' a = num_attr tool a).
Proof.
  unfold material_dimensions.
  destruct (negb (String.eqb (str_attr tool material_dimension) "")).
  - destruct (map py_eval _) as [|[d|] [|[l|] [|? ?]]]; try discriminate.
    destruct (fgtb l MM_CUTOFF); intros H; apply Ok_inj in H; subst tool';
      (split; [reflexivity|]); intros a H1 H2;
      rewrite !set_num_other by congruence; reflexivity.
  - intros H; apply Ok_inj in H; subst tool'.
    split; [reflexivity|]. intros a H1 H2.
    rewrite !set_num_other by congruence; reflexivity.
Qed.

(** [calc_fluting_time] stores the rounded cycle time and nothing else,
    and a cycle time of 0.0 is never a success. *)
Lemma calc_fluting_time_attrs (PERF_LIST : list string) (excel_data : Outcome Excel)
    (tool tool' : ToolInfo) (feature feature' : InputArgData) (report : Detail) :
  calc_fluting_time PERF_LIST excel_data tool feature = Ok (tool', feature', report) ->
  feature' = feature
  /\ str_attr tool' = str_attr tool
  /\ (forall a, a <> fluting_cycle_time -> num_attr tool' a = num_attr tool a)
  /\ exists time, num_attr tool' fluting_cycle_time = VNum time
                  /\ feqb time fzero = false.
Proof.
  unfold calc_fluting_time. intros H.
  unbind H r1 H1. destruct r1 as [fl_cnt1 fl_cnt2]. cbv beta iota in H.
  unbind H excel H2.
  unbind H u H3.
  unbind H rows H4.
  unbind H cut_dia H5.
  unbind H r2 H6. destruct r2 as [[filtered_df cut_dia'] description]. cbv beta iota in H.
  unbind H loc H7.
  unbind H res H8.
  destruct (feqb (fround (fluting_time res) 3) fzero) eqn:E; [discriminate H|].
  apply Ok_inj in H. injection H as <- <- _.
  split; [reflexivity|]. split; [reflexivity|]. split.
  - intros a Ha. apply set_num_other. congruence.
  - exists (fround (fluting_time res) 3). split; [|exact E].
    cbn [num_attr set_num NumAttr_beq]. reflexivity.
Qed.

End Frames4.

Ltac unbind_next H :=
  let a := fresh "a" in
  let Ha := fresh "Ha" in
  apply bind_ok in H; destruct H as (a & Ha & H); cbv beta in H.

Ltac prep_step H :=
  lazymatch type of H with
  | bind _ _ = Ok _ => unbind_next H
  | (let (_, _) := ?e in _) = Ok _ => destruct e eqn:?
  | (if ?c then _ else _) = Ok _ => destruct c eqn:?; [discriminate H|]
  end.

Section Frames6.
Context {F : PyFloat} {R : PyRuntime}.

Lemma prep_operations_attrs (layer : JsonLayer) (excel : Excel)
    (tool tool' : ToolInfo) (table : PrepTable) :
  prep_operations layer excel tool = Ok (tool', table) ->
  str_attr tool' = str_attr tool
  /\ (forall a, a <> tapered_neck_angle -> a <> tip_diameter -> a <> main_angle ->
                num_attr tool' a = num_attr tool a).
Proof.
  unfold prep_operations. intros H.
  repeat prep_step H.
  assert (Ht : t = tool
               \/ t = set_num tool tapered_neck_angle
                             (VNum (included_prep_angle (PREP_DICT layer)))).
  { subst p0. destruct (truthy a10); [destruct (negb (truthy a11))|];
      injection Heqp2 as <- _ _; auto. }
  apply Ok_inj in H. injection H as <- _.
  split.
  - destruct Ht as [-> | ->];
      match goal with |- context [if ?c then _ else _] => destruct c end;
      reflexivity.
  - intros attr Hattr1 Hattr2 Hattr3.
    destruct Ht as [-> | ->];
      match goal with |- context [if ?c then _ else _] => destruct c end;
      rewrite ?set_num_other by congruence; reflexivity.
Qed.

Lemma store_prep_attrs (tool : ToolInfo) (entries : list PrepEntry)
    (double_end : bool) :
  (forall a, a <> prep_type ->
             str_attr (store_prep tool entries double_end) a = str_attr tool a)
  /\ (forall a, a <> prep_cycle_time ->
                num_attr (store_prep tool entries double_end) a = num_attr tool a).
Proof.
  unfold store_prep. destruct (total_prep_time entries double_end) as [total robot_time].
  destruct entries as [|entry rest].
  - split; reflexivity.
  - split.
    + intros a Ha. cbn [str_attr set_num]. apply set_str_other. congruence.
    + intros a Ha. rewrite set_num_other by congruence. reflexivity.
Qed.

(** The prep calculation the handler runs ([parse] false) writes the prep
    text and the prep time, and on the way the tip diameter, the main angle
    and the tapered-neck angle of its rules; nothing else. *)
Lemma calc_prep_time_attrs (json_layer : Outcome JsonLayer)
    (excel_layer : Outcome Excel) (tool tool' : ToolInfo) (double_end : bool) :
  calc_prep_time json_layer excel_layer tool false double_end = Ok tool' ->
  (forall a, a <> prep_type -> str_attr tool' a = str_attr tool a)
  /\ (forall a, a <> prep_cycle_time -> a <> tapered_neck_angle ->
                a <> tip_diameter -> a <> main_angle ->
                num_attr tool' a = num_attr tool a).
Proof.
  unfold calc_prep_time. intros H.
  unbind H tool0 H0. apply Ok_inj in H0. subst tool0.
  destruct (existsb _ _); [discriminate H|].
  unbind H layer Hlayer. unbind H excel Hexcel.
  unbind H r Hops. destruct r as [tool1 table]. cbv beta iota in H.
  apply Ok_inj in H. subst tool'.
  destruct (prep_operations_attrs _ _ _ _ _ Hops) as [Hs Hn].
  destruct (store_prep_attrs tool1 (prep_type_of table) double_end) as [Hs' Hn'].
  split.
  - intros a Ha. rewrite Hs' by assumption. rewrite Hs. reflexivity.
  - intros a Ha1 Ha2 Ha3 Ha4. rewrite Hn' by assumption. apply Hn; assumption.
Qed.
End Frames6.

Section Frames5.
Context {F : PyFloat} {R : PyRuntime}.

Lemma new_feature_flag (args : list string) (a : Flag) :
  flag (apply_args new_feature args) a = requests a args.
Proof. rewrite apply_args_flag. reflexivity. Qed.

(** Lines 1537-1551: the optional prep calculation and the fluting
    calculation. *)
Lemma prep_then_fluting_attrs (gate : bool) (json_layer : Outcome JsonLayer)
    (excel_layer : Outcome Excel) (tool tool' : ToolInfo) (double_end : bool)
    (PERF_LIST : list string) (feature feature' : InputArgData) (report : Detail) :
  (tool0 <- (if gate then calc_prep_time json_layer excel_layer tool false double_end
             else Ok tool) ;;
   calc_fluting_time PERF_LIST excel_layer tool0 feature) = Ok (tool', feature', report) ->
  (forall a, a <> prep_type -> str_attr tool' a = str_attr tool a)
  /\ (gate = false ->
      str_attr tool' = str_attr tool
      /\ forall a, a <> fluting_cycle_time -> num_attr tool' a = num_attr tool a).
Proof.
  intros H. unbind H tool0 Hprep.
  destruct (calc_fluting_time_attrs _ _ _ _ _ _ _ H) as (_ & Hs & Hn & _).
  split.
  - intros a Ha. rewrite Hs. destruct gate.
    + apply (calc_prep_time_attrs _ _ _ _ _ Hprep). exact Ha.
    + apply Ok_inj in Hprep. subst tool0. reflexivity.
  - intros ->. apply Ok_inj in Hprep. subst tool0. split; assumption.
Qed.

Lemma get_tool_detail_attrs (layer : Layer) (tool tool' : ToolInfo)
    (args : list string) (kwargs : list (string * PyVal))
    (feature' : InputArgData) (report : Detail) :
  get_tool_detail layer tool args kwargs = Ok (tool', feature', report) ->
  exists (tool_kw : ToolInfo) (layer0 : JsonLayer) (tool1 : ToolInfo)
         (neck_angle : num) (words : list string) (mm_final : bool),
    apply_kwargs tool kwargs = Ok tool_kw
    /\ json_layer layer = Ok layer0
    /\ extract_neck
         (set_str (set_str tool_kw full_description
                           (PyStr.upper (str_attr tool_kw tool_description)))
                  tool_description (working_description layer0 tool_kw))
         (working_description layer0 tool_kw) (requests prep args)
       = Ok (tool1, neck_angle, words)
    /\ str_attr tool' part_number = str_attr tool_kw part_number
    /\ (requests prep args = false ->
        str_attr tool' prep_type = str_attr tool_kw prep_type
        /\ forall a,
            a <> corner_radius -> a <> cut_diameter -> a <> length_of_cut ->
            a <> shank_diameter -> a <> overall_length -> a <> pilot_length ->
            a <> flute_length -> a <> main_angle -> a <> tapered_neck_angle ->
            a <> material_diameter -> a <> material_oal -> a <> fluting_cycle_time ->
            num_attr tool' a
            = if mm_final && nonzero_number (num_attr tool1 a)
              then converted (num_attr tool1 a) else num_attr tool1 a).
Proof.
  unfold get_tool_detail. intros H.
  unbind H tool_kw Hkw.
  unbind H parsed Hparse. destruct parsed as [json tool_p]. cbv beta iota in H.
  unbind H cut_dia H1. unbind H loc H2. unbind H shank_dia H3. unbind H oal H4.
  unbind H tool_m Hmat.
  unbind H family_dict Hfam.
  rewrite !new_feature_flag in Hparse.
  destruct (parse_description_attrs _ _ _ _ _ _ Hparse)
    as (layer0 & tool1 & neck_angle & words & mm_final & Hlayer & _ & Hneck & Hsp & Hnp).
  destruct (material_dimensions_attrs _ _ _ _ Hmat) as (Hsm & Hnm).
  exists tool_kw, layer0, tool1, neck_angle, words, mm_final.
  split; [exact Hkw|]. split; [exact Hlayer|]. split; [exact Hneck|].
  match type of H with (if ?c then _ else _) = _ => destruct c end;
    [discriminate H|].
  match type of H with
  | context [if PyStr.mem ?x ROUTER_FAM then _ else _] =>
      destruct (PyStr.mem x ROUTER_FAM)
  end;
    cbv beta iota in H;
    apply prep_then_fluting_attrs in H; destruct H as [Hs Hgate];
    (split;
     [ rewrite Hs by discriminate;
       repeat match goal with
              | |- context [if ?c then _ else _] => destruct c
              end;
       rewrite ?set_str_other by discriminate;
       rewrite Hsm; apply Hsp; discriminate
     | intros Hprep;
       assert (Hoff : forall feature (ends : string) (cut : string),
                  flag feature prep = requests prep args ->
                  flag {| flag := flag feature; end_type := ends; bur_cut := cut |}
                       prep = false) by (intros ? ? ? Hf; cbn [flag]; rewrite Hf; exact Hprep);
       match type of Hgate with
       | ?g = false -> _ => assert (Hg : g = false)
       end;
       [ rewrite ?set_flag_other by discriminate;
         apply Hoff;
         repeat match goal with
                | |- context [if ?c then _ else _] => destruct c
                end;
         rewrite ?set_flag_other by discriminate;
         apply new_feature_flag
       | destruct (Hgate Hg) as [Hs' Hn']; split;
         [ rewrite Hs';
           repeat match goal with
                  | |- context [if ?c then _ else _] => destruct c
                  end;
           rewrite ?set_str_other by discriminate;
           rewrite Hsm; apply Hsp; discriminate
         | intros a ? ? ? ? ? ? ? ? ? ? ? ?;
           rewrite Hn' by assumption;
           transitivity (num_attr tool_p a); [|apply Hnp; assumption];
           repeat match goal with
                  | |- context [if ?c then _ else _] => destruct c
                  end;
           cbn [num_attr set_str];
           apply Hnm; assumption ] ] ]).
Qed.
End Frames5.

(** ** The request as [get_tool_detail] sees it *)

Section Request.
Context {F : PyFloat} {R : PyRuntime}.

Lemma request_detail_ok (layer : Layer) (event : Event)
    (result : ToolInfo * InputArgData * Detail) :
  request_detail layer event = Ok result ->
  exists diameter loc shank_dia oal fl_cnt description,
    Description event = Some description
    /\ get_tool_detail layer
         (new_tool diameter loc shank_dia oal fl_cnt description)
         (match args event with Some a => a | None => [] end)
         (match kwargs event with Some kw => kw | None => [] end)
       = Ok result.
Proof.
  unfold request_detail.
  destruct (Diameter event) as [diameter|]; [|discriminate].
  destruct (LOC event) as [loc|]; [|discriminate].
  destruct (ShankDiameter event) as [shank_dia|]; [|discriminate].
  destruct (OAL event) as [oal|]; [|discriminate].
  destruct (FluteCount event) as [fl_cnt|]; [|discriminate].
  destruct (Description event) as [description|]; [|discriminate].
  destruct (String.eqb description ""); [discriminate|].
  intros H. eexists _, _, _, _, fl_cnt, description. split; [reflexivity | exact H].
Qed.



Lemma scan_part_num_first (kw : list (string * PyVal)) :
  (scan_part_num kw <> "" ->
   exists k v rest, kw = (k, v) :: rest /\ PyStr.lower k = "part_num"
                    /\ scan_part_num kw = val_str v)
  /\ (forall k v rest, kw = (k, v) :: rest -> PyStr.lower k <> "part_num" ->
                       scan_part_num kw = "").
Proof.
  split.
  - destruct kw as [|[k v] rest]; cbn [scan_part_num]; [congruence|].
    destruct (String.eqb (PyStr.lower k) "part_num") eqn:E; [|congruence].
    intros _. exists k, v, rest. apply String.eqb_eq in E. auto.
  - intros k v rest -> Hne. cbn [scan_part_num].
    destruct (String.eqb (PyStr.lower k) "part_num") eqn:E; [|reflexivity].
    apply String.eqb_eq in E. contradiction.
Qed.

End Request.

#[local] Existing Instance QFloat.ops.
#[local] Existing Instance QRuntime.ops.

Lemma oval_request_ok :
  @lambda_handler QFloat.ops QRuntime.ops (Sample.layer 10) Sample.oval_request
  = Ok (Sample.response_of 10 Sample.oval_request).
Proof.
  unfold Sample.response_of.
  assert (Hok : is_ok (@lambda_handler QFloat.ops QRuntime.ops
                         (Sample.layer 10) Sample.oval_request) = true)
    by (vm_compute; reflexivity).
  destruct (@lambda_handler QFloat.ops QRuntime.ops (Sample.layer 10) Sample.oval_request);
    [reflexivity | discriminate Hok | discriminate Hok].
Qed.

Lemma endmill_request_ok :
  @lambda_handler QFloat.ops QRuntime.ops (Sample.layer 10) Sample.endmill_request
  = Ok (Sample.response_of 10 Sample.endmill_request).
Proof.
  unfold Sample.response_of.
  assert (Hok : is_ok (@lambda_handler QFloat.ops QRuntime.ops
                         (Sample.layer 10) Sample.endmill_request) = true)
    by (vm_compute; reflexivity).
  destruct (@lambda_handler QFloat.ops QRuntime.ops (Sample.layer 10)
              Sample.endmill_request);
    [reflexivity | discriminate Hok | discriminate Hok].
Qed.

(** C1 at the request of the reduced endmill with [PREP]. *)
Lemma total_cycle_time_is_rounded_sum_witness :
  statusCode (Sample.response_of 10 Sample.endmill_request) = 900
  /\ exists tool feature report fluting prep_time,
       @request_detail QFloat.ops QRuntime.ops (Sample.layer 10) Sample.endmill_request
       = Ok (tool, feature, report)
       /\ num_attr tool fluting_cycle_time = VNum fluting
       /\ num_attr tool prep_cycle_time = VNum prep_time
       /\ CycleTime (Sample.response_of 10 Sample.endmill_request) = VNum fluting
       /\ PrepTime (Sample.response_of 10 Sample.endmill_request) = VNum prep_time
       /\ TotalCycleTime (Sample.response_of 10 Sample.endmill_request)
          = fround (fadd fluting prep_time) 3.
Proof.
  exact (total_cycle_time_is_rounded_sum QFloat.ops QRuntime.ops (Sample.layer 10)
           Sample.endmill_request _ endmill_request_ok).
Defined.



(** C10. The response echoes as [PartNumber] what the scan of [kwargs]
    found, and the scan ends after the first entry: the echo is non-empty
    only when the first key is [part_num] in any case, and it is empty
    whenever another key comes first.  The record still gets its part
    number from the mapping of [kwargs] to attributes: the value of the last
    entry whose key is [PART_NUM] in any case, wherever it stands. *)
Theorem part_number_echo_reads_first_kwarg :
  forall (F : PyFloat) (R : PyRuntime) (layer : Layer) (event : Event)
         (response : Response),
    lambda_handler layer event = Ok response ->
    (PartNumber response <> "" ->
     exists k v rest,
       kwargs event = Some ((k, v) :: rest) /\ PyStr.lower k = "part_num"
       /\ PartNumber response = val_str v)
    /\ (forall k v rest,
           kwargs event = Some ((k, v) :: rest) -> PyStr.lower k <> "part_num" ->
           PartNumber response = "")
    /\ exists tool feature report,
         request_detail layer event = Ok (tool, feature, report)
         /\ str_attr tool part_number
            = kwargs_part_number ""
                (match kwargs event with Some kw => kw | None => [] end).
Proof.
  intros F R layer event response H.
  destruct (lambda_handler_ok layer event response H)
    as (tool & feature & report & fluting & prep_time & Hdetail & Hfl & Hprep & ->).
  cbn [PartNumber].
  split; [|split].
  - destruct (kwargs event) as [kw|]; [|congruence].
    intros Hne. destruct (proj1 (scan_part_num_first kw) Hne) as (k & v & rest & -> & Hk & Hv).
    exists k, v, rest. auto.
  - intros k v rest -> Hk.
    exact (proj2 (scan_part_num_first ((k, v) :: rest)) k v rest eq_refl Hk).
  - exists tool, feature, report. split; [exact Hdetail|].
    destruct (request_detail_ok _ _ _ Hdetail)
      as (diameter & loc & shank_dia & oal & fl_cnt & description & Hdesc & Hget).
    destruct (get_tool_detail_attrs _ _ _ _ _ _ _ Hget)
      as (tool_kw & layer0 & tool1 & neck_angle & words & mm_final
          & Hkw & _ & _ & Hpart & _).
    destruct (apply_kwargs_attrs _ _ _ Hkw) as (_ & _ & Hp).
    rewrite Hpart, Hp. reflexivity.
Qed.

(** C10 at the request of the oval bur, whose part number is the second
    entry of [kwargs]: the echo is empty and the record holds 101-101. *)
Lemma part_number_echo_reads_first_kwarg_witness :
  ((PartNumber (Sample.response_of 10 Sample.oval_request) <> "" ->
    exists k v rest,
      kwargs Sample.oval_request = Some ((k, v) :: rest) /\ PyStr.lower k = "part_num"
      /\ PartNumber (Sample.response_of 10 Sample.oval_request) = val_str v)
   /\ (forall k v rest,
          kwargs Sample.oval_request = Some ((k, v) :: rest) ->
          PyStr.lower k <> "part_num" ->
          PartNumber (Sample.response_of 10 Sample.oval_request) = "")
   /\ exists tool feature report,
        @request_detail QFloat.ops QRuntime.ops (Sample.layer 10) Sample.oval_request
       = Ok (tool, feature, report)
        /\ str_attr tool part_number
           = kwargs_part_number ""
               (match kwargs Sample.oval_request with Some kw => kw | None => [] end))
  /\ kwargs_part_number (F := QFloat.ops) (R := QRuntime.ops) ""
       (match kwargs Sample.oval_request with Some kw => kw | None => [] end)
     = "101-101".
Proof.
  split.
  - exact (part_number_echo_reads_first_kwarg QFloat.ops QRuntime.ops (Sample.layer 10)
             Sample.oval_request _ oval_request_ok).
  - vm_compute. reflexivity.
Defined.


(** * Further properties of the code *)


Section ParseFacts.
Context {F : PyFloat} {R : PyRuntime}.

Lemma scan_word_fl_cnt (json : Taxonomy) (st : Scan) (word : string) :
  (fl_cnt_cs st = true -> fl_cnt_cs (scan_word json st word) = true)
  /\ (fl_cnt_cs (scan_word json st word) = false ->
      fl_cnt (scan_word json st word) = fl_cnt st).
Proof.
  unfold scan_word.
  destruct (re_search fl_cnt_pattern word);
    match goal with
    | |- context [let '(_, _) := ?p in _] => destruct p
    end; cbn [fl_cnt fl_cnt_cs]; split; auto; discriminate.
Qed.

Lemma scan_words_fl_cnt (json : Taxonomy) (words : list string) (st : Scan) :
  (fl_cnt_cs st = true -> fl_cnt_cs (fold_left (scan_word json) words st) = true)
  /\ (fl_cnt_cs (fold_left (scan_word json) words st) = false ->
      fl_cnt (fold_left (scan_word json) words st) = fl_cnt st).
Proof.
  revert st. induction words as [|word rest IH]; intros st; cbn [fold_left].
  - split; auto.
  - destruct (IH (scan_word json st word)) as [IH1 IH2].
    destruct (scan_word_fl_cnt json st word) as [H1 H2].
    split.
    + intros Hst. apply IH1, H1, Hst.
    + intros Hend. rewrite (IH2 Hend). apply H2.
      destruct (fl_cnt_cs (scan_word json st word)) eqn:E; [|reflexivity].
      rewrite (IH1 eq_refl) in Hend. discriminate Hend.
Qed.

Lemma finish_parse_formatted (tool tool' : ToolInfo) (base_description description : string)
    (angle neck_angle : num) (using_mm : bool) :
  finish_parse tool base_description description angle neck_angle using_mm = Ok tool' ->
  str_attr tool' formatted_description = base_description
  /\ str_attr tool' bur_description = description.
Proof.
  rewrite finish_parse_unfold.
  destruct (attribute_list tool) as [|a0 l0]; [discriminate|].
  cbv zeta. intros H. apply Ok_inj in H. subst tool'.
  destruct (with_angles_attrs
              (set_str (set_str tool formatted_description base_description)
                       bur_description description) angle neck_angle) as (Hstr & _).
  destruct using_mm; rewrite ?convert_attributes_str; rewrite Hstr; split; reflexivity.
Qed.

Lemma parse_description_strings (layer_detail : Outcome JsonLayer)
    (tool tool' : ToolInfo) (using_mm prep : bool) (json : Taxonomy) :
  parse_description layer_detail tool using_mm prep = Ok (json, tool') ->
  str_attr tool' full_description = PyStr.upper (str_attr tool tool_description)
  /\ PyStr.mem (str_attr tool' formatted_description) (tool_types_list json) = true
  /\ str_attr tool' flute_count <> "".
Proof.
  unfold parse_description. intros H.
  unbind H layer Hlayer.
  unbind H r1 Hneck. destruct r1 as [[tool1 neck_angle] words]. cbv beta iota in H.
  unbind H r2 Hcr. destruct r2 as [cr mm1]. cbv beta iota in H.
  set (tool2 := set_num tool1 corner_radius cr) in H.
  set (scan := fold_left (scan_word (json_content layer)) words _) in H.
  set (tool3 := if fl_cnt_cs scan then set_str tool2 flute_count (fl_cnt scan)
                else tool2) in H.
  destruct (String.eqb (fl_cnt scan) "") eqn:Hfl; [discriminate H|].
  unbind H r3 Hres. destruct r3 as [[[[cut_dia loc] shank_dia] oal] full_dim].
  cbv beta iota in H.
  unbind H loc_float Hloc.
  unbind H angle Hangle.
  unbind H mm_final Hmm.
  set (tool7 := set_num (set_num (set_num (set_num tool3 cut_diameter _)
                                          length_of_cut _) shank_diameter _)
                        overall_length _) in H.
  destruct (PyStr.mem _ (tool_types_list (json_content layer))) eqn:Hknown;
    [|discriminate H].
  cbn [negb] in H.
  unbind H r4 Hcs. destruct r4 as [tool8 description2]. cbv beta iota in H.
  unbind H tool9 Hfin. apply Ok_inj in H. injection H as Hjson Htool. subst tool' json.
  destruct (extract_neck_attrs _ _ _ _ _ _ Hneck) as (Hstr1 & _).
  destruct (countersink_geometry_attrs _ _ _ _ _ _ _ _ _ _ Hcs) as (Hstr8 & _).
  destruct (finish_parse_attrs _ _ _ _ _ _ _ Hfin) as (Hstr9 & _).
  destruct (finish_parse_formatted _ _ _ _ _ _ _ Hfin) as (Hform & _).
  split; [|split].
  - rewrite Hstr9 by discriminate. rewrite Hstr8 by discriminate.
    subst tool7 tool3 tool2. cbn [str_attr set_num].
    destruct (fl_cnt_cs scan); rewrite ?set_str_other by discriminate;
      cbn [str_attr set_num]; rewrite Hstr1; rewrite set_str_other by discriminate;
      reflexivity.
  - rewrite Hform. exact Hknown.
  - rewrite Hstr9 by discriminate. rewrite Hstr8 by discriminate.
    assert (Hcount : str_attr tool7 flute_count = fl_cnt scan).
    { subst tool7 tool3. cbn [str_attr set_num].
      destruct (fl_cnt_cs scan) eqn:Hcs'.
      - reflexivity.
      - symmetry. exact (proj2 (scan_words_fl_cnt _ _ _) Hcs'). }
    rewrite Hcount. intros Hempty. rewrite Hempty in Hfl. discriminate Hfl.
Qed.

End ParseFacts.

Section Stages.
Context {F : PyFloat} {R : PyRuntime}.

Lemma val_float_201 (v : PyVal) (x : num) :
  match val_float v with
  | Raise ValueError => Failure 201
  | r => r
  end = Ok x ->
  val_float v = Ok x.
Proof.
  destruct (val_float v) as [y|c|[]]; intros H; try discriminate H; exact H.
Qed.

(** The stages of [get_tool_detail] behind a result. *)
Lemma get_tool_detail_stages (layer : Layer) (tool tool' : ToolInfo)
    (args : list string) (kwargs : list (string * PyVal))
    (feature' : InputArgData) (report : Detail) :
  get_tool_detail layer tool args kwargs = Ok (tool', feature', report) ->
  exists (tool_kw : ToolInfo) (json : Taxonomy) (tool_p : ToolInfo)
         (cut_dia loc shank_dia oal : num) (tool_m : ToolInfo)
         (family_dict : Fam.Info) (tool_r : ToolInfo) (feature_r : InputArgData)
         (tool_pre : ToolInfo),
    apply_kwargs tool kwargs = Ok tool_kw
    /\ parse_description (json_layer layer) tool_kw (requests mm args)
                         (requests prep args) = Ok (json, tool_p)
    /\ (val_float (num_attr tool_p cut_diameter) = Ok cut_dia
        /\ val_float (num_attr tool_p length_of_cut) = Ok loc
        /\ val_float (num_attr tool_p shank_diameter) = Ok shank_dia
        /\ val_float (num_attr tool_p overall_length) = Ok oal)
    /\ (feqb cut_dia fzero = false /\ feqb loc fzero = false
        /\ feqb shank_dia fzero = false)
    /\ material_dimensions tool_p cut_dia oal = Ok tool_m
    /\ get_family json (str_attr tool_m formatted_description)
                  (PyStr.split_char " " (str_attr tool_p tool_description))
       = Ok family_dict
    /\ (str_attr tool_r tool_family = Fam.family family_dict
        /\ str_attr tool_r reference_family = Fam.ref_family family_dict
        /\ (forall a, a <> tool_family -> a <> reference_family -> a <> flute_count ->
                      str_attr tool_r a = str_attr tool_m a)
        /\ num_attr tool_r = num_attr tool_m)
    /\ (forall a, a = tert_od_angle \/ a = detail \/ a = mass_detail \/ a = mm
                  \/ a = prep ->
                  flag feature_r a = requests a args)
    /\ (if requests prep args
        then calc_prep_time (json_layer layer) (excel_layer layer) tool_r false
               (flag feature_r double_end) = Ok tool_pre
        else tool_pre = tool_r)
    /\ calc_fluting_time (perf_series json) (excel_layer layer) tool_pre feature_r
       = Ok (tool', feature', report).
Proof.
  unfold get_tool_detail. intros H.
  unbind H tool_kw Hkw.
  unbind H parsed Hparse. destruct parsed as [json tool_p]. cbv beta iota in H.
  unbind H cut_dia H1. unbind H loc H2. unbind H shank_dia H3. unbind H oal H4.
  apply val_float_201 in H1, H2, H3, H4.
  unbind H tool_m Hmat.
  unbind H family_dict Hfam.
  rewrite !new_feature_flag in Hparse.
  destruct (feqb cut_dia fzero) eqn:Hz1; [discriminate H|].
  destruct (feqb loc fzero) eqn:Hz2; [discriminate H|].
  destruct (feqb shank_dia fzero) eqn:Hz3; [discriminate H|].
  destruct (String.eqb (str_attr tool_p tool_description) ""); [discriminate H|].
  cbn [orb] in H.
  set (feature0 := apply_args new_feature args) in H.
  match type of H with
  | context [set_flag {| flag := flag ?f; end_type := _; bur_cut := _ |} spiral _] =>
      set (feature3 := f) in H;
      assert (Hf3 : forall a, a = tert_od_angle \/ a = detail \/ a = mass_detail
                              \/ a = mm \/ a = prep ->
                              flag feature3 a = requests a args)
  end.
  { intros a Ha. subst feature3 feature0.
    repeat match goal with
           | |- context [if ?c then _ else _] => destruct c
           end;
      rewrite ?set_flag_other
        by (destruct Ha as [-> | [-> | [-> | [-> | ->]]]]; discriminate);
      apply new_feature_flag. }
  clearbody feature3.
  match type of H with
  | context [if PyStr.mem ?x ROUTER_FAM then _ else _] =>
      destruct (PyStr.mem x ROUTER_FAM)
  end; cbv beta iota in H;
    match type of H with
    | bind (if flag ?f prep then calc_prep_time _ _ ?t _ _ else _) _ = _ =>
        set (feature_r := f) in H; set (tool_r := t) in H;
        assert (Hflags : forall a, a = tert_od_angle \/ a = detail \/ a = mass_detail
                                   \/ a = mm \/ a = prep ->
                                   flag feature_r a = requests a args)
          by (intros a Ha; subst feature_r;
              rewrite ?set_flag_other
                by (destruct Ha as [-> | [-> | [-> | [-> | ->]]]]; discriminate);
              cbn [flag]; apply Hf3; exact Ha)
    end;
    unbind H tool_pre Hprep;
    exists tool_kw, json, tool_p, cut_dia, loc, shank_dia, oal, tool_m, family_dict,
           tool_r, feature_r, tool_pre;
    (split; [exact Hkw|]); (split; [exact Hparse|]);
    (split; [repeat split; assumption|]); (split; [repeat split; assumption|]);
    (split; [exact Hmat|]); (split; [exact Hfam|]);
    (split;
     [ subst tool_r;
       repeat match goal with
              | |- context [if ?c then _ else _] => destruct c
              end;
       (split; [reflexivity|]); (split; [reflexivity|]);
       (split; [intros a Ha1 Ha2 Ha3; rewrite ?set_str_other by congruence; reflexivity
               | reflexivity])
     |]);
    (split; [exact Hflags|]);
    (split; [|exact H]);
    rewrite (Hflags prep) in Hprep by auto;
    destruct (requests prep args);
    [exact Hprep | apply Ok_inj in Hprep; symmetry; exact Hprep
     | exact Hprep | apply Ok_inj in Hprep; symmetry; exact Hprep].
Qed.

End Stages.

Section FlutingStages.
Context {F : PyFloat}.

(** The stages of [calc_fluting_time] behind a result. *)
Lemma calc_fluting_time_stages (PERF_LIST : list string) (excel_data : Outcome Excel)
    (tool tool' : ToolInfo) (feature feature' : InputArgData) (report : Detail) :
  calc_fluting_time PERF_LIST excel_data tool feature = Ok (tool', feature', report) ->
  exists (fl_cnt1 fl_cnt2 : Z) (excel : Excel) (rows filtered_df : list RateRow)
         (cut_dia cut_dia' loc : num) (description : string) (result : BranchResult),
    parse_flute_count (str_attr tool flute_count) = Ok (fl_cnt1, fl_cnt2)
    /\ excel_data = Ok excel
    /\ flag feature mass_detail && live_time_empty excel = false
    /\ rate_sheet excel (str_attr tool reference_family) = Some rows
    /\ get_num tool cut_diameter = Ok cut_dia
    /\ select_rows tool cut_dia rows = Ok (filtered_df, cut_dia', description)
    /\ get_num tool length_of_cut = Ok loc
    /\ (if String.eqb (str_attr tool reference_family) "BUR" then
          bur_branch tool feature cut_dia' loc fl_cnt1 fl_cnt2 filtered_df description
        else if existsb (fun fam => PyStr.contains fam (str_attr tool reference_family))
                        ["EM"; "WR"; "O-FLUTE"; "WR COMP"; "DRILL"] then
          match filtered_df with
          | row_values :: _ =>
              em_branch PERF_LIST tool feature cut_dia' loc fl_cnt1 row_values description
          | [] => Raise IndexError
          end
        else Raise UnboundLocalError) = Ok result
    /\ tool' = set_num tool fluting_cycle_time (VNum (fround (fluting_time result) 3))
    /\ feqb (fround (fluting_time result) 3) fzero = false
    /\ feature' = feature
    /\ report = (if flag feature detail
                 then DetailPrint (report_description result) (feature_list result)
                 else if flag feature mass_detail then DetailMass (feature_list result)
                 else DetailDescription (report_description result)).
Proof.
  unfold calc_fluting_time. intros H.
  unbind H r1 H1. destruct r1 as [fl_cnt1 fl_cnt2]. cbv beta iota in H.
  unbind H excel H2.
  unbind H u H3.
  unbind H rows H4.
  unbind H cut_dia H5.
  unbind H r2 H6. destruct r2 as [[filtered_df cut_dia'] description]. cbv beta iota in H.
  unbind H loc H7.
  unbind H res H8.
  destruct (feqb (fround (fluting_time res) 3) fzero) eqn:E; [discriminate H|].
  apply Ok_inj in H. injection H as <- <- <-.
  exists fl_cnt1, fl_cnt2, excel, rows, filtered_df, cut_dia, cut_dia', loc,
         description, res.
  split; [exact H1|]. split; [exact H2|].
  split; [destruct (flag feature mass_detail && live_time_empty excel);
          [discriminate H3 | reflexivity]|].
  split; [destruct (rate_sheet excel (str_attr tool reference_family));
          [apply Ok_inj in H4; subst; reflexivity | discriminate H4]|].
  repeat (split; [first [assumption | reflexivity] |]). reflexivity.
Qed.

End FlutingStages.

Section ParseNumbers.
Context {F : PyFloat} {R : PyRuntime}.

Lemma converted_number (v : PyVal) (b : bool) :
  is_number v -> is_number (if b then converted v else v).
Proof. intros [x ->]. destruct b; cbn [converted]; eexists; reflexivity. Qed.

Lemma countersink_geometry_loc (tool tool' : ToolInfo) (description fl_cnt : string)
    (fl_cnt_cs : bool) (angle cut_dia shank_dia : num) (loc : PyVal)
    (description' : string) :
  countersink_geometry tool description fl_cnt fl_cnt_cs angle cut_dia shank_dia loc
  = Ok (tool', description') ->
  is_number (num_attr tool length_of_cut) ->
  is_number (num_attr tool' length_of_cut).
Proof.
  unfold countersink_geometry. intros H Hloc.
  destruct (PyStr.contains "COUNTERSINK" description);
    [|injection H as <- _; exact Hloc].
  apply bind_ok in H. destruct H as ([tool1 description1] & H1 & H).
  assert (Hnum1 : num_attr tool1 = num_attr tool).
  { destruct (fl_cnt_cs && negb (PyStr.contains "DRILL" description)).
    - apply bind_ok in H1. destruct H1 as (n & _ & H1). injection H1 as <- _.
      reflexivity.
    - injection H1 as <- _. reflexivity. }
  destruct (truthy angle); [|discriminate H].
  apply bind_ok in H. destruct H as ([[tool2 multiplier] dia] & H2 & H).
  assert (Hnum2 : num_attr tool2 length_of_cut = num_attr tool1 length_of_cut).
  { destruct (PyStr.contains "DRILL" description1).
    - injection H2 as <- _ _. reflexivity.
    - apply bind_ok in H2. destruct H2 as (n & _ & H2). injection H2 as <- _ _.
      reflexivity. }
  injection H as <- _.
  destruct (negb (val_truthy loc)); cbn [num_attr set_num NumAttr_beq].
  - eexists; reflexivity.
  - rewrite Hnum2, Hnum1. exact Hloc.
Qed.

(** After parsing, the four main dimensions of the record are numbers. *)
Lemma parse_description_numbers (layer_detail : Outcome JsonLayer)
    (tool tool' : ToolInfo) (using_mm prep : bool) (json : Taxonomy) :
  parse_description layer_detail tool using_mm prep = Ok (json, tool') ->
  is_number (num_attr tool' cut_diameter)
  /\ is_number (num_attr tool' length_of_cut)
  /\ is_number (num_attr tool' shank_diameter)
  /\ is_number (num_attr tool' overall_length).
Proof.
  unfold parse_description. intros H.
  unbind H layer Hlayer.
  unbind H r1 Hneck. destruct r1 as [[tool1 neck_angle] words]. cbv beta iota in H.
  unbind H r2 Hcr. destruct r2 as [cr mm1]. cbv beta iota in H.
  set (tool2 := set_num tool1 corner_radius cr) in H.
  set (scan := fold_left (scan_word (json_content layer)) words _) in H.
  set (tool3 := if fl_cnt_cs scan then set_str tool2 flute_count (fl_cnt scan)
                else tool2) in H.
  destruct (String.eqb (fl_cnt scan) "") eqn:Hfl; [discriminate H|].
  unbind H r3 Hres. destruct r3 as [[[[cut_dia loc] shank_dia] oal] full_dim].
  cbv beta iota in H.
  unbind H loc_float Hloc.
  unbind H angle Hangle.
  unbind H mm_final Hmm.
  set (tool7 := set_num (set_num (set_num (set_num tool3 cut_diameter _)
                                          length_of_cut _) shank_diameter _)
                        overall_length _) in H.
  destruct (negb (PyStr.mem _ (tool_types_list (json_content layer))));
    [discriminate H|].
  unbind H r4 Hcs. destruct r4 as [tool8 description2]. cbv beta iota in H.
  unbind H tool9 Hfin. apply Ok_inj in H. injection H as Hjson Htool. subst tool' json.
  destruct (countersink_geometry_attrs _ _ _ _ _ _ _ _ _ _ Hcs) as (_ & Hnum8).
  pose proof (countersink_geometry_loc _ _ _ _ _ _ _ _ _ _ Hcs) as Hloc8.
  destruct (finish_parse_attrs _ _ _ _ _ _ _ Hfin) as (_ & Hnum9).
  assert (H7 : is_number (num_attr tool7 cut_diameter)
               /\ is_number (num_attr tool7 length_of_cut)
               /\ is_number (num_attr tool7 shank_diameter)
               /\ is_number (num_attr tool7 overall_length)).
  { subst tool7. cbn [num_attr set_num NumAttr_beq].
    repeat split; eexists; reflexivity. }
  destruct H7 as (Hc & Hl & Hs & Ho).
  repeat split; rewrite Hnum9 by discriminate; apply converted_number;
    first [ rewrite Hnum8 by discriminate; assumption | apply Hloc8; assumption ].
Qed.

End ParseNumbers.

Section FamilyRange.

Lemma get_family_range (json : Taxonomy) (base_description : string)
    (split_description : list string) (info : Fam.Info) :
  get_family json base_description split_description = Ok info ->
  In (Fam.family info, Fam.ref_family info)
     [("EM", "SQ EM"); ("WR", "SQ EM"); ("DRILL", "SQ EM"); ("FBGR", "BUR");
      ("O-FLUTE", "SQ EM"); ("WR COMP", "SQ EM"); ("BUR", "BUR")].
Proof.
  unfold get_family.
  repeat match goal with
         | |- context [if ?c then _ else _] => destruct c
         end;
    try destruct split_description;
    try destruct (scan_bur_cuts _ _ _) as [[cut spiral]|];
    intros H; try discriminate H; injection H as <-; cbn; tauto.
Qed.

End FamilyRange.

Section Result.
Context {F : PyFloat} {R : PyRuntime}.

(** What a result of [get_tool_detail] holds, in terms of the parsed
    record. *)
Lemma get_tool_detail_result (layer : Layer) (tool tool' : ToolInfo)
    (args : list string) (kwargs : list (string * PyVal))
    (feature' : InputArgData) (report : Detail) :
  get_tool_detail layer tool args kwargs = Ok (tool', feature', report) ->
  exists (tool_kw : ToolInfo) (json : Taxonomy) (tool_p : ToolInfo)
         (family_dict : Fam.Info),
    apply_kwargs tool kwargs = Ok tool_kw
    /\ parse_description (json_layer layer) tool_kw (requests mm args)
                         (requests prep args) = Ok (json, tool_p)
    /\ get_family json (str_attr tool_p formatted_description)
                  (PyStr.split_char " " (str_attr tool_p tool_description))
       = Ok family_dict
    /\ str_attr tool' tool_family = Fam.family family_dict
    /\ str_attr tool' reference_family = Fam.ref_family family_dict
    /\ (forall a, a <> tool_family -> a <> reference_family -> a <> flute_count ->
                  a <> prep_type -> str_attr tool' a = str_attr tool_p a)
    /\ (forall a, a <> material_diameter -> a <> material_oal ->
                  a <> fluting_cycle_time -> a <> prep_cycle_time ->
                  a <> tapered_neck_angle -> a <> tip_diameter -> a <> main_angle ->
                  num_attr tool' a = num_attr tool_p a)
    /\ (exists time, num_attr tool' fluting_cycle_time = VNum time
                     /\ feqb time fzero = false)
    /\ (exists fl_cnt1 fl_cnt2,
           parse_flute_count (str_attr tool' flute_count) = Ok (fl_cnt1, fl_cnt2))
    /\ (exists cut_dia loc shank_dia,
           val_float (num_attr tool_p cut_diameter) = Ok cut_dia
           /\ val_float (num_attr tool_p length_of_cut) = Ok loc
           /\ val_float (num_attr tool_p shank_diameter) = Ok shank_dia
           /\ feqb cut_dia fzero = false /\ feqb loc fzero = false
           /\ feqb shank_dia fzero = false).
Proof.
  intros H.
  destruct (get_tool_detail_stages _ _ _ _ _ _ _ H)
    as (tool_kw & json & tool_p & cut_dia & loc & shank_dia & oal & tool_m
        & family_dict & tool_r & feature_r & tool_pre
        & Hkw & Hparse & (Hv1 & Hv2 & Hv3 & Hv4) & (Hz1 & Hz2 & Hz3) & Hmat & Hfam
        & (Hr1 & Hr2 & Hr3 & Hr4) & Hflags & Hprep & Hflute).
  destruct (material_dimensions_attrs _ _ _ _ Hmat) as (Hsm & Hnm).
  destruct (calc_fluting_time_attrs _ _ _ _ _ _ _ Hflute) as (_ & Hsf & Hnf & Htime).
  destruct (calc_fluting_time_stages _ _ _ _ _ _ _ Hflute)
    as (fl_cnt1 & fl_cnt2 & _ & _ & _ & _ & _ & _ & _ & _ & Hcount & _).
  assert (Hpre : (forall a, a <> prep_type -> str_attr tool_pre a = str_attr tool_r a)
                 /\ (forall a, a <> prep_cycle_time -> a <> tapered_neck_angle ->
                               a <> tip_diameter -> a <> main_angle ->
                               num_attr tool_pre a = num_attr tool_r a)).
  { destruct (requests prep args).
    - exact (calc_prep_time_attrs _ _ _ _ _ Hprep).
    - subst tool_pre. split; reflexivity. }
  destruct Hpre as (Hsp & Hnp).
  exists tool_kw, json, tool_p, family_dict.
  split; [exact Hkw|]. split; [exact Hparse|].
  split; [rewrite Hsm in Hfam; exact Hfam|].
  split; [rewrite Hsf, Hsp by discriminate; exact Hr1|].
  split; [rewrite Hsf, Hsp by discriminate; exact Hr2|].
  split.
  { intros a H1 H2 H3 H4. rewrite Hsf, Hsp by assumption.
    rewrite Hr3 by assumption. rewrite Hsm. reflexivity. }
  split.
  { intros a H1 H2 H3 H4 H5 H6 H7. rewrite Hnf by assumption.
    rewrite Hnp by assumption. rewrite Hr4. apply Hnm; assumption. }
  split; [exact Htime|].
  split; [exists fl_cnt1, fl_cnt2; rewrite Hsf; exact Hcount|].
  exists cut_dia, loc, shank_dia. repeat split; assumption.
Qed.

End Result.

(** ** What every response with status 900 satisfies *)

(** X1. A response with status 900 echoes as [Description] the description of
    the request in upper case: [parse_description] stores it before it
    rewrites the working description, and no later stage touches it. *)
Theorem response_description_is_uppercased :
  forall (F : PyFloat) (R : PyRuntime) (layer : Layer) (event : Event)
         (response : Response),
    lambda_handler layer event = Ok response ->
    exists description,
      Description event = Some description
      /\ description <> ""
      /\ resp_Description response = PyStr.upper description.
Proof.
  intros F R layer event response H.
  destruct (lambda_handler_ok layer event response H)
    as (tool & feature & report & fluting & prep_time & Hdetail & Hfl & Hprep & ->).
  cbn [resp_Description].
  destruct (request_detail_ok _ _ _ Hdetail)
    as (diameter & loc & shank_dia & oal & fl_cnt & description & Hdesc & Hget).
  destruct (get_tool_detail_result _ _ _ _ _ _ _ Hget)
    as (tool_kw & json & tool_p & family_dict & Hkw & Hparse & _ & _ & _ & Hstr & _).
  destruct (apply_kwargs_attrs _ _ _ Hkw) as (Hskw & _ & _).
  destruct (parse_description_strings _ _ _ _ _ _ Hparse) as (Hfull & _ & _).
  exists description. split; [exact Hdesc|]. split.
  - intros ->. unfold lambda_handler in H. rewrite Hdesc in H.
    destruct (kwargs event), (Diameter event), (LOC event), (ShankDiameter event),
      (OAL event), (FluteCount event); cbn in H; discriminate H.
  - rewrite Hstr by discriminate. rewrite Hfull. rewrite Hskw by discriminate.
    reflexivity.
Qed.

(** X2. A response with status 900 names one of the seven families
    [get_family] assigns, the one it found for the parsed record. *)
Theorem response_family_is_classified :
  forall (F : PyFloat) (R : PyRuntime) (layer : Layer) (event : Event)
         (response : Response),
    lambda_handler layer event = Ok response ->
    In (Family response) FAMILIES
    /\ exists tool feature report,
         request_detail layer event = Ok (tool, feature, report)
         /\ In (Family response, str_attr tool reference_family)
               [("EM", "SQ EM"); ("WR", "SQ EM"); ("DRILL", "SQ EM"); ("FBGR", "BUR");
                ("O-FLUTE", "SQ EM"); ("WR COMP", "SQ EM"); ("BUR", "BUR")].
Proof.
  intros F R layer event response H.
  destruct (lambda_handler_ok layer event response H)
    as (tool & feature & report & fluting & prep_time & Hdetail & Hfl & Hprep & ->).
  cbn [Family].
  destruct (request_detail_ok _ _ _ Hdetail)
    as (diameter & loc & shank_dia & oal & fl_cnt & description & Hdesc & Hget).
  destruct (get_tool_detail_result _ _ _ _ _ _ _ Hget)
    as (tool_kw & json & tool_p & family_dict & _ & _ & Hfam & Hf & Hr & _).
  pose proof (get_family_range _ _ _ _ Hfam) as Hin.
  rewrite <- Hf, <- Hr in Hin.
  split.
  - unfold FAMILIES. cbn [In] in *.
    repeat destruct Hin as [Hin | Hin]; try contradiction;
      injection Hin as <- _; tauto.
  - exists tool, feature, report. split; [exact Hdetail | exact Hin].
Qed.


(** X4. The flute count a response with status 900 echoes is one the engine
    could read: an integer, or two integers around a slash. *)
Theorem response_flute_count_parses :
  forall (F : PyFloat) (R : PyRuntime) (layer : Layer) (event : Event)
         (response : Response),
    lambda_handler layer event = Ok response ->
    exists fl_cnt1 fl_cnt2,
      parse_flute_count (resp_FluteCount response) = Ok (fl_cnt1, fl_cnt2)
      /\ resp_FluteCount response <> "".
Proof.
  intros F R layer event response H.
  destruct (lambda_handler_ok layer event response H)
    as (tool & feature & report & fluting & prep_time & Hdetail & Hfl & Hprep & ->).
  cbn [resp_FluteCount].
  destruct (request_detail_ok _ _ _ Hdetail)
    as (diameter & loc0 & shank_dia0 & oal & fl_cnt & description & Hdesc & Hget).
  destruct (get_tool_detail_result _ _ _ _ _ _ _ Hget)
    as (_ & _ & _ & _ & _ & _ & _ & _ & _ & _ & _ & _ & (n1 & n2 & Hcount) & _).
  exists n1, n2. split; [exact Hcount|].
  intros Hempty. rewrite Hempty in Hcount. discriminate Hcount.
Qed.

(** ** The options and keyword values of a request *)

Lemma requests_ext (args args' : list string) (a : Flag) :
  (forall arg, In arg args -> In arg args') ->
  requests a args = true -> requests a args' = true.
Proof.
  unfold requests. intros Hincl H.
  apply existsb_exists in H. destruct H as (arg & Hin & Harg).
  apply existsb_exists. exists arg. split; [apply Hincl; exact Hin | exact Harg].
Qed.

(** X5. The flags the loop over [args] leaves depend on which option tokens
    occur, not on their order or on how often they are repeated; and a flag
    is on afterwards exactly when it was on before or one of its tokens
    occurs. *)
Theorem apply_args_order_irrelevant :
  forall (feature : InputArgData) (args args' : list string),
    (forall arg, In arg args <-> In arg args') ->
    forall a : Flag,
      flag (apply_args feature args) a = flag (apply_args feature args') a
      /\ flag (apply_args feature args) a = (flag feature a || requests a args).
Proof.
  intros feature args args' Hsame a.
  rewrite !apply_args_flag. split; [|reflexivity].
  f_equal.
  destruct (requests a args) eqn:E1, (requests a args') eqn:E2; try reflexivity.
  - rewrite (requests_ext args args' a) in E2; [discriminate E2 | | exact E1].
    intros arg. apply Hsame.
  - rewrite (requests_ext args' args a) in E1; [discriminate E1 | | exact E2].
    intros arg. apply Hsame.
Qed.

(** X5 at a sample input. *)
Lemma apply_args_order_irrelevant_witness :
  (flag (apply_args new_feature ["prep"; "DE"]) prep
   = flag (apply_args new_feature ["DE"; "prep"; "DE"]) prep
   /\ flag (apply_args new_feature ["prep"; "DE"]) prep
      = (flag new_feature prep || requests prep ["prep"; "DE"]))
  /\ (flag (apply_args new_feature ["prep"; "DE"]) notch
      = flag (apply_args new_feature ["DE"; "prep"; "DE"]) notch
      /\ flag (apply_args new_feature ["prep"; "DE"]) notch
         = (flag new_feature notch || requests notch ["prep"; "DE"])).
Proof.
  split;
    apply (apply_args_order_irrelevant new_feature ["prep"; "DE"] ["DE"; "prep"; "DE"]);
    intros arg; cbn [In]; tauto.
Defined.

Section Kwargs.
Context {F : PyFloat} {R : PyRuntime}.

Lemma apply_kwargs_outcome (kw : list (string * PyVal)) :
  forall tool : ToolInfo,
    apply_kwargs tool kw = Failure 200 \/ exists tool', apply_kwargs tool kw = Ok tool'.
Proof.
  induction kw as [|[k v] rest IH]; intros tool; cbn [apply_kwargs].
  - right. exists tool. reflexivity.
  - destruct (kwarg_attr k) as [[attr|attr]|]; try apply IH.
    destruct (num_attr tool attr) as [y|t], v as [z|s]; try apply IH.
    destruct (py_float s); [apply IH | left; reflexivity].
Qed.

End Kwargs.

(** X6. The loop over [kwargs] either ends the request with status 200 (a
    value that the type of its attribute rejects) or returns the record;
    it never raises.  The record it returns differs from the one it got at
    most in the part number, the material, the material dimension, the tip
    diameter and the tapered-neck diameter, and its part number is the value
    of the last [PART_NUM] entry. *)
Theorem apply_kwargs_status_200_or_frame :
  forall (F : PyFloat) (R : PyRuntime) (tool : ToolInfo) (kw : list (string * PyVal)),
    apply_kwargs tool kw = Failure 200
    \/ exists tool',
        apply_kwargs tool kw = Ok tool'
        /\ (forall a, a <> part_number -> a <> material -> a <> material_dimension ->
                      str_attr tool' a = str_attr tool a)
        /\ (forall a, a <> tip_diameter -> a <> tapered_neck_diameter ->
                      num_attr tool' a = num_attr tool a)
        /\ str_attr tool' part_number
           = kwargs_part_number (str_attr tool part_number) kw.
Proof.
  intros F R tool kw.
  destruct (apply_kwargs_outcome kw tool) as [H | [tool' H]]; [left; exact H|].
  right. exists tool'. split; [exact H|]. exact (apply_kwargs_attrs _ _ _ H).
Qed.


(** ** The early returns of the handler *)

(** X7. A request that lacks one of the six required keys is answered with
    status 108, whatever else it holds. *)
Theorem lambda_handler_missing_key :
  forall (F : PyFloat) (R : PyRuntime) (layer : Layer) (event : Event),
    Diameter event = None \/ LOC event = None \/ ShankDiameter event = None
    \/ OAL event = None \/ FluteCount event = None \/ Description event = None ->
    lambda_handler layer event = Failure 108.
Proof.
  intros F R layer event H. unfold lambda_handler.
  destruct (kwargs event), (Diameter event) eqn:E1, (LOC event) eqn:E2,
    (ShankDiameter event) eqn:E3, (OAL event) eqn:E4, (FluteCount event) eqn:E5,
    (Description event) eqn:E6;
    try reflexivity;
    exfalso; repeat destruct H as [H | H]; congruence.
Qed.

(** X8. A request with all six keys and an empty description is answered
    with status 204 before anything is computed: the layers, the options
    and the other fields do not matter. *)
Theorem lambda_handler_empty_description :
  forall (F : PyFloat) (R : PyRuntime) (layer : Layer) (event : Event),
    Diameter event <> None -> LOC event <> None -> ShankDiameter event <> None ->
    OAL event <> None -> FluteCount event <> None ->
    Description event = Some "" ->
    lambda_handler layer event = Failure 204.
Proof.
  intros F R layer event H1 H2 H3 H4 H5 H6. unfold lambda_handler. rewrite H6.
  destruct (kwargs event), (Diameter event), (LOC event), (ShankDiameter event),
    (OAL event), (FluteCount event); try reflexivity; congruence.
Qed.

(** ** Part number: when echo and record agree *)

Lemma case_pair (c l u : ascii) :
  In (l, u) [("p", "P"); ("a", "A"); ("r", "R"); ("t", "T"); ("_", "_");
             ("n", "N"); ("u", "U"); ("m", "M")]%char ->
  PyStr.lower_ascii c = l <-> PyStr.upper_ascii c = u.
Proof.
  intros Hin. cbn [In] in Hin.
  repeat destruct Hin as [Hin | Hin]; try contradiction; injection Hin as <- <-;
    destruct c as [[] [] [] [] [] [] [] []]; vm_compute;
    split; intros H; first [reflexivity | discriminate H].
Qed.

Lemma part_num_key (k : string) :
  PyStr.lower k = "part_num" <-> PyStr.upper k = "PART_NUM".
Proof.
  destruct k as [|c1 [|c2 [|c3 [|c4 [|c5 [|c6 [|c7 [|c8 [|c9 k]]]]]]]]];
    cbn [PyStr.lower PyStr.upper]; try (split; intros H; discriminate H).
  assert (Hpair : forall c l u,
             In (l, u) [("p", "P"); ("a", "A"); ("r", "R"); ("t", "T"); ("_", "_");
                        ("n", "N"); ("u", "U"); ("m", "M")]%char ->
             (PyStr.lower_ascii c = l -> PyStr.upper_ascii c = u)
             /\ (PyStr.upper_ascii c = u -> PyStr.lower_ascii c = l))
    by (intros c l u Hin; split; apply (case_pair c l u Hin)).
  split; intros H; injection H as H1 H2 H3 H4 H5 H6 H7 H8.
  - rewrite (proj1 (Hpair c1 "p" "P" ltac:(cbn; tauto))%char H1).
    rewrite (proj1 (Hpair c2 "a" "A" ltac:(cbn; tauto))%char H2).
    rewrite (proj1 (Hpair c3 "r" "R" ltac:(cbn; tauto))%char H3).
    rewrite (proj1 (Hpair c4 "t" "T" ltac:(cbn; tauto))%char H4).
    rewrite (proj1 (Hpair c5 "_" "_" ltac:(cbn; tauto))%char H5).
    rewrite (proj1 (Hpair c6 "n" "N" ltac:(cbn; tauto))%char H6).
    rewrite (proj1 (Hpair c7 "u" "U" ltac:(cbn; tauto))%char H7).
    rewrite (proj1 (Hpair c8 "m" "M" ltac:(cbn; tauto))%char H8).
    reflexivity.
  - rewrite (proj2 (Hpair c1 "p" "P" ltac:(cbn; tauto))%char H1).
    rewrite (proj2 (Hpair c2 "a" "A" ltac:(cbn; tauto))%char H2).
    rewrite (proj2 (Hpair c3 "r" "R" ltac:(cbn; tauto))%char H3).
    rewrite (proj2 (Hpair c4 "t" "T" ltac:(cbn; tauto))%char H4).
    rewrite (proj2 (Hpair c5 "_" "_" ltac:(cbn; tauto))%char H5).
    rewrite (proj2 (Hpair c6 "n" "N" ltac:(cbn; tauto))%char H6).
    rewrite (proj2 (Hpair c7 "u" "U" ltac:(cbn; tauto))%char H7).
    rewrite (proj2 (Hpair c8 "m" "M" ltac:(cbn; tauto))%char H8).
    reflexivity.
Qed.

Section PartNumber.
Context {F : PyFloat} {R : PyRuntime}.

Lemma kwargs_part_number_absent (rest : list (string * PyVal)) (init : string) :
  (forall k v, In (k, v) rest -> PyStr.upper k <> "PART_NUM") ->
  kwargs_part_number init rest = init.
Proof.
  unfold kwargs_part_number. revert init.
  induction rest as [|[k v] rest IH]; intros init Hnone; cbn [fold_left fst snd].
  - reflexivity.
  - destruct (String.eqb (PyStr.upper k) "PART_NUM") eqn:E.
    + apply String.eqb_eq in E. exfalso. exact (Hnone k v (or_introl eq_refl) E).
    + apply IH. intros k' v' Hin. apply (Hnone k' v'). right. exact Hin.
Qed.

End PartNumber.

(** X9. When the first key of [kwargs] is [part_num] in any case and no later
    key is, the part number the response echoes and the one on the record
    are the same: the value of that first entry. *)
Theorem part_number_echo_agrees_with_record :
  forall (F : PyFloat) (R : PyRuntime) (layer : Layer) (event : Event)
         (response : Response) (k : string) (v : PyVal) (rest : list (string * PyVal)),
    lambda_handler layer event = Ok response ->
    kwargs event = Some ((k, v) :: rest) ->
    PyStr.lower k = "part_num" ->
    (forall k' v', In (k', v') rest -> PyStr.lower k' <> "part_num") ->
    PartNumber response = val_str v
    /\ exists tool feature report,
         request_detail layer event = Ok (tool, feature, report)
         /\ str_attr tool part_number = PartNumber response.
Proof.
  intros F R layer event response k v rest H Hkw Hk Hrest.
  destruct (lambda_handler_ok layer event response H)
    as (tool & feature & report & fluting & prep_time & Hdetail & Hfl & Hprep & ->).
  cbn [PartNumber]. rewrite Hkw. cbn [scan_part_num].
  rewrite (proj2 (String.eqb_eq _ _) Hk).
  split; [reflexivity|].
  exists tool, feature, report. split; [exact Hdetail|].
  destruct (request_detail_ok _ _ _ Hdetail)
    as (diameter & loc & shank_dia & oal & fl_cnt & description & Hdesc & Hget).
  destruct (get_tool_detail_result _ _ _ _ _ _ _ Hget)
    as (tool_kw & json & tool_p & family_dict & Hkwargs & Hparse & _ & _ & _ & Hstr & _).
  destruct (apply_kwargs_attrs _ _ _ Hkwargs) as (_ & _ & Hp).
  destruct (parse_description_attrs _ _ _ _ _ _ Hparse)
    as (_ & _ & _ & _ & _ & _ & _ & _ & Hsp & _).
  rewrite Hstr by discriminate. rewrite Hsp by discriminate. rewrite Hp.
  rewrite Hkw. unfold kwargs_part_number at 1. cbn [fold_left fst snd].
  rewrite (proj2 (String.eqb_eq _ _) (proj1 (part_num_key k) Hk)).
  apply kwargs_part_number_absent.
  intros k' v' Hin Hup. apply (Hrest k' v' Hin). apply part_num_key. exact Hup.
Qed.

(** ** Fluting time: the rows, the flags and the report *)


(** X11. The settling of the OD-angle flags (lines 1974-1994) never leaves a
    tertiary angle without a secondary one; without end time the end and
    gash components are zero, without split the split component is zero,
    and the fluting component is never changed. *)
Theorem adjust_components_flags :
  forall (F : PyFloat) (description : string)
         (tert_od_angle sec_od_angle split end_time : bool) (c : Components),
    let a := adjust_components description tert_od_angle sec_od_angle split end_time c in
    (adj_tert_od_angle a = true ->
     adj_sec_od_angle a = true /\ tert_od_angle = true /\ sec_od_angle = true)
    /\ (adj_split a = true -> split = true)
    /\ (end_time = false ->
        calc_end_time (adj_components a) = fzero
        /\ calc_gash_time (adj_components a) = fzero)
    /\ (adj_split a = false -> end_split_time (adj_components a) = fzero)
    /\ calc_fl_time (adj_components a) = calc_fl_time c.
Proof.
  intros F description tert sec split end_time c a.
  subst a. unfold adjust_components.
  cbn [adj_sec_od_angle adj_tert_od_angle adj_split adj_components calc_fl_time
       calc_end_time calc_gash_time end_split_time].
  destruct sec, tert, split, end_time, (feqb (calc_od_time c) fzero),
    (PyStr.contains "STAGGERED" (PyStr.upper description)); cbn;
    repeat split; intros; try reflexivity; try discriminate.
Qed.

Section Drill.
Context {F : PyFloat}.

Lemma reamer_drill_rules_drill (description : string) (cut_dia loc : num)
    (inc_percentage : num) (split has_end_time : bool)
    (fl_time od_time gash_time : num) :
  PyStr.contains "REAMER" description = false ->
  exists inc' fl' gash',
    reamer_drill_rules "DRILL" description cut_dia loc
      (inc_percentage, split, has_end_time, fl_time, od_time, gash_time)
    = (inc', false, has_end_time, fl', fzero, gash').
Proof.
  intros Hreamer. unfold reamer_drill_rules. rewrite Hreamer.
  cbn [String.eqb Ascii.eqb Bool.eqb].
  destruct (PyStr.contains "SPADE" description).
  - eexists _, _, _. reflexivity.
  - destruct (fltb cut_dia dia_cutoff); eexists _, _, _; reflexivity.
Qed.

Lemma check_performance_series_split (PERF_LIST : list string) (tool_type : string) :
  forall (inc_percentage : num) (sec_od_angle : bool) (sec_inc : num),
  exists inc' sec' sec_inc',
    check_performance_series PERF_LIST tool_type
      (inc_percentage, false, sec_od_angle, sec_inc)
    = (inc', false, sec', sec_inc').
Proof.
  unfold check_performance_series.
  induction PERF_LIST as [|ps rest IH]; intros inc sec sec_inc; cbn [fold_left].
  - eexists _, _, _. reflexivity.
  - repeat match goal with
           | |- context [if ?c then _ else _] => destruct c
           end; apply IH.
Qed.

Lemma adjust_components_no_od (description : string)
    (tert_od_angle sec_od_angle end_time : bool) (c : Components) :
  calc_od_time c = fzero ->
  calc_od_time (adj_components
                  (adjust_components description tert_od_angle sec_od_angle false
                                     end_time c)) = fzero
  /\ end_split_time (adj_components
                       (adjust_components description tert_od_angle sec_od_angle false
                                          end_time c)) = fzero.
Proof.
  intros Hod. unfold adjust_components. rewrite Hod, feqb_zero.
  cbn [adj_components calc_od_time end_split_time].
  destruct tert_od_angle, sec_od_angle,
    (PyStr.contains "STAGGERED" (PyStr.upper description)); cbn; split; reflexivity.
Qed.

End Drill.

(** X12. A drill that is not a reamer is timed without OD grinding and without
    a split: whatever the rate sheet, the options and the performance
    series say, the OD component and the split component of its cycle time
    are zero (lines 1937-1939 and 1974-1994). *)
Theorem drill_has_no_od_and_no_split :
  forall (F : PyFloat) (PERF_LIST : list string) (tool : ToolInfo)
         (feature : InputArgData) (cut_dia loc : num) (fl_cnt1 : Z)
         (row_values : RateRow) (description : string) (result : BranchResult),
    str_attr tool tool_family = "DRILL" ->
    PyStr.contains "REAMER" description = false ->
    em_branch PERF_LIST tool feature cut_dia loc fl_cnt1 row_values description
    = Ok result ->
    exists time inc fl_time end_time gash_time sec_inc,
      feature_list result
      = [time; inc; fl_time; fzero; end_time; gash_time; fzero; sec_inc].
Proof.
  intros F PERF_LIST tool feature cut_dia loc fl_cnt1 row_values description result
         Hfam Hreamer H.
  unfold em_branch in H. rewrite Hfam in H.
  unbind H loc1 Hloc.
  match type of H with
  | context [if PyStr.contains "OFX" description then _ else _] =>
      destruct (PyStr.contains "OFX" description)
  end;
    cbv beta iota in H;
    match type of H with
    | context [apply_em_map ?d ?n ?st ?m] =>
        destruct (apply_em_map d n st m) as [[inc1 split1] sec1]
    end;
    cbv beta iota in H;
    match type of H with
    | context [reamer_drill_rules "DRILL" description ?c ?l (?i, ?s, ?e, ?f, ?o, ?g)] =>
        destruct (reamer_drill_rules_drill description c l i s e f o g Hreamer)
          as (inc2 & fl2 & gash2 & Hrules);
        rewrite Hrules in H
    end;
    cbv beta iota in H;
    destruct (flag feature performance);
    try (match type of H with
         | context [check_performance_series ?P ?d (?i, false, ?s, ?si)] =>
             destruct (check_performance_series_split P d i s si)
               as (inc3 & sec3 & sec_inc3 & Hperf);
             rewrite Hperf in H
         end);
    cbv beta iota in H;
    match type of H with
    | context [adjust_components ?d ?t ?s false ?e ?c] =>
        destruct (adjust_components_no_od d t s e c eq_refl) as [Hod Hsplit];
        rewrite Hod, Hsplit in H
    end;
    unbind H time Htime; apply Ok_inj in H; subst result;
    cbn [feature_list]; eexists _, _, _, _, _, _; reflexivity.
Qed.

(** ** Double-ended tools *)

(** X13. The [DE] option doubles the fluting time of a bur and changes nothing
    else of the branch's outcome: components, percentage and description
    are those of the single-ended tool (line 1756). *)
Theorem double_end_doubles_bur_time :
  forall (F : PyFloat) (tool : ToolInfo) (feature : InputArgData)
         (cut_dia loc : num) (fl_cnt1 fl_cnt2 : Z) (filtered_df : list RateRow)
         (description : string) (single : BranchResult),
    flag feature double_end = false ->
    bur_branch tool feature cut_dia loc fl_cnt1 fl_cnt2 filtered_df description
    = Ok single ->
    exists double,
      bur_branch tool (set_flag feature double_end true) cut_dia loc fl_cnt1 fl_cnt2
                 filtered_df description = Ok double
      /\ fluting_time double = fmul (fluting_time single) (of_Z 2)
      /\ report_description double = report_description single
      /\ tl (feature_list double) = tl (feature_list single).
Proof.
  intros F tool feature cut_dia loc fl_cnt1 fl_cnt2 filtered_df description single
         Hde H.
  unfold bur_branch in *.
  cbn [flag set_flag end_type bur_cut Flag_beq] in *.
  rewrite Hde in H.
  unbind H r1 H1. rewrite H1. cbn [bind].
  destruct r1 as [[loc1 inc1] row1]. cbv beta iota in *.
  unbind H r2 H2. rewrite H2. cbn [bind].
  destruct r2 as [[sc_time dc_time] time2]. cbv beta iota in *.
  unbind H r3 H3. rewrite H3. cbn [bind].
  destruct r3 as [[[[[[inc3 time3] fl3] od3] end3] gash3] split3]. cbv beta iota in *.
  apply Ok_inj in H. subst single.
  eexists. split; [reflexivity|].
  cbn [fluting_time report_description feature_list tl]. repeat split; reflexivity.
Qed.

(** ** What [calc_fluting_time] returns *)


(** X15. With [MASS] and an empty live-time sheet the request ends with status
    105 once the flute count is read, before the rate sheet is looked at. *)
Theorem calc_fluting_time_mass_needs_live_time :
  forall (F : PyFloat) (PERF_LIST : list string) (excel : Excel)
         (tool : ToolInfo) (feature : InputArgData) (fl_cnt1 fl_cnt2 : Z),
    parse_flute_count (str_attr tool flute_count) = Ok (fl_cnt1, fl_cnt2) ->
    flag feature mass_detail = true ->
    live_time_empty excel = true ->
    calc_fluting_time PERF_LIST (Ok excel) tool feature = Failure 105.
Proof.
  intros F PERF_LIST excel tool feature fl_cnt1 fl_cnt2 Hcount Hmass Hempty.
  unfold calc_fluting_time. rewrite Hcount. cbn [bind].
  rewrite Hmass, Hempty. reflexivity.
Qed.

(** ** Prep time: rows, removal times and the record *)

Section PrepRows.
Context {F : PyFloat}.

Lemma first_min_In {A : Type} (key : A -> num) (l : list A) :
  forall best : A, first_min key best l = best \/ In (first_min key best l) l.
Proof.
  induction l as [|x l IH]; intros best; cbn [first_min].
  - left. reflexivity.
  - destruct (IH (if fltb (key x) (key best) then x else best)) as [H | H].
    + rewrite H. destruct (fltb (key x) (key best)); [right; left|left]; reflexivity.
    + right. right. exact H.
Qed.

Lemma closest_row_In (rows : list PrepRow) (vol : num) (row : PrepRow) :
  closest_row rows vol = Ok row -> In row rows.
Proof.
  destruct rows as [|r rs]; cbn [closest_row]; intros H; [discriminate H|].
  apply Ok_inj in H. subst row.
  destruct (first_min_In (fun row => fabs (fsub (reduction_vol row) vol)) rs r)
    as [-> | Hin]; [left; reflexivity | right; exact Hin].
Qed.

End PrepRows.

(** X16. The row that times a reduction is a row of the sheet, and it lies on
    the same side of a length ratio of 8 as the reduction itself: a short
    reduction is never timed with the rate of a long one (lines
    1199-1208 and 1221-1228). *)
Theorem match_by_length_side :
  forall (F : PyFloat) (rows : list PrepRow) (ratio vol : num) (row : PrepRow),
    match_by_length rows ratio vol = Ok row ->
    In row rows
    /\ (if fltb ratio (of_Z 8)
        then fltb (length_ratio row) (of_Z 8) = true
        else fgeb (length_ratio row) (of_Z 8) = true).
Proof.
  intros F rows ratio vol row H. unfold match_by_length in H.
  destruct (fltb ratio (of_Z 8)); apply closest_row_In in H;
    apply filter_In in H; exact H.
Qed.



(** X17. With a neck prep, the neck entry is the last of the gated operations,
    whatever else is gated: so the robot time that closes the total and
    that the prep text prints is the neck prep's (lines 1385-1392 and
    1397-1413). *)
Theorem neck_prep_comes_last :
  forall (F : PyFloat) (t : PrepTable) (double_end : bool),
    neck_prep t = true ->
    let neck :=
      {| entry_name := if nk_after_fluting t then "Neck Prep (After Fluting)"
                       else "Neck Prep (Before Fluting)";
         entry_time := increased (vol_time (nk_info t));
         entry_vol := vol_reduction_vol (nk_info t);
         entry_rate := vol_rate (nk_info t) |} in
    (exists before, prep_type_of t = before ++ [neck])
    /\ snd (total_prep_time (prep_type_of t) double_end) = robot_time_of neck.
Proof.
  intros F t double_end Hneck neck.
  assert (Hlast : exists before, prep_type_of t = before ++ [neck]).
  { unfold prep_type_of. rewrite Hneck. cbn [gated].
    fold neck. rewrite !app_assoc. eexists. reflexivity. }
  split; [exact Hlast|].
  destruct Hlast as [before ->].
  unfold total_prep_time.
  pose proof (sum_prep_times_last before neck) as Hsum.
  destruct (sum_prep_times (before ++ [neck])) as [[total robot_total] robot].
  cbn [snd] in *. exact Hsum.
Qed.

Section VolCalc.
Context {F : PyFloat} {R : PyRuntime}.

Lemma vol_calc_time (excel : Excel) (tool_description : string)
    (major_od minor_od height : num) (sheet_name : string) (vol_type : VolType)
    (info : VolInfo) :
  vol_calc excel tool_description major_od minor_od height sheet_name vol_type = Ok info ->
  vol_time info = removal_time (vol_reduction_vol info) (vol_rate info).
Proof.
  unfold vol_calc. intros H.
  unbind H fr_df Hsheet.
  destruct (prep_rows fr_df) as [|first_row other_rows]; [discriminate H|].
  destruct (has_null fr_df); [discriminate H|].
  unbind H ratio Hratio.
  unbind H rate Hrate.
  apply Ok_inj in H. subst info. reflexivity.
Qed.

End VolCalc.

(** X18. [vol_calc] reports its failures before it computes anything: a sheet
    that is missing raises [KeyError], an empty sheet is error 404, a sheet
    with empty cells is error 102.  When it succeeds, the time it reports is
    the reported volume over the reported rate rounded to 3 decimals, and 0
    when the rate is 0. *)
Theorem vol_calc_outcomes :
  forall (F : PyFloat) (R : PyRuntime) (excel : Excel) (tool_description : string)
         (major_od minor_od height : num) (sheet_name : string) (vol_type : VolType),
    match prep_sheet excel sheet_name with
    | None =>
        vol_calc excel tool_description major_od minor_od height sheet_name vol_type
        = Raise KeyError
    | Some sheet =>
        match prep_rows sheet with
        | [] =>
            vol_calc excel tool_description major_od minor_od height sheet_name vol_type
            = Failure 404
        | _ :: _ =>
            if has_null sheet then
              vol_calc excel tool_description major_od minor_od height sheet_name
                       vol_type = Failure 102
            else
              forall info,
                vol_calc excel tool_description major_od minor_od height sheet_name
                         vol_type = Ok info ->
                vol_time info = removal_time (vol_reduction_vol info) (vol_rate info)
                /\ (feqb (vol_rate info) fzero = true -> vol_time info = fzero)
        end
    end.
Proof.
  intros F R excel tool_description major_od minor_od height sheet_name vol_type.
  destruct (prep_sheet excel sheet_name) as [sheet|] eqn:Hsheet;
    [|unfold vol_calc; rewrite Hsheet; reflexivity].
  destruct (prep_rows sheet) as [|row rows] eqn:Hrows;
    [unfold vol_calc; rewrite Hsheet; cbn [bind]; rewrite Hrows; reflexivity|].
  destruct (has_null sheet) eqn:Hnull;
    [unfold vol_calc; rewrite Hsheet; cbn [bind]; rewrite Hrows, Hnull; reflexivity|].
  intros info H. pose proof (vol_calc_time _ _ _ _ _ _ _ _ H) as Htime.
  split; [exact Htime|].
  intros Hzero. rewrite Htime. unfold removal_time, truthy. rewrite Hzero. reflexivity.
Qed.

(** X19. The prep calculation the handler runs refuses a record whose cut
    diameter, length of cut or shank diameter is 0 with error 206, before
    it reads the reference data (lines 942-947). *)
Theorem calc_prep_time_zero_dimension :
  forall (F : PyFloat) (R : PyRuntime) (json_layer : Outcome JsonLayer)
         (excel_layer : Outcome Excel) (tool : ToolInfo) (double_end : bool),
    num_attr tool cut_diameter = VNum fzero
    \/ num_attr tool length_of_cut = VNum fzero
    \/ num_attr tool shank_diameter = VNum fzero ->
    calc_prep_time json_layer excel_layer tool false double_end = Failure 206.
Proof.
  intros F R json_layer excel_layer tool double_end H.
  unfold calc_prep_time. cbn [bind existsb].
  destruct H as [-> | [-> | ->]]; rewrite feqb_zero;
    rewrite ?orb_true_r; reflexivity.
Qed.

(** X20. The prep calculation the handler runs writes the prep text and the
    prep time on the record, and on the way the tip diameter and main angle
    of a chamfer prep and the default tapered-neck angle; every other
    attribute of the record it returns is the one it got. *)
Theorem calc_prep_time_effect :
  forall (F : PyFloat) (R : PyRuntime) (json_layer : Outcome JsonLayer)
         (excel_layer : Outcome Excel) (tool tool' : ToolInfo) (double_end : bool),
    calc_prep_time json_layer excel_layer tool false double_end = Ok tool' ->
    (forall a, a <> prep_type -> str_attr tool' a = str_attr tool a)
    /\ (forall a, a <> prep_cycle_time -> a <> tapered_neck_angle ->
                  a <> tip_diameter -> a <> main_angle ->
                  num_attr tool' a = num_attr tool a)
    /\ (num_attr tool' prep_cycle_time = num_attr tool prep_cycle_time
        \/ is_number (num_attr tool' prep_cycle_time)).
Proof.
  intros F R json_layer excel_layer tool tool' double_end H.
  destruct (calc_prep_time_attrs _ _ _ _ _ H) as [Hs Hn].
  split; [exact Hs|]. split; [exact Hn|].
  unfold calc_prep_time in H.
  unbind H tool0 H0. apply Ok_inj in H0. subst tool0.
  destruct (existsb _ _); [discriminate H|].
  unbind H layer Hlayer. unbind H excel Hexcel.
  unbind H r Hops. destruct r as [tool1 table]. cbv beta iota in H.
  apply Ok_inj in H. subst tool'.
  destruct (prep_operations_attrs _ _ _ _ _ Hops) as [_ Hn1].
  unfold store_prep.
  destruct (total_prep_time (prep_type_of table) double_end) as [total robot_time].
  destruct (prep_type_of table).
  - left. apply Hn1; discriminate.
  - right. exists total. reflexivity.
Qed.

(** ** The closest row, on rational numbers *)

Section ClosestQ.

Lemma ltb_false_le (x y : Q) : QFloat.ltb x y = false -> (y <= x)%Q.
Proof.
  unfold QFloat.ltb. destruct (Qcompare x y) eqn:E; intros H; try discriminate H.
  - apply Qeq_alt in E. rewrite E. apply Qle_refl.
  - apply Qgt_alt in E. apply Qlt_le_weak. exact E.
Qed.

Lemma ltb_true_lt (x y : Q) : QFloat.ltb x y = true -> (x < y)%Q.
Proof.
  unfold QFloat.ltb. destruct (Qcompare x y) eqn:E; intros H; try discriminate H.
  apply Qlt_alt. exact E.
Qed.

Lemma first_min_least {A : Type} (key : A -> Q) (l : list A) :
  forall best : A,
    (key (first_min (F := QFloat.ops) key best l) <= key best)%Q
    /\ forall x, In x l -> (key (first_min (F := QFloat.ops) key best l) <= key x)%Q.
Proof.
  induction l as [|y l IH]; intros best; cbn [first_min].
  - split; [apply Qle_refl | intros x []].
  - cbn [fltb QFloat.ops].
    destruct (QFloat.ltb (key y) (key best)) eqn:E.
    + destruct (IH y) as [H1 H2]. split.
      * eapply Qle_trans; [exact H1|]. apply Qlt_le_weak, ltb_true_lt, E.
      * intros x [<- | Hin]; [exact H1 | apply H2; exact Hin].
    + destruct (IH best) as [H1 H2]. split; [exact H1|].
      intros x [<- | Hin]; [|apply H2; exact Hin].
      eapply Qle_trans; [exact H1|]. apply ltb_false_le, E.
Qed.

End ClosestQ.

(** X21. On rational numbers [closest_row] is what its name says: no row of
    the sheet has a removed volume nearer to the one asked for than the row
    it returns. *)
Theorem closest_row_is_closest :
  forall (rows : list (@PrepRow QFloat.ops)) (vol : Q) (row : @PrepRow QFloat.ops),
    closest_row rows vol = Ok row ->
    In row rows
    /\ forall other, In other rows ->
         (Qabs (reduction_vol row - vol) <= Qabs (reduction_vol other - vol))%Q.
Proof.
  intros rows vol row H.
  split; [exact (closest_row_In _ _ _ H)|].
  destruct rows as [|r rs]; [discriminate H|].
  cbn [closest_row] in H. apply Ok_inj in H. subst row.
  set (key := fun row : @PrepRow QFloat.ops =>
                @fabs QFloat.ops (@fsub QFloat.ops (reduction_vol row) vol)).
  destruct (first_min_least key rs r) as [Hbest Hrest].
  assert (Hkey : forall x, (key x == Qabs (reduction_vol x - vol))%Q).
  { intros x. unfold key. cbn [fabs fsub QFloat.ops].
    rewrite Qred_correct. apply Qabs_wd. apply Qred_correct. }
  intros other [<- | Hin].
  - rewrite <- !Hkey. exact Hbest.
  - rewrite <- !Hkey. apply Hrest. exact Hin.
Qed.

(** ** The desktop calculator *)

Section Desktop.
Context {F : PyFloat}.

Lemma mem_In (w : string) (l : list string) : PyStr.mem w l = true -> In w l.
Proof.
  unfold PyStr.mem. intros H. apply existsb_exists in H.
  destruct H as (x & Hin & Heq). apply String.eqb_eq in Heq. subst x. exact Hin.
Qed.

Lemma em_list_ends_in_EM (tool_type : string) :
  In tool_type CycleTimeCalc.em_list -> PyStr.endswith tool_type "EM" = true.
Proof.
  unfold CycleTimeCalc.em_list. intros H. apply filter_In in H.
  destruct H as [_ H]. apply andb_true_iff in H. tauto.
Qed.

(** What stands behind a cycle time of the desktop calculator. *)
Lemma calc_cycle_time_some (ref_df : option (list RateRow)) (unit_mm tert : bool)
    (diameter loc : num) (flute_count : Z) (tool_type : string)
    (result : CycleTimeCalc.CycleTime) :
  CycleTimeCalc.calc_cycle_time ref_df unit_mm tert diameter loc flute_count tool_type
  = Ok (Some result) ->
  exists rows row_values other_rows,
    ref_df = Some rows
    /\ feqb diameter fzero = false /\ feqb loc fzero = false /\ flute_count <> 0
    /\ PyStr.mem tool_type CycleTimeCalc.em_list = true
    /\ PyStr.contains "ALUMAZIP" tool_type = false
    /\ filter (in_range (if unit_mm then fdiv diameter (dec 254 1) else diameter)) rows
       = row_values :: other_rows
    /\ CycleTimeCalc.calc_fl_time result
       = fmul (fmul (fdiv (if unit_mm then fdiv loc (dec 254 1) else loc)
                          (fluting_fr row_values))
                    (dec 25 1))
              (of_Z (if flute_count =? 2 then 4 else flute_count))
    /\ In (CycleTimeCalc.calc_od_time result)
          (let od :=
             fmul (fmul (fdiv (if unit_mm then fdiv loc (dec 254 1) else loc)
                              (od_fr row_values))
                        (dec 25 1))
                  (of_Z flute_count) in
           [od; fmul od (dec 20 1); fmul od (dec 30 1)]).
Proof.
  unfold CycleTimeCalc.calc_cycle_time. intros H.
  destruct (feqb diameter fzero) eqn:Hd; [discriminate H|].
  destruct (feqb loc fzero) eqn:Hl; [discriminate H|].
  destruct (Z.eqb_spec flute_count 0) as [|Hf]; [discriminate H|].
  destruct ref_df as [rows|]; [|discriminate H].
  cbn [orb is_none] in H.
  exists rows.
  destruct unit_mm; cbv beta iota zeta in H;
    (destruct (PyStr.mem tool_type CycleTimeCalc.em_list) eqn:Hmem; [|discriminate H]);
    (destruct (filter _ rows) as [|row_values other_rows] eqn:Hrows; [discriminate H|]);
    (destruct (negb (PyStr.endswith tool_type "EM")); [discriminate H|]);
    exists row_values, other_rows;
    match type of H with
    | context [let '(_, _) := ?p in _] => destruct p as [inc split]
    end;
    (destruct (PyStr.contains "ALUMAZIP" tool_type) eqn:Halu; [discriminate H|]);
    apply Ok_inj in H; injection H as <-;
    cbn [CycleTimeCalc.calc_fl_time CycleTimeCalc.calc_od_time];
    (repeat (split; [first [reflexivity | assumption]|]));
    (split; [destruct (flute_count =? 2); reflexivity|]);
    destruct tert; destruct (fltb _ (fround _ 4)); cbn; auto.
Qed.

End Desktop.

(** X22. The desktop calculator gives a cycle time only for the 24 endmill
    types of its list that start with SQ, CR or BALL, end in EM and are not
    ALUMAZIP, for a non-zero diameter, length of cut and flute count, and
    when a row of the reference sheet brackets the diameter (in inches).
    DRILLMILL EM, ROUGHER EM and WOOD ROUTER, which the type list offers,
    never get one: for them the function runs off its end. *)
Theorem desktop_cycle_time_only_for_endmills :
  forall (F : PyFloat) (ref_df : option (list RateRow)) (unit_mm tert : bool)
         (diameter loc : num) (flute_count : Z) (tool_type : string)
         (result : CycleTimeCalc.CycleTime),
    CycleTimeCalc.calc_cycle_time ref_df unit_mm tert diameter loc flute_count tool_type
    = Ok (Some result) ->
    In tool_type
       ["SQ EM"; "SQ TAPERMILL EM"; "SQ V4 EM"; "SQ V5 EM"; "SQ V7 EM"; "SQ AX EM";
        "SQ F45 EM"; "SQ HY5 EM"; "SQ HYPERMILL EM"; "SQ TWISTERMILL EM";
        "CR EM"; "CR V4 EM"; "CR V5 EM"; "CR V7 EM"; "CR AX EMCR TAPERMILL EM";
        "CR F45 EM"; "CR HY5 EM"; "CR MOLD MILL EM";
        "BALL EM"; "BALL TAPERMILL EM"; "BALL V4 EM"; "BALL V5 EM"; "BALL AX EM";
        "BALL MOLD MILL EM"]
    /\ feqb diameter fzero = false /\ feqb loc fzero = false /\ flute_count <> 0
    /\ exists rows row_values,
         ref_df = Some rows /\ In row_values rows
         /\ in_range (if unit_mm then fdiv diameter (dec 254 1) else diameter)
                     row_values = true.
Proof.
  intros F ref_df unit_mm tert diameter loc flute_count tool_type result H.
  destruct (calc_cycle_time_some _ _ _ _ _ _ _ _ H)
    as (rows & row_values & other_rows & Href & Hd & Hl & Hf & Hmem & Halu & Hrows & _).
  split; [|split; [exact Hd|split; [exact Hl|split; [exact Hf|]]]].
  - apply mem_In in Hmem. vm_compute in Hmem.
    repeat (destruct Hmem as [Hmem | Hmem];
            [subst tool_type;
             first [discriminate Halu | (cbn [In]; tauto)]|]).
    contradiction.
  - exists rows, row_values. split; [exact Href|].
    apply filter_In. rewrite Hrows. left. reflexivity.
Qed.

(** X23. For two flutes the desktop calculator counts four passes for the
    fluting time but two for the OD time, which it then takes once, twice
    (second OD angle) or three times (with the tertiary angle); the service
    counts four passes for both (lines 211-222). *)
Theorem desktop_two_flute_passes :
  forall (F : PyFloat) (ref_df : option (list RateRow)) (unit_mm tert : bool)
         (diameter loc : num) (tool_type : string) (result : CycleTimeCalc.CycleTime),
    CycleTimeCalc.calc_cycle_time ref_df unit_mm tert diameter loc 2 tool_type
    = Ok (Some result) ->
    exists row_values,
      let loc := if unit_mm then fdiv loc (dec 254 1) else loc in
      let od := fmul (fmul (fdiv loc (od_fr row_values)) (dec 25 1)) (of_Z 2) in
      CycleTimeCalc.calc_fl_time result
      = fmul (fmul (fdiv loc (fluting_fr row_values)) (dec 25 1)) (of_Z 4)
      /\ In (CycleTimeCalc.calc_od_time result)
            [od; fmul od (dec 20 1); fmul od (dec 30 1)]
      /\ calc_fl_time
           (base_components loc diameter (fluting_fr row_values) (od_fr row_values)
                            (end_ct row_values) (end_gash_ct row_values)
                            (end_split_ct row_values) 2)
         = CycleTimeCalc.calc_fl_time result
      /\ calc_od_time
           (base_components loc diameter (fluting_fr row_values) (od_fr row_values)
                            (end_ct row_values) (end_gash_ct row_values)
                            (end_split_ct row_values) 2)
         = fmul (fmul (fdiv loc (od_fr row_values)) (dec 25 1)) (of_Z 4).
Proof.
  intros F ref_df unit_mm tert diameter loc tool_type result H.
  destruct (calc_cycle_time_some _ _ _ _ _ _ _ _ H)
    as (rows & row_values & other_rows & _ & _ & _ & _ & _ & _ & _ & Hfl & Hod).
  exists row_values. cbv zeta. cbn [Z.eqb Pos.eqb] in Hfl.
  split; [exact Hfl|]. split; [exact Hod|]. split; [rewrite Hfl|]; reflexivity.
Qed.

(** X24. [validate_input] accepts exactly the texts made of digits, dots and
    slashes: putting a 0 before a leading dot never changes its answer. *)
Theorem validate_input_accepts_digits_dots_slashes :
  forall value : string,
    CycleTimeCalc.validate_input value
    = forallb (fun char => PyStr.mem (String char EmptyString)
                             ["0"; "1"; "2"; "3"; "4"; "5"; "6"; "7"; "8"; "9"; ".";
                              "/"])
              (list_ascii_of_string value).
Proof.
  intros value. unfold CycleTimeCalc.validate_input.
  assert (Hchar : forall char,
             PyStr.contains (String char EmptyString) "0123456789./"
             = PyStr.mem (String char EmptyString)
                 ["0"; "1"; "2"; "3"; "4"; "5"; "6"; "7"; "8"; "9"; "."; "/"]).
  { intros char. destruct char as [[] [] [] [] [] [] [] []]; vm_compute; reflexivity. }
  assert (Hall : forall l,
             forallb (fun char => PyStr.contains (String char EmptyString)
                                    "0123456789./") l
             = forallb (fun char => PyStr.mem (String char EmptyString)
                                      ["0"; "1"; "2"; "3"; "4"; "5"; "6"; "7"; "8"; "9";
                                       "."; "/"]) l).
  { induction l as [|c l IH]; cbn [forallb]; [reflexivity|].
    rewrite Hchar, IH. reflexivity. }
  destruct (PyStr.startswith value "."); rewrite Hall; reflexivity.
Qed.

(** X25. The type list of the desktop calculator has 30 entries, not 31: the
    comma between "CR AX EM" and "CR TAPERMILL EM" is missing, so neither
    of the two is a tool type that can be selected, and their concatenation
    is one (and is timed as a CR endmill).  Every type that is timed ends
    in EM, so the feedrates are always read from the sheet. *)
Theorem desktop_tool_types :
  length CycleTimeCalc.tool_types_list = 30%nat
  /\ PyStr.mem "CR AX EM" CycleTimeCalc.tool_types_list = false
  /\ PyStr.mem "CR TAPERMILL EM" CycleTimeCalc.tool_types_list = false
  /\ PyStr.mem "CR AX EMCR TAPERMILL EM" CycleTimeCalc.em_list = true
  /\ (forall tool_type,
         In tool_type CycleTimeCalc.em_list ->
         In tool_type CycleTimeCalc.tool_types_list
         /\ PyStr.endswith tool_type "EM" = true
         /\ existsb (PyStr.startswith tool_type) ["SQ"; "CR"; "BALL"] = true).
Proof.
  do 4 (split; [vm_compute; reflexivity|]).
  intros tool_type. unfold CycleTimeCalc.em_list. intros H. apply filter_In in H.
  destruct H as [Hin H]. apply andb_true_iff in H. destruct H as [H1 H2].
  split; [exact Hin|]. split; [exact H2|].
  unfold CycleTimeCalc.em_list_type_list in H1. exact H1.
Qed.

(** ** What [parse_description] returns *)

(** X26. A record that [parse_description] returns keeps the request's
    description in upper case as its full description, has a base
    description that is one of the tool types of the taxonomy, a flute
    count that is not empty, and numbers as its four main dimensions; its
    text attributes other than the descriptions and the flute count are
    those of the record it got. *)
Theorem parse_description_result :
  forall (F : PyFloat) (R : PyRuntime) (layer_detail : Outcome JsonLayer)
         (tool tool' : ToolInfo) (using_mm prep : bool) (json : Taxonomy),
    parse_description layer_detail tool using_mm prep = Ok (json, tool') ->
    (exists layer, layer_detail = Ok layer /\ json = json_content layer)
    /\ str_attr tool' full_description = PyStr.upper (str_attr tool tool_description)
    /\ PyStr.mem (str_attr tool' formatted_description) (tool_types_list json) = true
    /\ str_attr tool' flute_count <> ""
    /\ (is_number (num_attr tool' cut_diameter)
        /\ is_number (num_attr tool' length_of_cut)
        /\ is_number (num_attr tool' shank_diameter)
        /\ is_number (num_attr tool' overall_length))
    /\ (forall a,
           a <> full_description -> a <> tool_description -> a <> flute_count ->
           a <> formatted_description -> a <> bur_description ->
           str_attr tool' a = str_attr tool a).
Proof.
  intros F R layer_detail tool tool' using_mm prep json H.
  destruct (parse_description_attrs _ _ _ _ _ _ H)
    as (layer & _ & _ & _ & _ & Hlayer & Hjson & _ & Hstr & _).
  destruct (parse_description_strings _ _ _ _ _ _ H) as (Hfull & Hknown & Hcount).
  pose proof (parse_description_numbers _ _ _ _ _ _ H) as Hnumbers.
  split; [exists layer; split; assumption|].
  repeat (split; [assumption|]). exact Hstr.
Qed.

(** X27. With [PREP] the parser is strict about the neck: a working
    description that names a NECK without a neck dimension the pattern
    finds is error 209, whereas without [PREP] the same description passes
    the neck stage with the record untouched (lines 586-589). *)
Theorem neck_without_dimension :
  forall (F : PyFloat) (R : PyRuntime) (layer : JsonLayer) (tool : ToolInfo)
         (using_mm : bool),
    re_search neck_pattern (working_description layer tool) = None ->
    PyStr.contains "NECK" (working_description layer tool) = true ->
    parse_description (Ok layer) tool using_mm true = Failure 209
    /\ forall tool0,
        extract_neck tool0 (working_description layer tool) false
        = Ok (tool0, fzero, PyStr.split_char " " (working_description layer tool)).
Proof.
  intros F R layer tool using_mm Hre Hneck. split.
  - unfold parse_description. cbn [bind].
    fold (working_description layer tool).
    unfold extract_neck. rewrite Hre, Hneck. reflexivity.
  - intros tool0. unfold extract_neck. rewrite Hre. reflexivity.
Qed.

(** ** The properties at sample inputs *)

Lemma ok_value {A : Type} (default : A) (o : Outcome A) :
  is_ok o = true -> o = Ok (value_of default o).
Proof. destruct o; intros H; [reflexivity | discriminate H | discriminate H]. Qed.

Lemma part_request_ok :
  @lambda_handler QFloat.ops QRuntime.ops (Sample.layer 10) Cases.part_request
  = Ok (Sample.response_of 10 Cases.part_request).
Proof.
  unfold Sample.response_of.
  assert (Hok : is_ok (@lambda_handler QFloat.ops QRuntime.ops
                         (Sample.layer 10) Cases.part_request) = true)
    by (vm_compute; reflexivity).
  destruct (@lambda_handler QFloat.ops QRuntime.ops (Sample.layer 10) Cases.part_request);
    [reflexivity | discriminate Hok | discriminate Hok].
Qed.

(** X1 at a sample input. *)
Lemma response_description_is_uppercased_witness :
  exists description,
    Description Sample.oval_request = Some description
    /\ description <> ""
    /\ resp_Description (Sample.response_of 10 Sample.oval_request)
       = PyStr.upper description.
Proof.
  exact (response_description_is_uppercased QFloat.ops QRuntime.ops (Sample.layer 10)
           Sample.oval_request _ oval_request_ok).
Defined.

(** X2 at a sample input. *)
Lemma response_family_is_classified_witness :
  In (Family (Sample.response_of 10 Sample.endmill_request)) FAMILIES
  /\ exists tool feature report,
       @request_detail QFloat.ops QRuntime.ops (Sample.layer 10) Sample.endmill_request
       = Ok (tool, feature, report)
       /\ In (Family (Sample.response_of 10 Sample.endmill_request),
              str_attr tool reference_family)
             [("EM", "SQ EM"); ("WR", "SQ EM"); ("DRILL", "SQ EM"); ("FBGR", "BUR");
              ("O-FLUTE", "SQ EM"); ("WR COMP", "SQ EM"); ("BUR", "BUR")].
Proof.
  exact (response_family_is_classified QFloat.ops QRuntime.ops (Sample.layer 10)
           Sample.endmill_request _ endmill_request_ok).
Defined.


(** X4 at a sample input. *)
Lemma response_flute_count_parses_witness :
  exists fl_cnt1 fl_cnt2,
    parse_flute_count (resp_FluteCount (Sample.response_of 10 Sample.endmill_request))
    = Ok (fl_cnt1, fl_cnt2)
    /\ resp_FluteCount (Sample.response_of 10 Sample.endmill_request) <> "".
Proof.
  exact (response_flute_count_parses QFloat.ops QRuntime.ops (Sample.layer 10)
           Sample.endmill_request _ endmill_request_ok).
Defined.

(** X7 at a sample input. *)
Lemma lambda_handler_missing_key_witness :
  @lambda_handler QFloat.ops QRuntime.ops (Sample.layer 10)
    {| Diameter := Some (VStr "0.25"); LOC := None; ShankDiameter := Some (VStr "");
       OAL := Some (VStr ""); FluteCount := Some "4";
       Description := Some Sample.square_endmill;
       args := Some ["PREP"]; kwargs := None |}
  = Failure 108.
Proof.
  apply lambda_handler_missing_key. cbn [LOC]. right. left. reflexivity.
Defined.

(** X8 at a sample input. *)
Lemma lambda_handler_empty_description_witness :
  @lambda_handler QFloat.ops QRuntime.ops (Sample.layer 10)
    (Sample.event "" "4" ["PREP"] [])
  = Failure 204.
Proof.
  apply lambda_handler_empty_description; cbn; try discriminate. reflexivity.
Defined.

(** X9 at a sample input. *)
Lemma part_number_echo_agrees_with_record_witness :
  PartNumber (Sample.response_of 10 Cases.part_request) = val_str (VStr "101-101")
  /\ exists tool feature report,
       @request_detail QFloat.ops QRuntime.ops (Sample.layer 10) Cases.part_request
       = Ok (tool, feature, report)
       /\ str_attr tool part_number
          = PartNumber (Sample.response_of 10 Cases.part_request).
Proof.
  apply (part_number_echo_agrees_with_record QFloat.ops QRuntime.ops (Sample.layer 10)
           Cases.part_request _ "Part_Num" (VStr "101-101") [] part_request_ok).
  - reflexivity.
  - vm_compute. reflexivity.
  - intros k' v' Hin. destruct Hin.
Defined.


(** X12 at a sample input. *)
Lemma drill_has_no_od_and_no_split_witness :
  exists time inc fl_time end_time gash_time sec_inc,
    feature_list
      (value_of {| fluting_time := 0%Q; report_description := ""; feature_list := [] |}
         (em_branch ["V4"; "AX"] Cases.drill_record new_feature (Sample.q 25 2)
                    (Sample.q 5 1) 4
                    (Sample.row 0%Q (Sample.q 5 1) "" 0%Q 0%Q 2%Q 4%Q 1%Q 1%Q
                                (Sample.q 5 1))
                    "DRILL"))
    = [time; inc; fl_time; fzero; end_time; gash_time; fzero; sec_inc].
Proof.
  apply (drill_has_no_od_and_no_split QFloat.ops ["V4"; "AX"] Cases.drill_record
           new_feature (Sample.q 25 2) (Sample.q 5 1) 4
           (Sample.row 0%Q (Sample.q 5 1) "" 0%Q 0%Q 2%Q 4%Q 1%Q 1%Q (Sample.q 5 1))
           "DRILL").
  - reflexivity.
  - vm_compute. reflexivity.
  - apply ok_value. vm_compute. reflexivity.
Defined.

(** X13 at a sample input. *)
Lemma double_end_doubles_bur_time_witness :
  let single :=
    value_of {| fluting_time := 0%Q; report_description := ""; feature_list := [] |}
      (bur_branch Cases.bur_record Cases.bur_feature (Sample.q 25 2) (Sample.q 375 3)
                  8 5 Cases.bur_rows "OVAL DC") in
  exists double,
    bur_branch Cases.bur_record (set_flag Cases.bur_feature double_end true)
               (Sample.q 25 2) (Sample.q 375 3) 8 5 Cases.bur_rows "OVAL DC"
    = Ok double
    /\ fluting_time double = fmul (fluting_time single) (of_Z 2)
    /\ report_description double = report_description single
    /\ tl (feature_list double) = tl (feature_list single).
Proof.
  cbv zeta.
  apply (double_end_doubles_bur_time QFloat.ops Cases.bur_record Cases.bur_feature).
  - reflexivity.
  - apply ok_value. vm_compute. reflexivity.
Defined.


(** X15 at a sample input. *)
Lemma calc_fluting_time_mass_needs_live_time_witness :
  calc_fluting_time ["V4"; "AX"] (Ok Cases.excel_without_live_time)
                    Cases.endmill_record Cases.mass_feature
  = Failure 105.
Proof.
  apply (calc_fluting_time_mass_needs_live_time QFloat.ops ["V4"; "AX"]
           Cases.excel_without_live_time Cases.endmill_record Cases.mass_feature 4 1);
    reflexivity.
Defined.

(** X16 at a sample input. *)
Lemma match_by_length_side_witness :
  match match_by_length Cases.reduction_rows 4%Q (Sample.q 3 2) with
  | Ok row =>
      In row Cases.reduction_rows
      /\ (if fltb 4%Q (of_Z 8)
          then fltb (length_ratio row) (of_Z 8) = true
          else fgeb (length_ratio row) (of_Z 8) = true)
  | _ => False
  end.
Proof.
  destruct (match_by_length Cases.reduction_rows 4%Q (Sample.q 3 2))
    as [row|code|e] eqn:H.
  - exact (match_by_length_side QFloat.ops _ _ _ _ H).
  - apply (f_equal is_ok) in H. vm_compute in H. discriminate H.
  - apply (f_equal is_ok) in H. vm_compute in H. discriminate H.
Defined.

(** X21 at a sample input. *)
Lemma closest_row_is_closest_witness :
  match closest_row Cases.reduction_rows (Sample.q 3 2) with
  | Ok row =>
      In row Cases.reduction_rows
      /\ forall other, In other Cases.reduction_rows ->
           (Qabs (reduction_vol row - Sample.q 3 2)
            <= Qabs (reduction_vol other - Sample.q 3 2))%Q
  | _ => False
  end.
Proof.
  destruct (closest_row Cases.reduction_rows (Sample.q 3 2)) as [row|code|e] eqn:H.
  - exact (closest_row_is_closest _ _ _ H).
  - apply (f_equal is_ok) in H. vm_compute in H. discriminate H.
  - apply (f_equal is_ok) in H. vm_compute in H. discriminate H.
Defined.

(** X17 at a sample input. *)
Lemma neck_prep_comes_last_witness :
  let neck :=
    {| entry_name := if nk_after_fluting Cases.neck_table
                     then "Neck Prep (After Fluting)"
                     else "Neck Prep (Before Fluting)";
       entry_time := increased (vol_time (nk_info Cases.neck_table));
       entry_vol := vol_reduction_vol (nk_info Cases.neck_table);
       entry_rate := vol_rate (nk_info Cases.neck_table) |} in
  (exists before, prep_type_of Cases.neck_table = before ++ [neck])
  /\ snd (total_prep_time (prep_type_of Cases.neck_table) true) = robot_time_of neck.
Proof.
  apply (neck_prep_comes_last QFloat.ops Cases.neck_table true). reflexivity.
Defined.

(** X19 at a sample input. *)
Lemma calc_prep_time_zero_dimension_witness :
  calc_prep_time (Ok (Sample.json 10)) (Ok Sample.excel)
                 (Sample.tool_of Sample.reduced_endmill) false false
  = Failure 206.
Proof.
  apply (calc_prep_time_zero_dimension QFloat.ops QRuntime.ops). left. reflexivity.
Defined.

(** X20 at a sample input. *)
Lemma calc_prep_time_effect_witness :
  match calc_prep_time (Ok (Sample.json 10)) (Ok Sample.excel) Cases.reduced_record
          false false with
  | Ok tool' =>
      (forall a, a <> prep_type -> str_attr tool' a = str_attr Cases.reduced_record a)
      /\ (forall a, a <> prep_cycle_time -> a <> tapered_neck_angle ->
                    a <> tip_diameter -> a <> main_angle ->
                    num_attr tool' a = num_attr Cases.reduced_record a)
      /\ (num_attr tool' prep_cycle_time = num_attr Cases.reduced_record prep_cycle_time
          \/ is_number (num_attr tool' prep_cycle_time))
  | _ => False
  end.
Proof.
  destruct (calc_prep_time (Ok (Sample.json 10)) (Ok Sample.excel) Cases.reduced_record
              false false) as [tool'|code|e] eqn:H.
  - exact (calc_prep_time_effect QFloat.ops QRuntime.ops _ _ _ _ _ H).
  - apply (f_equal is_ok) in H. vm_compute in H. discriminate H.
  - apply (f_equal is_ok) in H. vm_compute in H. discriminate H.
Defined.

(** X22 at a sample input. *)
Lemma desktop_cycle_time_only_for_endmills_witness :
  match CycleTimeCalc.calc_cycle_time (Some Cases.endmill_rows) true false
          (Sample.q 635 2) (Sample.q 127 1) 4 "BALL AX EM" with
  | Ok (Some result) =>
      In "BALL AX EM"
         ["SQ EM"; "SQ TAPERMILL EM"; "SQ V4 EM"; "SQ V5 EM"; "SQ V7 EM"; "SQ AX EM";
          "SQ F45 EM"; "SQ HY5 EM"; "SQ HYPERMILL EM"; "SQ TWISTERMILL EM";
          "CR EM"; "CR V4 EM"; "CR V5 EM"; "CR V7 EM"; "CR AX EMCR TAPERMILL EM";
          "CR F45 EM"; "CR HY5 EM"; "CR MOLD MILL EM";
          "BALL EM"; "BALL TAPERMILL EM"; "BALL V4 EM"; "BALL V5 EM"; "BALL AX EM";
          "BALL MOLD MILL EM"]
      /\ feqb (Sample.q 635 2) fzero = false /\ feqb (Sample.q 127 1) fzero = false
      /\ 4 <> 0
      /\ exists rows row_values,
           Some Cases.endmill_rows = Some rows /\ In row_values rows
           /\ in_range (if true then fdiv (Sample.q 635 2) (dec 254 1)
                        else Sample.q 635 2) row_values = true
  | _ => False
  end.
Proof.
  destruct (CycleTimeCalc.calc_cycle_time (Some Cases.endmill_rows) true false
              (Sample.q 635 2) (Sample.q 127 1) 4 "BALL AX EM")
    as [[result|]|code|e] eqn:H.
  - exact (desktop_cycle_time_only_for_endmills QFloat.ops _ _ _ _ _ _ _ _ H).
  - apply (f_equal (fun o => match o with Ok (Some _) => true | _ => false end)) in H.
    vm_compute in H. discriminate H.
  - apply (f_equal is_ok) in H. vm_compute in H. discriminate H.
  - apply (f_equal is_ok) in H. vm_compute in H. discriminate H.
Defined.

(** X23 at a sample input. *)
Lemma desktop_two_flute_passes_witness :
  match CycleTimeCalc.calc_cycle_time (Some Cases.endmill_rows) false true
          (Sample.q 25 2) (Sample.q 5 1) 2 "SQ EM" with
  | Ok (Some result) =>
      exists row_values,
        let loc := if false then fdiv (Sample.q 5 1) (dec 254 1) else Sample.q 5 1 in
        let od := fmul (fmul (fdiv loc (od_fr row_values)) (dec 25 1)) (of_Z 2) in
        CycleTimeCalc.calc_fl_time result
        = fmul (fmul (fdiv loc (fluting_fr row_values)) (dec 25 1)) (of_Z 4)
        /\ In (CycleTimeCalc.calc_od_time result)
              [od; fmul od (dec 20 1); fmul od (dec 30 1)]
        /\ calc_fl_time
             (base_components loc (Sample.q 25 2) (fluting_fr row_values)
                              (od_fr row_values) (end_ct row_values)
                              (end_gash_ct row_values) (end_split_ct row_values) 2)
           = CycleTimeCalc.calc_fl_time result
        /\ calc_od_time
             (base_components loc (Sample.q 25 2) (fluting_fr row_values)
                              (od_fr row_values) (end_ct row_values)
                              (end_gash_ct row_values) (end_split_ct row_values) 2)
           = fmul (fmul (fdiv loc (od_fr row_values)) (dec 25 1)) (of_Z 4)
  | _ => False
  end.
Proof.
  destruct (CycleTimeCalc.calc_cycle_time (Some Cases.endmill_rows) false true
              (Sample.q 25 2) (Sample.q 5 1) 2 "SQ EM")
    as [[result|]|code|e] eqn:H.
  - exact (desktop_two_flute_passes QFloat.ops _ _ _ _ _ _ _ H).
  - apply (f_equal (fun o => match o with Ok (Some _) => true | _ => false end)) in H.
    vm_compute in H. discriminate H.
  - apply (f_equal is_ok) in H. vm_compute in H. discriminate H.
  - apply (f_equal is_ok) in H. vm_compute in H. discriminate H.
Defined.

(** X26 at a sample input. *)
Lemma parse_description_result_witness :
  match parse_description (Ok (Sample.json 10)) (Sample.tool_of Sample.metric_drill)
          false false with
  | Ok (json, tool') =>
      (exists layer, Ok (Sample.json 10) = Ok layer /\ json = json_content layer)
      /\ str_attr tool' full_description
         = PyStr.upper (str_attr (Sample.tool_of Sample.metric_drill) tool_description)
      /\ PyStr.mem (str_attr tool' formatted_description) (tool_types_list json) = true
      /\ str_attr tool' flute_count <> ""
      /\ (is_number (num_attr tool' cut_diameter)
          /\ is_number (num_attr tool' length_of_cut)
          /\ is_number (num_attr tool' shank_diameter)
          /\ is_number (num_attr tool' overall_length))
      /\ (forall a,
             a <> full_description -> a <> tool_description -> a <> flute_count ->
             a <> formatted_description -> a <> bur_description ->
             str_attr tool' a = str_attr (Sample.tool_of Sample.metric_drill) a)
  | _ => False
  end.
Proof.
  destruct (parse_description (Ok (Sample.json 10)) (Sample.tool_of Sample.metric_drill)
              false false) as [[json tool']|code|e] eqn:H.
  - exact (parse_description_result QFloat.ops QRuntime.ops _ _ _ _ _ _ H).
  - apply (f_equal is_ok) in H. vm_compute in H. discriminate H.
  - apply (f_equal is_ok) in H. vm_compute in H. discriminate H.
Defined.

(** X27 at a sample input. *)
Lemma neck_without_dimension_witness :
  parse_description (Ok (Sample.json 10)) Cases.bare_neck false true = Failure 209
  /\ forall tool0,
      extract_neck tool0 (working_description (Sample.json 10) Cases.bare_neck) false
      = Ok (tool0, fzero,
            PyStr.split_char " " (working_description (Sample.json 10) Cases.bare_neck)).
Proof.
  apply (neck_without_dimension QFloat.ops QRuntime.ops (Sample.json 10)
           Cases.bare_neck false); vm_compute; reflexivity.
Defined.

(** * The units and the endmill branch, from request to result *)

(** ** The endmill branch: what its outcome holds *)

Section Branch.
Context {F : PyFloat}.

(** The entries of [EM_MAP] are visited in order and the last one that
    matches decides: TAPERMILL makes the secondary OD angle eligible,
    ROUGHER and ALUMAZIP rule it out, the other entries keep what the
    diameter says. *)
Lemma apply_em_map_eligible (description : string) (fl_cnt1 : Z) (inc : num)
    (split sec_od_angle : bool) :
  let matches word :=
    PyStr.startswith description word || PyStr.contains word description in
  snd (apply_em_map description fl_cnt1 (inc, split, sec_od_angle)
         (EM_MAP description sec_od_angle))
  = matches "TAPERMILL"
    || (negb (matches "ROUGHER") && negb (matches "ALUMAZIP") && sec_od_angle).
Proof.
  cbv zeta. unfold apply_em_map, EM_MAP. cbn [fold_left].
  repeat match goal with
         | |- context [if ?c then _ else _] => destruct c
         end;
    destruct sec_od_angle; reflexivity.
Qed.

Lemma check_performance_series_sec (PERF_LIST : list string) (tool_type : string) :
  forall (inc_percentage : num) (split sec_od_angle : bool) (sec_inc : num),
    snd (fst (check_performance_series PERF_LIST tool_type
                (inc_percentage, split, sec_od_angle, sec_inc)))
    = sec_od_angle.
Proof.
  unfold check_performance_series.
  induction PERF_LIST as [|ps rest IH]; intros inc split sec sec_inc; cbn [fold_left].
  - reflexivity.
  - repeat match goal with
           | |- context [if ?c then _ else _] => destruct c
           end; apply IH.
Qed.

Lemma reamer_drill_rules_times (family description : string) (cut_dia loc : num)
    (inc_percentage : num) (split has_end_time : bool)
    (fl_time od_time gash_time : num) :
  let drill := negb (PyStr.contains "REAMER" description) && String.eqb family "DRILL" in
  exists inc' split' end' gash',
    reamer_drill_rules family description cut_dia loc
      (inc_percentage, split, has_end_time, fl_time, od_time, gash_time)
    = (inc', split', end',
       if drill && PyStr.contains "SPADE" description
       then fdiv loc (fdiv (of_Z 5) (dec 254 1)) else fl_time,
       if drill then fzero else od_time,
       gash').
Proof.
  cbv zeta. unfold reamer_drill_rules.
  destruct (PyStr.contains "REAMER" description); cbn [negb andb].
  - eexists _, _, _, _. reflexivity.
  - destruct (String.eqb family "DRILL"); cbn [andb].
    + destruct (PyStr.contains "SPADE" description).
      * eexists _, _, _, _. reflexivity.
      * destruct (fltb cut_dia dia_cutoff); eexists _, _, _, _; reflexivity.
    + eexists _, _, _, _. reflexivity.
Qed.

Lemma adjust_components_times (description : string)
    (tert_od_angle sec_od_angle split end_time : bool) (c : Components) :
  let a := adjust_components description tert_od_angle sec_od_angle split end_time c in
  let staggered := PyStr.contains "STAGGERED" (PyStr.upper description) in
  let od := calc_od_time c in
  let applies := sec_od_angle && negb (feqb od fzero) && negb staggered in
  calc_fl_time (adj_components a) = calc_fl_time c
  /\ calc_od_time (adj_components a)
     = if staggered then fzero
       else if applies && tert_od_angle then fmul od (dec 30 1)
       else if applies then fmul od (dec 20 1)
       else od.
Proof.
  cbv zeta. unfold adjust_components.
  cbn [adj_components calc_fl_time calc_od_time].
  destruct sec_od_angle, tert_od_angle, (feqb (calc_od_time c) fzero),
    (PyStr.contains "STAGGERED" (PyStr.upper description)); cbn; split; reflexivity.
Qed.

(** The fluting and OD components in the outcome of the branch, in terms of
    what it was called with. *)
Lemma em_branch_times (PERF_LIST : list string) (tool : ToolInfo)
    (feature : InputArgData) (cut_dia loc : num) (fl_cnt1 : Z)
    (row_values : RateRow) (description : string) (result : BranchResult) :
  em_branch PERF_LIST tool feature cut_dia loc fl_cnt1 row_values description
  = Ok result ->
  let passes := if (fl_cnt1 =? 2)%Z then 4 else fl_cnt1 in
  let length :=
    if PyStr.contains "STAGGERED" description then fmul cut_dia (of_Z 3)
    else if PyStr.contains "MINI-MILL" (PyStr.upper description)
              && fgtb (fdiv cut_dia loc) (dec 5 1)
         then fmul loc (dec 18 1)
         else loc in
  let scale :=
    if fltb cut_dia (dec 6 2) then fdiv cut_dia (max_diameter row_values)
    else dec 10 1 in
  let fl_base :=
    fmul (fmul (fdiv length (fmul (fluting_fr row_values) scale)) dynamic_variable)
         (of_Z passes) in
  let od_base :=
    fmul (fmul (fdiv length (fmul (od_fr row_values) scale)) dynamic_variable)
         (of_Z passes) in
  let drill := negb (PyStr.contains "REAMER" description)
               && String.eqb (str_attr tool tool_family) "DRILL" in
  let od := if drill then fzero else od_base in
  let matches word :=
    PyStr.startswith description word || PyStr.contains word description in
  let eligible :=
    matches "TAPERMILL"
    || (negb (matches "ROUGHER") && negb (matches "ALUMAZIP")
        && negb (fltb cut_dia dia_cutoff)) in
  let staggered := PyStr.contains "STAGGERED" (PyStr.upper description) in
  let applies := eligible && negb (feqb od fzero) && negb staggered in
  exists time inc end_time gash_time split_time sec_inc,
    feature_list result
    = [time; inc;
       if drill && PyStr.contains "SPADE" description
       then fdiv length (fdiv (of_Z 5) (dec 254 1)) else fl_base;
       if staggered then fzero
       else if applies && flag feature tert_od_angle then fmul od (dec 30 1)
       else if applies then fmul od (dec 20 1)
       else od;
       end_time; gash_time; split_time; sec_inc].
Proof.
  intros H. cbv zeta.
  unfold em_branch in H.
  unbind H loc1 Hloc.
  assert (Hloc1 : loc1 = if PyStr.contains "MINI-MILL" (PyStr.upper description)
                              && fgtb (fdiv cut_dia loc) (dec 5 1)
                         then fmul loc (dec 18 1) else loc).
  { destruct (PyStr.contains "MINI-MILL" (PyStr.upper description)).
    - unbind Hloc ratio Hratio. apply Ok_inj in Hloc. subst loc1.
      unfold pydiv in Hratio. destruct (feqb loc fzero); [discriminate Hratio|].
      apply Ok_inj in Hratio. subst ratio. reflexivity.
    - apply Ok_inj in Hloc. subst loc1. reflexivity. }
  clear Hloc.
  subst loc1.
  match type of H with
  | context [if PyStr.contains "OFX" description then _ else _] =>
      destruct (PyStr.contains "OFX" description)
  end;
    cbv beta iota in H;
    match type of H with
    | context [apply_em_map ?d ?n ?st ?m] =>
        pose proof (apply_em_map_eligible d n (fst (fst st)) (snd (fst st)) (snd st))
          as Hsec;
        cbv zeta in Hsec; cbn [fst snd] in Hsec;
        destruct (apply_em_map d n st m) as [[inc1 split1] sec1]
    end;
    cbn [snd] in Hsec; rewrite <- Hsec; clear Hsec;
    cbv beta iota in H;
    match type of H with
    | context [reamer_drill_rules ?f description ?c ?l (?i, ?s, ?e, ?fl, ?o, ?g)] =>
        destruct (reamer_drill_rules_times f description c l i s e fl o g)
          as (inc2 & split2 & end2 & gash2 & Hrules);
        rewrite Hrules in H; clear Hrules
    end;
    cbv beta iota in H;
    destruct (flag feature performance);
    try (match type of H with
         | context [check_performance_series ?P ?d (?i, ?s, ?sec, ?si)] =>
             pose proof (check_performance_series_sec P d i s sec si) as Hperf;
             destruct (check_performance_series P d (i, s, sec, si))
               as [[[inc3 split3] sec3] sec_inc3];
             cbn [fst snd] in Hperf; subst sec3
         end);
    cbv beta iota in H;
    match type of H with
    | context [adjust_components ?d ?t ?s ?sp ?e ?c] =>
        destruct (adjust_components_times d t s sp e c) as [Hfl Hod];
        cbn [calc_fl_time calc_od_time] in Hfl, Hod
    end;
    unbind H time Htime; apply Ok_inj in H; subst result;
    cbn [feature_list]; rewrite Hfl, Hod;
    unfold base_components;
    destruct (fl_cnt1 =? 2)%Z; cbn [calc_fl_time calc_od_time];
    eexists _, _, _, _, _, _; reflexivity.
Qed.

(** Outside the bur family a result of [calc_fluting_time] is the outcome
    of the endmill branch on the first row selected from the rate sheet. *)
Lemma calc_fluting_time_em_branch (PERF_LIST : list string) (excel_data : Outcome Excel)
    (tool tool' : ToolInfo) (feature feature' : InputArgData) (report : Detail) :
  calc_fluting_time PERF_LIST excel_data tool feature = Ok (tool', feature', report) ->
  str_attr tool reference_family <> "BUR" ->
  exists (fl_cnt1 fl_cnt2 : Z) (excel : Excel) (rows rest : list RateRow)
         (row_values : RateRow) (cut_dia0 cut_dia loc : num) (description : string)
         (result : BranchResult),
    parse_flute_count (str_attr tool flute_count) = Ok (fl_cnt1, fl_cnt2)
    /\ excel_data = Ok excel
    /\ rate_sheet excel (str_attr tool reference_family) = Some rows
    /\ get_num tool cut_diameter = Ok cut_dia0
    /\ select_rows tool cut_dia0 rows = Ok (row_values :: rest, cut_dia, description)
    /\ get_num tool length_of_cut = Ok loc
    /\ em_branch PERF_LIST tool feature cut_dia loc fl_cnt1 row_values description
       = Ok result
    /\ num_attr tool' fluting_cycle_time = VNum (fround (fluting_time result) 3)
    /\ report = (if flag feature detail
                 then DetailPrint (report_description result) (feature_list result)
                 else if flag feature mass_detail then DetailMass (feature_list result)
                 else DetailDescription (report_description result)).
Proof.
  intros H Hbur.
  destruct (calc_fluting_time_stages _ _ _ _ _ _ _ H)
    as (fl_cnt1 & fl_cnt2 & excel & rows & filtered_df & cut_dia0 & cut_dia & loc
        & description & res & Hcount & Hexcel & _ & Hsheet & Hdia & Hrows & Hloc
        & Hbranch & Htool & _ & _ & Hreport).
  destruct (String.eqb_spec (str_attr tool reference_family) "BUR") as [Heq|_];
    [contradiction|].
  destruct (existsb _ _); [|discriminate Hbranch].
  destruct filtered_df as [|row_values rest]; [discriminate Hbranch|].
  exists fl_cnt1, fl_cnt2, excel, rows, rest, row_values, cut_dia0, cut_dia, loc,
         description, res.
  repeat (split; [assumption|]).
  split; [|exact Hreport].
  subst tool'. cbn [num_attr set_num NumAttr_beq]. reflexivity.
Qed.

End Branch.

(** C6. In the endmill/router/drill branch of [calc_fluting_time] the fluting
    and OD time components are computed as
    [(length of cut / feedrate) * 2.5 * passes], where [passes] is 4 when the
    parsed flute count is exactly 2 and the flute count [n] itself for any
    other [n] (lines 1824-1837).  The length of cut is the one the branch
    works with (3 diameters for a staggered tool, 1.8 times the length for
    a short mini-mill) and the feedrates are those of the first selected
    row of the rate sheet, scaled under a diameter of 0.06.  These are the
    fluting and OD time of [base_components] as the branch calls it, and
    both are followed to the result: the fluting component reported is this
    fluting time (a spade drill has its own), the OD component reported is
    this OD time after the drill rule and the OD-angle rules. *)
Theorem two_flute_effective_multiplier :
  forall (F : PyFloat) (PERF_LIST : list string) (excel_data : Outcome Excel)
         (tool tool' : ToolInfo) (feature feature' : InputArgData) (report : Detail),
    calc_fluting_time PERF_LIST excel_data tool feature = Ok (tool', feature', report) ->
    str_attr tool reference_family <> "BUR" ->
    exists (fl_cnt1 fl_cnt2 : Z) (excel : Excel) (rows rest : list RateRow)
           (row_values : RateRow) (cut_dia0 cut_dia loc : num) (description : string)
           (result : BranchResult),
      parse_flute_count (str_attr tool flute_count) = Ok (fl_cnt1, fl_cnt2)
      /\ excel_data = Ok excel
      /\ rate_sheet excel (str_attr tool reference_family) = Some rows
      /\ get_num tool cut_diameter = Ok cut_dia0
      /\ select_rows tool cut_dia0 rows = Ok (row_values :: rest, cut_dia, description)
      /\ get_num tool length_of_cut = Ok loc
      /\ em_branch PERF_LIST tool feature cut_dia loc fl_cnt1 row_values description
         = Ok result
      /\ report = (if flag feature detail
                   then DetailPrint (report_description result) (feature_list result)
                   else if flag feature mass_detail then DetailMass (feature_list result)
                   else DetailDescription (report_description result))
      /\ let passes := if (fl_cnt1 =? 2)%Z then 4 else fl_cnt1 in
         let length :=
           if PyStr.contains "STAGGERED" description then (cut_dia * of_Z 3)%F
           else if PyStr.contains "MINI-MILL" (PyStr.upper description)
                   && (cut_dia / loc >? dec 5 1)%F
                then (loc * dec 18 1)%F
                else loc in
         let scale :=
           if (cut_dia <? dec 6 2)%F then (cut_dia / max_diameter row_values)%F
           else dec 10 1 in
         let fluting_feedrate := (fluting_fr row_values * scale)%F in
         let od_feedrate := (od_fr row_values * scale)%F in
         let fl_time := (length / fluting_feedrate * dec 25 1 * of_Z passes)%F in
         let od_time := (length / od_feedrate * dec 25 1 * of_Z passes)%F in
         let drill := negb (PyStr.contains "REAMER" description)
                      && String.eqb (str_attr tool tool_family) "DRILL" in
         let od := if drill then fzero else od_time in
         let matches word :=
           PyStr.startswith description word || PyStr.contains word description in
         let eligible :=
           matches "TAPERMILL"
           || (negb (matches "ROUGHER") && negb (matches "ALUMAZIP")
               && negb (cut_dia <? dia_cutoff)%F) in
         let staggered := PyStr.contains "STAGGERED" (PyStr.upper description) in
         let applies := eligible && negb (od == fzero)%F && negb staggered in
         let base :=
           base_components length cut_dia fluting_feedrate od_feedrate (end_ct row_values)
             (end_gash_ct row_values) (end_split_ct row_values) fl_cnt1 in
         calc_fl_time base = fl_time
         /\ calc_od_time base = od_time
         /\ exists time inc end_time gash_time split_time sec_inc,
           feature_list result
           = [time; inc;
              if drill && PyStr.contains "SPADE" description
              then (length / (of_Z 5 / dec 254 1))%F else fl_time;
              if staggered then fzero
              else if applies && flag feature tert_od_angle then (od * dec 30 1)%F
              else if applies then (od * dec 20 1)%F
              else od;
              end_time; gash_time; split_time; sec_inc].
Proof.
  intros F PERF_LIST excel_data tool tool' feature feature' report H Hbur.
  destruct (calc_fluting_time_em_branch _ _ _ _ _ _ _ H Hbur)
    as (fl_cnt1 & fl_cnt2 & excel & rows & rest & row_values & cut_dia0 & cut_dia
        & loc & description & res & Hcount & Hexcel & Hsheet & Hdia & Hrows & Hloc
        & Hbranch & _ & Hreport).
  exists fl_cnt1, fl_cnt2, excel, rows, rest, row_values, cut_dia0, cut_dia, loc,
         description, res.
  repeat (split; [assumption|]).
  cbv zeta.
  split; [unfold base_components; destruct (fl_cnt1 =? 2)%Z; reflexivity|].
  split; [unfold base_components; destruct (fl_cnt1 =? 2)%Z; reflexivity|].
  exact (em_branch_times _ _ _ _ _ _ _ _ _ Hbranch).
Qed.

(** C7. In a result of [calc_fluting_time] outside the bur family a secondary
    OD angle applies exactly when it is eligible (the diameter is not under
    the cutoff, or the tool is a TAPERMILL; never for a ROUGHER or an
    ALUMAZIP), the OD time is not 0.0 and the tool is not staggered
    (lines 1974-1994).  When it applies the OD component reported is the OD
    time multiplied by 2, and by 3 instead when a tertiary OD angle is
    requested; a tertiary angle requested when no secondary angle applies
    multiplies nothing: the OD time stays as it is (0.0 for a staggered
    tool, whose OD time is cleared). *)
Theorem od_angle_multipliers :
  forall (F : PyFloat) (PERF_LIST : list string) (excel_data : Outcome Excel)
         (tool tool' : ToolInfo) (feature feature' : InputArgData) (report : Detail),
    calc_fluting_time PERF_LIST excel_data tool feature = Ok (tool', feature', report) ->
    str_attr tool reference_family <> "BUR" ->
    exists (fl_cnt1 fl_cnt2 : Z) (excel : Excel) (rows rest : list RateRow)
           (row_values : RateRow) (cut_dia0 cut_dia loc : num) (description : string)
           (result : BranchResult),
      parse_flute_count (str_attr tool flute_count) = Ok (fl_cnt1, fl_cnt2)
      /\ excel_data = Ok excel
      /\ rate_sheet excel (str_attr tool reference_family) = Some rows
      /\ get_num tool cut_diameter = Ok cut_dia0
      /\ select_rows tool cut_dia0 rows = Ok (row_values :: rest, cut_dia, description)
      /\ get_num tool length_of_cut = Ok loc
      /\ em_branch PERF_LIST tool feature cut_dia loc fl_cnt1 row_values description
         = Ok result
      /\ report = (if flag feature detail
                   then DetailPrint (report_description result) (feature_list result)
                   else if flag feature mass_detail then DetailMass (feature_list result)
                   else DetailDescription (report_description result))
      /\ let length :=
           if PyStr.contains "STAGGERED" description then (cut_dia * of_Z 3)%F
           else if PyStr.contains "MINI-MILL" (PyStr.upper description)
                   && (cut_dia / loc >? dec 5 1)%F
                then (loc * dec 18 1)%F
                else loc in
         let scale :=
           if (cut_dia <? dec 6 2)%F then (cut_dia / max_diameter row_values)%F
           else dec 10 1 in
         let od_feedrate := (od_fr row_values * scale)%F in
         let od :=
           if negb (PyStr.contains "REAMER" description)
              && String.eqb (str_attr tool tool_family) "DRILL"
           then fzero
           else (length / od_feedrate * dec 25 1
                 * of_Z (if (fl_cnt1 =? 2)%Z then 4 else fl_cnt1))%F in
         let matches word :=
           PyStr.startswith description word || PyStr.contains word description in
         let eligible :=
           matches "TAPERMILL"
           || (negb (matches "ROUGHER") && negb (matches "ALUMAZIP")
               && negb (cut_dia <? dia_cutoff)%F) in
         let staggered := PyStr.contains "STAGGERED" (PyStr.upper description) in
         let applies := eligible && negb (od == fzero)%F && negb staggered in
         exists time inc fl_time od_time end_time gash_time split_time sec_inc,
           feature_list result
           = [time; inc; fl_time; od_time; end_time; gash_time; split_time; sec_inc]
           /\ (applies = true -> flag feature tert_od_angle = false ->
               od_time = (od * dec 20 1)%F)
           /\ (applies = true -> flag feature tert_od_angle = true ->
               od_time = (od * dec 30 1)%F)
           /\ (applies = false -> od_time = if staggered then fzero else od).
Proof.
  intros F PERF_LIST excel_data tool tool' feature feature' report H Hbur.
  destruct (calc_fluting_time_em_branch _ _ _ _ _ _ _ H Hbur)
    as (fl_cnt1 & fl_cnt2 & excel & rows & rest & row_values & cut_dia0 & cut_dia
        & loc & description & res & Hcount & Hexcel & Hsheet & Hdia & Hrows & Hloc
        & Hbranch & _ & Hreport).
  exists fl_cnt1, fl_cnt2, excel, rows, rest, row_values, cut_dia0, cut_dia, loc,
         description, res.
  repeat (split; [assumption|]).
  destruct (em_branch_times _ _ _ _ _ _ _ _ _ Hbranch)
    as (time & inc & end_time & gash_time & split_time & sec_inc & Hlist).
  cbv zeta in Hlist |- *. unfold dynamic_variable in Hlist.
  eexists time, inc, _, _, end_time, gash_time, split_time, sec_inc.
  split; [exact Hlist|].
  split; [|split].
  - intros Happlies Htert. rewrite Happlies, Htert. cbn [andb].
    destruct (PyStr.contains "STAGGERED" (PyStr.upper description));
      [|reflexivity].
    rewrite andb_false_r in Happlies. discriminate Happlies.
  - intros Happlies Htert. rewrite Happlies, Htert. cbn [andb].
    destruct (PyStr.contains "STAGGERED" (PyStr.upper description));
      [|reflexivity].
    rewrite andb_false_r in Happlies. discriminate Happlies.
  - intros Happlies. rewrite Happlies. reflexivity.
Qed.

(** ** Units: what [parse_description] converts *)

Section Units.
Context {F : PyFloat} {R : PyRuntime}.




End Units.


(** ** The properties at sample inputs *)

(** C6 at a 2-flute square endmill of diameter 0.25 with a length of cut
    of 0.5, on a rate sheet with a fluting feedrate of 2 and an OD feedrate
    of 4: the fluting time is 0.5 / 2 * 2.5 * 4 = 2.5 (with 2 passes it
    would be 1.25), and the OD time 0.5 / 4 * 2.5 * 4 = 1.25, doubled by the
    secondary OD angle.  The 4-flute endmill has the same components; the
    3-flute one has 0.5 / 2 * 2.5 * 3 = 1.875 as its fluting time. *)
Lemma two_flute_effective_multiplier_witness :
  match calc_fluting_time ["V4"; "AX"] (Ok Sample.excel) Cases.two_flute_record
          Cases.detail_feature with
  | Ok (tool', feature', report) =>
      (
      exists (fl_cnt1 fl_cnt2 : Z) (excel : Excel) (rows rest : list RateRow)
             (row_values : RateRow) (cut_dia0 cut_dia loc : num) (description : string)
             (result : BranchResult),
        parse_flute_count (str_attr Cases.two_flute_record flute_count) = Ok (fl_cnt1, fl_cnt2)
        /\ (Ok Sample.excel) = Ok excel
        /\ rate_sheet excel (str_attr Cases.two_flute_record reference_family) = Some rows
        /\ get_num Cases.two_flute_record cut_diameter = Ok cut_dia0
        /\ select_rows Cases.two_flute_record cut_dia0 rows
           = Ok (row_values :: rest, cut_dia, description)
        /\ get_num Cases.two_flute_record length_of_cut = Ok loc
        /\ em_branch ["V4"; "AX"] Cases.two_flute_record Cases.detail_feature
             cut_dia loc fl_cnt1 row_values description
           = Ok result
        /\ report = (if flag Cases.detail_feature detail
                     then DetailPrint (report_description result) (feature_list result)
                     else if flag Cases.detail_feature mass_detail
                          then DetailMass (feature_list result)
                     else DetailDescription (report_description result))
        /\ let passes := if (fl_cnt1 =? 2)%Z then 4 else fl_cnt1 in
           let length :=
             if PyStr.contains "STAGGERED" description then (cut_dia * of_Z 3)%F
             else if PyStr.contains "MINI-MILL" (PyStr.upper description)
                     && (cut_dia / loc >? dec 5 1)%F
                  then (loc * dec 18 1)%F
                  else loc in
           let scale :=
             if (cut_dia <? dec 6 2)%F then (cut_dia / max_diameter row_values)%F
             else dec 10 1 in
           let fluting_feedrate := (fluting_fr row_values * scale)%F in
           let od_feedrate := (od_fr row_values * scale)%F in
           let fl_time := (length / fluting_feedrate * dec 25 1 * of_Z passes)%F in
           let od_time := (length / od_feedrate * dec 25 1 * of_Z passes)%F in
           let drill := negb (PyStr.contains "REAMER" description)
                        && String.eqb (str_attr Cases.two_flute_record tool_family) "DRILL" in
           let od := if drill then fzero else od_time in
           let matches word :=
             PyStr.startswith description word || PyStr.contains word description in
           let eligible :=
             matches "TAPERMILL"
             || (negb (matches "ROUGHER") && negb (matches "ALUMAZIP")
                 && negb (cut_dia <? dia_cutoff)%F) in
           let staggered := PyStr.contains "STAGGERED" (PyStr.upper description) in
           let applies := eligible && negb (od == fzero)%F && negb staggered in
           let base :=
             base_components length cut_dia fluting_feedrate od_feedrate (end_ct row_values)
               (end_gash_ct row_values) (end_split_ct row_values) fl_cnt1 in
           calc_fl_time base = fl_time
           /\ calc_od_time base = od_time
           /\ exists time inc end_time gash_time split_time sec_inc,
             feature_list result
             = [time; inc;
                if drill && PyStr.contains "SPADE" description
                then (length / (of_Z 5 / dec 254 1))%F else fl_time;
                if staggered then fzero
                else if applies && flag Cases.detail_feature tert_od_angle then (od * dec 30 1)%F
                else if applies then (od * dec 20 1)%F
                else od;
                end_time; gash_time; split_time; sec_inc])
      /\ match report with
         | DetailPrint _ features =>
             features = [5%Q; 1%Q; (5 # 2)%Q; (5 # 2)%Q; 0%Q; 0%Q; 0%Q; 0%Q]
         | _ => False
         end
  | _ => False
  end
  /\ match calc_fluting_time ["V4"; "AX"] (Ok Sample.excel) Cases.endmill_record
             Cases.detail_feature with
     | Ok (_, _, report) =>
         match report with
         | DetailPrint _ features =>
             features = [5%Q; 1%Q; (5 # 2)%Q; (5 # 2)%Q; 0%Q; 0%Q; 0%Q; 0%Q]
         | _ => False
         end
     | _ => False
     end
  /\ match calc_fluting_time ["V4"; "AX"] (Ok Sample.excel) Cases.three_flute_record
             Cases.detail_feature with
     | Ok (_, _, report) =>
         match report with
         | DetailPrint _ features =>
             features = [(17 # 4)%Q; 1%Q; (15 # 8)%Q; (15 # 8)%Q; 0%Q; 0%Q; (1 # 2)%Q; 0%Q]
         | _ => False
         end
     | _ => False
     end.
Proof.
  split; [|split; vm_compute; reflexivity].
  assert (Hreport :
            match calc_fluting_time ["V4"; "AX"] (Ok Sample.excel)
                    Cases.two_flute_record Cases.detail_feature with
            | Ok (_, _, report) =>
                match report with
                | DetailPrint _ features =>
                    features = [5%Q; 1%Q; (5 # 2)%Q; (5 # 2)%Q; 0%Q; 0%Q; 0%Q; 0%Q]
                | _ => False
                end
            | _ => False
            end) by (vm_compute; reflexivity).
  assert (Hfamily : str_attr Cases.two_flute_record reference_family <> "BUR")
    by (intros E; vm_compute in E; discriminate E).
  destruct (calc_fluting_time ["V4"; "AX"] (Ok Sample.excel) Cases.two_flute_record
              Cases.detail_feature)
    as [[[tool' feature'] report]|code|e] eqn:H; [|exact Hreport..].
  split; [|exact Hreport].
  exact (two_flute_effective_multiplier QFloat.ops _ _ _ _ _ _ _ H Hfamily).
Defined.

(** C7 at the 4-flute square endmill (OD time 0.5 / 4 * 2.5 * 4 = 1.25, a
    secondary OD angle applies): with [TERT] the OD time is 3.75, without it
    2.5; at diameter 0.1, under the cutoff of 0.1181, no secondary angle
    applies and [TERT] leaves the OD time at 1.25. *)
Lemma od_angle_multipliers_witness :
  match calc_fluting_time ["V4"; "AX"] (Ok Sample.excel) Cases.endmill_record
          Cases.tert_feature with
  | Ok (tool', feature', report) =>
      (
      exists (fl_cnt1 fl_cnt2 : Z) (excel : Excel) (rows rest : list RateRow)
             (row_values : RateRow) (cut_dia0 cut_dia loc : num) (description : string)
             (result : BranchResult),
        parse_flute_count (str_attr Cases.endmill_record flute_count) = Ok (fl_cnt1, fl_cnt2)
        /\ (Ok Sample.excel) = Ok excel
        /\ rate_sheet excel (str_attr Cases.endmill_record reference_family) = Some rows
        /\ get_num Cases.endmill_record cut_diameter = Ok cut_dia0
        /\ select_rows Cases.endmill_record cut_dia0 rows
           = Ok (row_values :: rest, cut_dia, description)
        /\ get_num Cases.endmill_record length_of_cut = Ok loc
        /\ em_branch ["V4"; "AX"] Cases.endmill_record Cases.tert_feature
             cut_dia loc fl_cnt1 row_values description
           = Ok result
        /\ report = (if flag Cases.tert_feature detail
                     then DetailPrint (report_description result) (feature_list result)
                     else if flag Cases.tert_feature mass_detail
                          then DetailMass (feature_list result)
                     else DetailDescription (report_description result))
        /\ let length :=
             if PyStr.contains "STAGGERED" description then (cut_dia * of_Z 3)%F
             else if PyStr.contains "MINI-MILL" (PyStr.upper description)
                     && (cut_dia / loc >? dec 5 1)%F
                  then (loc * dec 18 1)%F
                  else loc in
           let scale :=
             if (cut_dia <? dec 6 2)%F then (cut_dia / max_diameter row_values)%F
             else dec 10 1 in
           let od_feedrate := (od_fr row_values * scale)%F in
           let od :=
             if negb (PyStr.contains "REAMER" description)
                && String.eqb (str_attr Cases.endmill_record tool_family) "DRILL"
             then fzero
             else (length / od_feedrate * dec 25 1
                   * of_Z (if (fl_cnt1 =? 2)%Z then 4 else fl_cnt1))%F in
           let matches word :=
             PyStr.startswith description word || PyStr.contains word description in
           let eligible :=
             matches "TAPERMILL"
             || (negb (matches "ROUGHER") && negb (matches "ALUMAZIP")
                 && negb (cut_dia <? dia_cutoff)%F) in
           let staggered := PyStr.contains "STAGGERED" (PyStr.upper description) in
           let applies := eligible && negb (od == fzero)%F && negb staggered in
           exists time inc fl_time od_time end_time gash_time split_time sec_inc,
             feature_list result
             = [time; inc; fl_time; od_time; end_time; gash_time; split_time; sec_inc]
             /\ (applies = true -> flag Cases.tert_feature tert_od_angle = false ->
                 od_time = (od * dec 20 1)%F)
             /\ (applies = true -> flag Cases.tert_feature tert_od_angle = true ->
                 od_time = (od * dec 30 1)%F)
             /\ (applies = false -> od_time = if staggered then fzero else od))
      /\ match report with
         | DetailPrint _ features =>
             features = [(25 # 4)%Q; 1%Q; (5 # 2)%Q; (15 # 4)%Q; 0%Q; 0%Q; 0%Q; 0%Q]
         | _ => False
         end
  | _ => False
  end
  /\ match calc_fluting_time ["V4"; "AX"] (Ok Sample.excel) Cases.endmill_record
             Cases.detail_feature with
     | Ok (_, _, report) =>
         match report with
         | DetailPrint _ features =>
             features = [5%Q; 1%Q; (5 # 2)%Q; (5 # 2)%Q; 0%Q; 0%Q; 0%Q; 0%Q]
         | _ => False
         end
     | _ => False
     end
  /\ match calc_fluting_time ["V4"; "AX"] (Ok Sample.excel) Cases.small_record
             Cases.tert_feature with
     | Ok (_, _, report) =>
         match report with
         | DetailPrint _ features =>
             features = [(15 # 4)%Q; 1%Q; (5 # 2)%Q; (5 # 4)%Q; 0%Q; 0%Q; 0%Q; 0%Q]
         | _ => False
         end
     | _ => False
     end.
Proof.
  split; [|split; vm_compute; reflexivity].
  assert (Hreport :
            match calc_fluting_time ["V4"; "AX"] (Ok Sample.excel)
                    Cases.endmill_record Cases.tert_feature with
            | Ok (_, _, report) =>
                match report with
                | DetailPrint _ features =>
                    features = [(25 # 4)%Q; 1%Q; (5 # 2)%Q; (15 # 4)%Q; 0%Q; 0%Q; 0%Q; 0%Q]
                | _ => False
                end
            | _ => False
            end) by (vm_compute; reflexivity).
  assert (Hfamily : str_attr Cases.endmill_record reference_family <> "BUR")
    by (intros E; vm_compute in E; discriminate E).
  destruct (calc_fluting_time ["V4"; "AX"] (Ok Sample.excel) Cases.endmill_record
              Cases.tert_feature)
    as [[[tool' feature'] report]|code|e] eqn:H; [|exact Hreport..].
  split; [|exact Hreport].
  exact (od_angle_multipliers QFloat.ops _ _ _ _ _ _ _ H Hfamily).
Defined.

